(** * weiquant-site: the quantitative core, embedded and verified

    A shallow embedding of the four calculators of the dashboard
    (risk scorer, portfolio analyzer, Monte Carlo simulator, backtest
    engine) and the proofs of their documented properties.

    Numbers.  A JavaScript number is either NaN, one of the two
    infinities, or a finite double.  Finite doubles are embedded as
    rationals and arithmetic on them is exact: rounding to 53 bits and
    overflow are idealised, and -0 is identified with 0 (so x/0 is
    +Infinity for every positive x).  Comparisons, truthiness, [||],
    [Math.floor], [Math.round], [Math.min], [Math.max] and the
    propagation of NaN and Infinity follow ECMAScript.  [Math.sqrt],
    [Math.pow], [Math.log], [Math.cos], [Number.prototype.toFixed] and
    the stream of [Math.random] draws are parameters of the development
    (class [Math]).

    Theorems about guards, comparisons and the structure of the loops
    do not depend on this idealisation.  Theorems about the value of a
    sum or of a quotient are stated with a margin that the rounding of
    doubles does not bridge, or are marked as holding in exact
    arithmetic.  Where the rounding changes a documented result, the
    routine is embedded a second time on binary64 numbers (module
    [Binary64]) and run on the input in question. *)

From Stdlib Require Import QArith Qround Qabs Lqa ZArith Lia List String Bool Arith
  Sorted Permutation.
From Corelib Require PrimFloat FloatOps.
Import ListNotations.

Set Implicit Arguments.

(* ================================================================== *)
(** * Part I.  The embedding                                            *)
(* ================================================================== *)

(** ** JavaScript numbers *)

Inductive num : Type :=
| NaN
| PosInf
| NegInf
| Fin (q : Q).

Declare Scope js_scope.
Delimit Scope js_scope with js.
Bind Scope js_scope with num.

Definition Qsgn (q : Q) : comparison := (q ?= 0)%Q.

(** Three-way comparison; [None] as soon as NaN is involved. *)
Definition ncompare (x y : num) : option comparison :=
  match x, y with
  | NaN, _ | _, NaN => None
  | PosInf, PosInf | NegInf, NegInf => Some Eq
  | PosInf, _ | _, NegInf => Some Gt
  | NegInf, _ | _, PosInf => Some Lt
  | Fin a, Fin b => Some (a ?= b)%Q
  end.

Definition ltb (x y : num) : bool :=
  match ncompare x y with Some Lt => true | _ => false end.
Definition leb (x y : num) : bool :=
  match ncompare x y with Some Lt | Some Eq => true | _ => false end.
Definition gtb (x y : num) : bool := ltb y x.
Definition geb (x y : num) : bool := leb y x.
(** [x === y] on numbers. *)
Definition eqb (x y : num) : bool :=
  match ncompare x y with Some Eq => true | _ => false end.

Definition isNaN (x : num) : bool :=
  match x with NaN => true | _ => false end.

(** ToBoolean on a number: 0 and NaN are falsy. *)
Definition truthy (x : num) : bool :=
  match x with
  | NaN => false
  | Fin q => negb (Qeq_bool q 0)
  | _ => true
  end.

Definition neg (x : num) : num :=
  match x with
  | NaN => NaN
  | PosInf => NegInf
  | NegInf => PosInf
  | Fin q => Fin (- q)
  end.

Definition add (x y : num) : num :=
  match x, y with
  | NaN, _ | _, NaN => NaN
  | PosInf, NegInf | NegInf, PosInf => NaN
  | PosInf, _ | _, PosInf => PosInf
  | NegInf, _ | _, NegInf => NegInf
  | Fin a, Fin b => Fin (a + b)
  end.

Definition sub (x y : num) : num := add x (neg y).

(** The infinity whose sign is the product of two signs ([Eq] is the
    sign of the zero that makes the product NaN). *)
Definition signed_inf (s t : comparison) : num :=
  match s, t with
  | Eq, _ | _, Eq => NaN
  | Gt, Gt | Lt, Lt => PosInf
  | _, _ => NegInf
  end.

Definition sgn (x : num) : comparison :=
  match x with
  | NaN => Eq
  | PosInf => Gt
  | NegInf => Lt
  | Fin q => Qsgn q
  end.

Definition mul (x y : num) : num :=
  match x, y with
  | NaN, _ | _, NaN => NaN
  | Fin a, Fin b => Fin (a * b)
  | _, _ => signed_inf (sgn x) (sgn y)
  end.

Definition div (x y : num) : num :=
  match x, y with
  | NaN, _ | _, NaN => NaN
  | Fin a, Fin b =>
      if Qeq_bool b 0 then
        match Qsgn a with Eq => NaN | Gt => PosInf | Lt => NegInf end
      else Fin (a / b)
  | Fin _, _ => Fin 0
  | _, Fin b =>
      signed_inf (sgn x) (match Qsgn b with Eq => Gt | s => s end)
  | _, _ => NaN
  end.

Infix "+" := add : js_scope.
Infix "-" := sub : js_scope.
Infix "*" := mul : js_scope.
Infix "/" := div : js_scope.
Infix "<?" := ltb : js_scope.
Infix "<=?" := leb : js_scope.
Infix ">?" := gtb : js_scope.
Infix ">=?" := geb : js_scope.
Infix "===" := eqb (at level 70) : js_scope.

Definition Math_floor (x : num) : num :=
  match x with
  | Fin q => Fin (inject_Z (Qfloor q))
  | _ => x
  end.

(** [Math.round]: the nearest integer, ties towards +Infinity. *)
Definition Math_round (x : num) : num :=
  match x with
  | Fin q => Fin (inject_Z (Qfloor (q + 0.5)))
  | _ => x
  end.

Definition Math_abs (x : num) : num :=
  match x with
  | NaN => NaN
  | Fin q => Fin (Qabs q)
  | _ => PosInf
  end.

Definition Math_min (x y : num) : num :=
  match x, y with
  | NaN, _ | _, NaN => NaN
  | _, _ => if ltb y x then y else x
  end.

Definition Math_max (x y : num) : num :=
  match x, y with
  | NaN, _ | _, NaN => NaN
  | _, _ => if ltb x y then y else x
  end.

(** [Math.max(...xs)]: -Infinity on no argument. *)
Definition Math_max_of (xs : list num) : num := fold_left Math_max xs NegInf.

(** A property that may be missing reads as [undefined]: [None]. *)
Definition truthy_opt (x : option num) : bool :=
  match x with Some v => truthy v | None => false end.

(** [x || d] where [d] is a number. *)
Definition or_default (x : option num) (d : num) : num :=
  match x with
  | Some v => if truthy v then v else d
  | None => d
  end.

(** ToNumber: [undefined] becomes NaN. *)
Definition to_num (x : option num) : num :=
  match x with Some v => v | None => NaN end.

(** [xs.reduce((a, b) => a + b, 0)]. *)
Definition sum (xs : list num) : num := fold_left add xs (Fin 0).

Definition len {A} (xs : list A) : num :=
  Fin (inject_Z (Z.of_nat (List.length xs))).

(** ToIntegerOrInfinity, as [Array.prototype.slice] applies it to a
    bound: NaN is 0, a finite number is truncated towards zero. *)
Definition Qtrunc (q : Q) : Z :=
  if Qle_bool 0 q then Qfloor q else Qceiling q.

(** [xs.slice(0, k)]. *)
Definition slice0 {A} (xs : list A) (k : num) : list A :=
  match k with
  | NaN | NegInf => []
  | PosInf => xs
  | Fin q =>
      let z := Qtrunc q in
      if (z <? 0)%Z then firstn (List.length xs - Z.to_nat (- z)) xs
      else firstn (Z.to_nat z) xs
  end.

(** [xs.slice(i, j)] for array indices [i <= j]. *)
Definition slice {A} (xs : list A) (i j : nat) : list A :=
  firstn (j - i) (skipn i xs).

(** [xs[k]] for a number [k]: [undefined] unless [k] is an index. *)
Definition index {A} (xs : list A) (k : num) : option A :=
  match k with
  | Fin q =>
      if Qeq_bool q (inject_Z (Qfloor q)) && (0 <=? Qfloor q)%Z
      then nth_error xs (Z.to_nat (Qfloor q))
      else None
  | _ => None
  end.

(** [xs.sort((a, b) => a - b)]: a stable sort that puts [a] after [b]
    exactly when [a - b > 0].  (With NaN among the elements the
    comparator is inconsistent and ECMAScript leaves the order to the
    implementation; the insertion sort below is one such order.) *)
Fixpoint insert_sorted (x : num) (l : list num) : list num :=
  match l with
  | [] => [x]
  | y :: l' => if gtb (sub y x) (Fin 0) then x :: l else y :: insert_sorted x l'
  end.

Definition sort_asc (l : list num) : list num :=
  fold_left (fun acc x => insert_sorted x acc) l [].

(** ** The environment: irrational functions, formatting, randomness *)

Class Math : Type := {
  Math_sqrt : num -> num;
  Math_pow : num -> num -> num;
  Math_log : num -> num;
  Math_cos : num -> num;
  Math_PI : num;
  (** [x.toFixed(digits)] *)
  toFixed : num -> nat -> string;
  (** the n-th draw of [Math.random()] since the start of the call *)
  Math_random : nat -> num;
  (** [new Date().toISOString()] *)
  now : string
}.

(** ** Exceptions *)

Inductive exn : Type :=
| TypeError (what : string)
| Error (message : string).

Inductive res (A : Type) : Type :=
| Ok (a : A)
| Throw (e : exn).
Arguments Ok {A} a.
Arguments Throw {A} e.

Definition bind {A B} (m : res A) (k : A -> res B) : res B :=
  match m with
  | Ok a => k a
  | Throw e => Throw e
  end.

Notation "x <- m ;; k" := (bind m (fun x => k))
  (at level 61, m at next level, right associativity).

(** Reading a property of [undefined]. *)
Definition undefined_read : exn :=
  TypeError "Cannot read properties of undefined".

(** Reading a property of [xs[i]]: a TypeError when [xs[i]] is
    [undefined]. *)
Definition at_index {A} (xs : list A) (i : nat) : res A :=
  match nth_error xs i with
  | Some a => Ok a
  | None => Throw undefined_read
  end.

(* ------------------------------------------------------------------ *)
(** ** RiskScorer ([ProfessionalRiskAssessment])                        *)
(* ------------------------------------------------------------------ *)

Module Risk.

Open Scope js_scope.

Record Level : Type := {
  key : option string;
  range : num * num;
  color : string;
  label : string;
  score : option num
}.

Definition mkLevel (lo hi : Q) (c l : string) : Level :=
  {| key := None; range := (Fin lo, Fin hi); color := c; label := l;
     score := None |}.

(** [this.riskLevels], in insertion order. *)
Definition MINIMAL := mkLevel 0 20 "green" "Minimal Risk".
Definition LOW := mkLevel 20 40 "lime" "Low Risk".
Definition MODERATE := mkLevel 40 60 "yellow" "Moderate Risk".
Definition ELEVATED := mkLevel 60 75 "orange" "Elevated Risk".
Definition HIGH := mkLevel 75 90 "red" "High Risk".
Definition EXTREME := mkLevel 90 100 "darkred" "Extreme Risk".

Definition riskLevels : list (string * Level) :=
  [("MINIMAL", MINIMAL); ("LOW", LOW); ("MODERATE", MODERATE);
   ("ELEVATED", ELEVATED); ("HIGH", HIGH); ("EXTREME", EXTREME)]%string.

(** [{ key: key, ...level, score: riskScore }] *)
Definition keyed (k : string) (level : Level) (riskScore : num) : Level :=
  {| key := Some k; range := range level; color := color level;
     label := label level; score := Some riskScore |}.

Fixpoint getRiskLevel_from (entries : list (string * Level)) (riskScore : num)
  : Level :=
  match entries with
  | [] => EXTREME
  | (k, level) :: rest =>
      if (riskScore >=? fst (range level)) && (riskScore <? snd (range level))
      then keyed k level riskScore
      else getRiskLevel_from rest riskScore
  end.

Definition getRiskLevel (riskScore : num) : Level :=
  getRiskLevel_from riskLevels riskScore.

(** The inputs.  [marketData] is read both as an array of prices
    ([series]; empty when the object has no length) and as a record of
    optional indicators. *)
Record MarketData : Type := {
  series : list num;
  avgVolume : option num;
  bidAskSpread : option num;
  avgCorrelation : option num;
  contagionIndicator : option num
}.

Record Asset : Type := { weight : num }.

Record Portfolio : Type := {
  beta : option num;
  hasHighYield : bool;
  hasEmergingMarkets : bool;
  hasCrypto : bool;
  assets : option (list Asset);
  size : option num
}.

Record Sentiment : Type := {
  bearish : option num;
  bullish : option num
}.

Record NewsAnalysis : Type := {
  sentiment : option Sentiment;
  sentimentVolatility : option num
}.

Record Components : Type := {
  market : num;
  credit : num;
  liquidity : num;
  sentimentC : num;
  systemic : num
}.

(** An advisory record; the fixed [detail] text is left out. *)
Record Recommendation : Type := {
  type : string;
  priority : string;
  action : string
}.

Record RiskScore : Type := {
  totalRisk : num;
  components : Components;
  level : Level;
  recommendations : list Recommendation
}.

Section WithMath.
Context {M : Math}.

Fixpoint calculateReturns_from (prev : num) (rest : list num) : list num :=
  match rest with
  | [] => []
  | x :: rest' => ((x - prev) / prev) :: calculateReturns_from x rest'
  end.

Definition calculateReturns (data : list num) : list num :=
  match data with
  | [] => []
  | x :: rest => calculateReturns_from x rest
  end.

Definition calculateVolatility (returns : list num) : num :=
  let mean := sum returns / len returns in
  let variance :=
    fold_left (fun s r => s + Math_pow (r - mean) (Fin 2)) returns (Fin 0)
    / len returns in
  Math_sqrt variance.

Definition calculatePortfolioBeta (portfolio : Portfolio) : num :=
  or_default (beta portfolio) (Fin 1.0).

Definition stressScenarios : list (string * num) :=
  [("Market Crash", Fin (-0.20)); ("Interest Rate Shock", Fin (-0.10));
   ("Currency Crisis", Fin (-0.15))]%string.

Definition calculateMarketRisk (marketData : MarketData) (portfolio : Portfolio)
  : num :=
  let returns := calculateReturns (series marketData) in
  let volatility := calculateVolatility returns in
  let beta := calculatePortfolioBeta portfolio in
  let maxStressLoss :=
    Math_max_of (map (fun s => Math_abs (snd s)) stressScenarios) in
  let riskScore := Fin 0 in
  let riskScore :=
    if volatility <? Fin 0.10 then riskScore + Fin 10
    else if volatility <? Fin 0.20 then riskScore + Fin 20
    else if volatility <? Fin 0.30 then riskScore + Fin 30
    else riskScore + Fin 40 in
  let riskScore :=
    if Math_abs (beta - Fin 1) <? Fin 0.3 then riskScore + Fin 10
    else if Math_abs (beta - Fin 1) <? Fin 0.6 then riskScore + Fin 20
    else riskScore + Fin 30 in
  let riskScore := riskScore + maxStressLoss * Fin 150 in
  Math_min (Fin 100) riskScore.

Definition calculateDiversification (portfolio : Portfolio) : num :=
  let weights :=
    match assets portfolio with
    | Some l => map weight l
    | None => [Fin 1]
    end in
  let herfindahl := fold_left (fun s w => s + w * w) weights (Fin 0) in
  Fin 1 - herfindahl.

Definition calculateCreditRisk (portfolio : Portfolio) : num :=
  let creditScore := Fin 30 in
  let creditScore :=
    if hasHighYield portfolio then creditScore + Fin 20 else creditScore in
  let creditScore :=
    if hasEmergingMarkets portfolio then creditScore + Fin 15 else creditScore in
  let creditScore :=
    if hasCrypto portfolio then creditScore + Fin 25 else creditScore in
  let diversificationScore := calculateDiversification portfolio in
  let creditScore := creditScore - diversificationScore * Fin 10 in
  Math_max (Fin 0) (Math_min (Fin 100) creditScore).

Definition calculateAverageVolume (marketData : MarketData) : num :=
  or_default (avgVolume marketData) (Fin 1000000).

Definition calculateLiquidityRisk (marketData : MarketData)
  (portfolio : Portfolio) : num :=
  let avgVolume := calculateAverageVolume marketData in
  let volumeRatio := to_num (size portfolio) / avgVolume in
  let liquidityScore := Fin 20 in
  let liquidityScore :=
    if volumeRatio >? Fin 0.1 then liquidityScore + Fin 40
    else if volumeRatio >? Fin 0.05 then liquidityScore + Fin 30
    else if volumeRatio >? Fin 0.01 then liquidityScore + Fin 20
    else liquidityScore + Fin 10 in
  let spread := or_default (bidAskSpread marketData) (Fin 0.001) in
  let liquidityScore := liquidityScore + Math_min (Fin 40) (spread * Fin 10000) in
  Math_min (Fin 100) liquidityScore.

Definition calculateSentimentVolatility (newsAnalysis : NewsAnalysis) : num :=
  or_default (sentimentVolatility newsAnalysis) (Fin 0.3).

Definition calculateSentimentRisk (newsAnalysis : option NewsAnalysis) : num :=
  match newsAnalysis with
  | None => Fin 50
  | Some na =>
      let s :=
        match sentiment na with
        | Some s => s
        | None => {| bearish := None; bullish := None |}
        end in
      let bearishScore := or_default (bearish s) (Fin 0) in
      let volatilityOfSentiment := calculateSentimentVolatility na in
      let sentimentRisk := bearishScore in
      let sentimentRisk := sentimentRisk + volatilityOfSentiment * Fin 20 in
      let sentimentRisk :=
        if (bearishScore >? Fin 70) || (to_num (bullish s) >? Fin 70)
        then sentimentRisk + Fin 15 else sentimentRisk in
      Math_min (Fin 100) sentimentRisk
  end.

Definition calculateAverageCorrelation (marketData : MarketData) : num :=
  or_default (avgCorrelation marketData) (Fin 0.4).

Definition calculateContagionRisk (marketData : MarketData) : num :=
  or_default (contagionIndicator marketData) (Fin 0.3).

Definition calculateSystemicRisk (marketData : MarketData) : num :=
  let avgCorrelation := calculateAverageCorrelation marketData in
  let contagionRisk := calculateContagionRisk marketData in
  let systemicScore := Fin 30 in
  let systemicScore :=
    if avgCorrelation >? Fin 0.7 then systemicScore + Fin 40
    else if avgCorrelation >? Fin 0.5 then systemicScore + Fin 25
    else if avgCorrelation >? Fin 0.3 then systemicScore + Fin 15
    else systemicScore in
  let systemicScore := systemicScore + contagionRisk * Fin 30 in
  Math_min (Fin 100) systemicScore.

Definition key_is (l : Level) (k : string) : bool :=
  match key l with
  | Some k' => String.eqb k' k
  | None => false
  end.

Definition generateRiskRecommendations (totalRisk : num) (c : Components)
  : list Recommendation :=
  let level := getRiskLevel totalRisk in
  let overall :=
    if key_is level "MINIMAL" || key_is level "LOW" then
      {| type := "opportunity"; priority := "medium";
         action := "Consider increasing risk exposure" |}
    else if key_is level "MODERATE" then
      {| type := "maintain"; priority := "low";
         action := "Maintain current risk profile" |}
    else if key_is level "ELEVATED" then
      {| type := "caution"; priority := "high";
         action := "Review and potentially reduce risk exposure" |}
    else
      {| type := "urgent"; priority := "critical";
         action := "Immediate risk reduction required" |} in
  [overall]
  ++ (if market c >? Fin 70 then
        [{| type := "hedging"; priority := "high";
            action := "Implement market hedging strategies" |}] else [])
  ++ (if liquidity c >? Fin 60 then
        [{| type := "liquidity"; priority := "high";
            action := "Improve portfolio liquidity" |}] else [])
  ++ (if credit c >? Fin 65 then
        [{| type := "quality"; priority := "medium";
            action := "Upgrade credit quality" |}] else [])
  ++ (if systemic c >? Fin 70 then
        [{| type := "diversification"; priority := "high";
            action := "Increase portfolio diversification" |}] else []).

Definition weight_market : num := Fin 0.35.
Definition weight_credit : num := Fin 0.20.
Definition weight_liquidity : num := Fin 0.15.
Definition weight_sentiment : num := Fin 0.15.
Definition weight_systemic : num := Fin 0.15.

(** (The weighted sum is exact here.  The code adds five rounded
    products; the same routine on doubles is
    [Binary64.Risk.calculateRiskScore].) *)
Definition calculateRiskScore (marketData : MarketData) (portfolio : Portfolio)
  (newsAnalysis : option NewsAnalysis) : RiskScore :=
  let marketRisk := calculateMarketRisk marketData portfolio in
  let creditRisk := calculateCreditRisk portfolio in
  let liquidityRisk := calculateLiquidityRisk marketData portfolio in
  let sentimentRisk := calculateSentimentRisk newsAnalysis in
  let systemicRisk := calculateSystemicRisk marketData in
  let totalRisk :=
    marketRisk * weight_market + creditRisk * weight_credit
    + liquidityRisk * weight_liquidity + sentimentRisk * weight_sentiment
    + systemicRisk * weight_systemic in
  let c := {| market := marketRisk; credit := creditRisk;
              liquidity := liquidityRisk; sentimentC := sentimentRisk;
              systemic := systemicRisk |} in
  {| totalRisk := Math_round totalRisk;
     components := c;
     level := getRiskLevel totalRisk;
     recommendations := generateRiskRecommendations totalRisk c |}.

End WithMath.

End Risk.

(* ------------------------------------------------------------------ *)
(** ** PortfolioRiskAnalyzer ([PortfolioAnalyzer])                      *)
(* ------------------------------------------------------------------ *)

Module Analyzer.

Open Scope js_scope.

(** A holding, as the analyzer reads it; every property may be
    missing. *)
Record Asset : Type := {
  type : option string;
  sector : option string;
  region : option string;
  style : option string;
  totalValue : option num;
  buyPrice : option num;
  currentPrice : option num
}.

(** The market context is only tested for presence. *)
Record MarketData : Type := mkMarketData { }.

Record Metrics : Type := {
  m_totalValue : num;
  volatility : num;
  maxDrawdown : num;
  valueAtRisk : num;
  sharpeRatio : num;
  expectedReturn : num;
  beta : num;
  treynorRatio : num
}.

(** An object used as a map from labels to numbers, in insertion
    order. *)
Definition dict : Type := list (string * num).

Record Diversification : Type := {
  assetTypes : dict;
  sectors : dict;
  regions : dict;
  herfindahlIndex : num;
  effectiveN : num;
  diversificationRatio : num;
  isWellDiversified : bool
}.

(** Strengths, weaknesses and recommendations: the fixed template texts
    ([description], [rationale], [benefit]) are left out. *)
Record Finding : Type := {
  category : string;
  impact : string
}.

Record ProsAndCons : Type := {
  pros : list Finding;
  cons : list Finding
}.

Record Recommendation : Type := {
  r_category : string;
  priority : string;
  allocationSuggestion : string
}.

Record Analysis : Type := {
  metrics : Metrics;
  diversification : Diversification;
  prosAndCons : ProsAndCons;
  recommendations : list Recommendation;
  timestamp : string
}.

Definition riskFreeRate : num := Fin 0.02.
Definition confidenceLevel : num := Fin 0.95.
Definition tradingDaysPerYear : num := Fin 252.

(** [a || b] on two properties. *)
Definition or_opt (a b : option num) : option num :=
  if truthy_opt a then a else b.

(** [s || d] on a label: the empty string is falsy. *)
Definition or_label (s : option string) (d : string) : string :=
  match s with
  | Some EmptyString | None => d
  | Some v => v
  end.

Definition get (m : dict) (k : string) : option num :=
  match find (fun e => String.eqb (fst e) k) m with
  | Some e => Some (snd e)
  | None => None
  end.

Fixpoint set (m : dict) (k : string) (v : num) : dict :=
  match m with
  | [] => [(k, v)]
  | (k', v') :: m' =>
      if String.eqb k' k then (k', v) :: m' else (k', v') :: set m' k v
  end.

(** [m[k] = (m[k] || 0) + w] *)
Definition bump (m : dict) (k : string) (w : num) : dict :=
  set m k (or_default (get m k) (Fin 0) + w).

Definition getEmptyAnalysis {M : Math} : Analysis :=
  {| metrics :=
       {| m_totalValue := Fin 0; volatility := Fin 0; maxDrawdown := Fin 0;
          valueAtRisk := Fin 0; sharpeRatio := Fin 0; expectedReturn := Fin 0;
          beta := Fin 0; treynorRatio := Fin 0 |};
     diversification :=
       {| assetTypes := []; sectors := []; regions := [];
          herfindahlIndex := Fin 0; effectiveN := Fin 0;
          diversificationRatio := Fin 0; isWellDiversified := false |};
     prosAndCons := {| pros := []; cons := [] |};
     recommendations := [];
     timestamp := now |}.

Section WithMath.
Context {M : Math}.

Definition calculateTotalValue (portfolio : list Asset) : num :=
  fold_left (fun s asset => s + or_default (totalValue asset) (Fin 0))
    portfolio (Fin 0).

Definition calculateReturns (portfolio : list Asset) : list num :=
  map (fun asset =>
         let buyPrice := or_opt (buyPrice asset) (currentPrice asset) in
         let currentPrice := or_opt (currentPrice asset) buyPrice in
         (to_num currentPrice - to_num buyPrice) / to_num buyPrice)
      portfolio.

(** (The shares and the index below are exact quotients and sums here;
    the same routines on doubles are [Binary64.Analyzer.calculateWeights]
    and [Binary64.Analyzer.calculateHerfindahlIndex].) *)
Definition calculateWeights (portfolio : list Asset) (totalValue' : num)
  : list num :=
  if totalValue' === Fin 0 then map (fun _ => Fin 0) portfolio
  else map (fun asset => or_default (totalValue asset) (Fin 0) / totalValue')
           portfolio.

(** (Mean and variance are exact here: equal returns give a variance
    of 0, where the rounded mean of the code can leave a variance in
    the last place.) *)
Definition calculateVolatility (returns : list num) : num :=
  if (List.length returns <? 2)%nat then Fin 0
  else
    let mean := sum returns / len returns in
    let squaredDiffs := map (fun r => Math_pow (r - mean) (Fin 2)) returns in
    let variance := sum squaredDiffs / (len returns - Fin 1) in
    let dailyVol := Math_sqrt variance in
    dailyVol * Math_sqrt tradingDaysPerYear.

(** [values] grows by one entry per day from the previous one; day [i]
    takes draw [i - 1] (this is the only reader of [Math.random] during
    an analysis). *)
Fixpoint simulate_from (last : num) (i days : nat) : list num :=
  match days with
  | O => []
  | S days' =>
      let dailyReturn := (Math_random (i - 1) - Fin 0.5) * Fin 0.02 in
      let newValue := last * (Fin 1 + dailyReturn) in
      newValue :: simulate_from newValue (S i) days'
  end.

Definition simulateHistoricalValues (portfolio : list Asset) : list num :=
  let days := 252%nat in
  let totalValue := calculateTotalValue portfolio in
  totalValue :: simulate_from totalValue 1 (days - 1).

(** The loop of the two drawdown routines: state [(peak, maxDD)]. *)
Definition drawdown_step (st : num * num) (value : num) : num * num :=
  let '(peak, maxDD) := st in
  let peak := if value >? peak then value else peak in
  let drawdown := (peak - value) / peak in
  (peak, if drawdown >? maxDD then drawdown else maxDD).

Definition calculateMaxDrawdown (portfolio : list Asset) : num :=
  match portfolio with
  | [] => Fin 0
  | _ =>
      let values := simulateHistoricalValues portfolio in
      let peak := to_num (nth_error values 0) in
      snd (fold_left drawdown_step values (peak, Fin 0))
  end.

Definition getZScore (confidenceLevel : num) : num :=
  let z :=
    if confidenceLevel === Fin 0.90 then Some (Fin 1.282)
    else if confidenceLevel === Fin 0.95 then Some (Fin 1.645)
    else if confidenceLevel === Fin 0.99 then Some (Fin 2.326)
    else None in
  or_default z (Fin 1.645).

Definition calculateVaR (totalValue : num) (returns : list num)
  (confidenceLevel : num) : num :=
  if (List.length returns <? 10)%nat then
    let meanReturn :=
      if (0 <? List.length returns)%nat then sum returns / len returns
      else Fin 0 in
    let volatility := calculateVolatility returns in
    let zScore := getZScore confidenceLevel in
    let dailyVaR :=
      totalValue
      * (meanReturn - zScore * volatility / Math_sqrt tradingDaysPerYear) in
    Math_abs (dailyVaR * Math_sqrt (Fin 10))
  else
    let sortedReturns := sort_asc returns in
    let index' := Math_floor ((Fin 1 - confidenceLevel) * len sortedReturns) in
    let percentileLoss := to_num (index sortedReturns index') in
    Math_abs (totalValue * percentileLoss * Math_sqrt (Fin 10)).

(** [volatility] is [None] when the argument is omitted or [null]. *)
Definition calculateSharpeRatio (returns : list num) (volatility : option num)
  : num :=
  match returns with
  | [] => Fin 0
  | _ =>
      let meanReturn := sum returns / len returns in
      let annualizedReturn := meanReturn * tradingDaysPerYear in
      let volatility :=
        match volatility with
        | None => calculateVolatility returns
        | Some v => v
        end in
      if volatility === Fin 0 then Fin 0
      else (annualizedReturn - riskFreeRate) / volatility
  end.

Definition calculateHerfindahlIndex (weights : list num) : num :=
  fold_left (fun s w => s + w * w) weights (Fin 0).

(** [weights[i]] *)
Definition weight_at (weights : list num) (i : nat) : num :=
  to_num (nth_error weights i).

Definition indexed {A} (l : list A) : list (nat * A) :=
  combine (seq 0 (List.length l)) l.

Definition analyzeDiversification (portfolio : list Asset) (weights : list num)
  : Diversification :=
  let '(assetTypes, sectors, regions) :=
    fold_left
      (fun (acc : dict * dict * dict) (e : nat * Asset) =>
         let '(assetTypes, sectors, regions) := acc in
         let '(i, asset) := e in
         (bump assetTypes (or_label (type asset) "unknown") (weight_at weights i),
          bump sectors (or_label (sector asset) "unknown") (weight_at weights i),
          bump regions (or_label (region asset) "domestic") (weight_at weights i)))
      (indexed portfolio) ([], [], []) in
  let herfindahlIndex := calculateHerfindahlIndex weights in
  let effectiveN := Fin 1 / herfindahlIndex in
  {| assetTypes := assetTypes;
     sectors := sectors;
     regions := regions;
     herfindahlIndex := herfindahlIndex;
     effectiveN := effectiveN;
     diversificationRatio := effectiveN / len portfolio;
     isWellDiversified :=
       (effectiveN >? Fin 10) && (herfindahlIndex <? Fin 0.15) |}.

Definition label_is (s : option string) (l : string) : bool :=
  match s with
  | Some v => String.eqb v l
  | None => false
  end.

Definition getAssetTypeWeight (portfolio : list Asset) (weights : list num)
  (type' : string) : num :=
  fold_left
    (fun s (e : nat * Asset) =>
       if label_is (type (snd e)) type' then s + weight_at weights (fst e)
       else s)
    (indexed portfolio) (Fin 0).

Definition getRegionalWeight (portfolio : list Asset) (weights : list num)
  (region' : string) : num :=
  fold_left
    (fun s (e : nat * Asset) =>
       if String.eqb (or_label (region (snd e)) "domestic") region'
       then s + weight_at weights (fst e) else s)
    (indexed portfolio) (Fin 0).

Definition getStyleWeight (portfolio : list Asset) (weights : list num)
  (style' : string) : num :=
  fold_left
    (fun s (e : nat * Asset) =>
       if String.eqb (or_label (style (snd e)) "blend") style'
       then s + weight_at weights (fst e) else s)
    (indexed portfolio) (Fin 0).

Definition hasAssetType (portfolio : list Asset) (type' : string) : bool :=
  existsb (fun asset => label_is (type asset) type') portfolio.

Definition finding (c i : string) : list Finding :=
  [{| category := c; impact := i |}].

Definition evaluatePortfolio (portfolio : list Asset) (weights : list num)
  (d : Diversification) (volatility maxDrawdown sharpeRatio : num)
  : ProsAndCons :=
  let stockWeight := getAssetTypeWeight portfolio weights "stock" in
  let bondWeight := getAssetTypeWeight portfolio weights "bond" in
  let domesticWeight := getRegionalWeight portfolio weights "domestic" in
  let hasRealAssets :=
    hasAssetType portfolio "commodity" || hasAssetType portfolio "reit" in
  {| pros :=
       (if isWellDiversified d then finding "Diversification" "high" else [])
       ++ (if sharpeRatio >? Fin 1
           then finding "Risk-Adjusted Returns" "high" else [])
       ++ (if volatility <? Fin 0.15
           then finding "Low Volatility" "medium" else [])
       ++ (if stockWeight >? Fin 0.8 then []
           else if bondWeight >? Fin 0.6 then []
           else if (stockWeight >? Fin 0.3) && (bondWeight >? Fin 0.2)
           then finding "Balanced Allocation" "medium" else []);
     cons :=
       (if isWellDiversified d then []
        else finding "Concentration Risk" "high")
       ++ (if sharpeRatio >? Fin 1 then []
           else if sharpeRatio <? Fin 0.5
           then finding "Poor Risk-Adjusted Returns" "medium" else [])
       ++ (if volatility <? Fin 0.15 then []
           else if volatility >? Fin 0.30
           then finding "High Volatility" "high" else [])
       ++ (if maxDrawdown >? Fin 0.20
           then finding "Large Drawdown Risk" "high" else [])
       ++ (if stockWeight >? Fin 0.8
           then finding "Equity Concentration" "medium"
           else if bondWeight >? Fin 0.6
           then finding "Conservative Bias" "medium" else [])
       ++ (if domesticWeight >? Fin 0.9
           then finding "Home Bias" "medium" else [])
       ++ (if hasRealAssets then []
           else finding "Missing Real Assets" "low") |}.

Definition recommend (c p a : string) : list Recommendation :=
  [{| r_category := c; priority := p; allocationSuggestion := a |}].

Definition generateRecommendations (portfolio : list Asset)
  (d : Diversification) : list Recommendation :=
  let weights := calculateWeights portfolio (calculateTotalValue portfolio) in
  let internationalWeight :=
    Fin 1 - getRegionalWeight portfolio weights "domestic" in
  let hasInflationProtection :=
    hasAssetType portfolio "tips" || hasAssetType portfolio "commodity" in
  let growthWeight := getStyleWeight portfolio weights "growth" in
  let valueWeight := getStyleWeight portfolio weights "value" in
  let defensiveWeight :=
    getAssetTypeWeight portfolio weights "bond"
    + getAssetTypeWeight portfolio weights "cash" in
  (if herfindahlIndex d >? Fin 0.15
   then recommend "Broad Market Index Funds" "high" "20-30% of portfolio"
   else [])
  ++ (if internationalWeight <? Fin 0.2
      then recommend "Global Equity Funds" "high" "15-25% of portfolio"
      else [])
  ++ (if hasInflationProtection then []
      else recommend "Inflation-Protected Bond Funds (TIPS)" "medium"
             "5-10% of portfolio"
           ++ recommend "Commodity Funds" "medium" "5-10% of portfolio")
  ++ (if hasAssetType portfolio "reit" then []
      else recommend "Real Estate Funds (REITs)" "medium" "5-15% of portfolio")
  ++ (if growthWeight >? Fin 0.7
      then recommend "Value Stock Funds" "low" "10-20% of portfolio"
      else if valueWeight >? Fin 0.7
      then recommend "Growth Stock Funds" "low" "10-20% of portfolio"
      else [])
  ++ (if defensiveWeight <? Fin 0.2
      then recommend "Investment Grade Bond Funds" "high" "15-25% of portfolio"
      else []).

Definition calculateExpectedReturn (returns : list num) : num :=
  match returns with
  | [] => Fin 0
  | _ => sum returns / len returns * tradingDaysPerYear
  end.

Definition calculateBeta (returns : list num) (marketData : option MarketData)
  : num :=
  match marketData, returns with
  | None, _ | _, [] => Fin 1
  | Some _, _ =>
      let vol := calculateVolatility returns in
      Math_min (Fin 2) (Math_max (Fin 0.5) (vol / Fin 0.15))
  end.

Definition calculateTreynorRatio (returns : list num) (beta : num) : num :=
  match returns with
  | [] => Fin 0
  | _ =>
      if beta === Fin 0 then Fin 0
      else
        let meanReturn := sum returns / len returns in
        let annualizedReturn := meanReturn * tradingDaysPerYear in
        (annualizedReturn - riskFreeRate) / beta
  end.

(** [portfolio] is [None] for [null] and [undefined]. *)
Definition analyzePortfolio (portfolio : option (list Asset))
  (marketData : option MarketData) : Analysis :=
  match portfolio with
  | None | Some [] => getEmptyAnalysis
  | Some portfolio =>
      let totalValue := calculateTotalValue portfolio in
      let returns := calculateReturns portfolio in
      let weights := calculateWeights portfolio totalValue in
      let volatility := calculateVolatility returns in
      let maxDrawdown := calculateMaxDrawdown portfolio in
      let valueAtRisk := calculateVaR totalValue returns confidenceLevel in
      let sharpeRatio := calculateSharpeRatio returns (Some volatility) in
      let diversification := analyzeDiversification portfolio weights in
      let prosAndCons :=
        evaluatePortfolio portfolio weights diversification
          volatility maxDrawdown sharpeRatio in
      let recommendations := generateRecommendations portfolio diversification in
      {| metrics :=
           {| m_totalValue := totalValue;
              volatility := volatility;
              maxDrawdown := maxDrawdown;
              valueAtRisk := valueAtRisk;
              sharpeRatio := sharpeRatio;
              expectedReturn := calculateExpectedReturn returns;
              beta := calculateBeta returns marketData;
              treynorRatio :=
                calculateTreynorRatio returns (calculateBeta returns marketData) |};
         diversification := diversification;
         prosAndCons := prosAndCons;
         recommendations := recommendations;
         timestamp := now |}
  end.

End WithMath.

End Analyzer.

(* ------------------------------------------------------------------ *)
(** ** BacktestEngine                                                   *)
(* ------------------------------------------------------------------ *)

Module Backtest.

Open Scope js_scope.

Record Bar : Type := {
  date : string;
  open : num;
  high : num;
  low : num;
  close : num;
  volume : num;
  returns : num
}.

(** [params]: every property may be missing. *)
Record Params : Type := {
  initialCapital : option num;
  maPeriod : option num;
  lookback : option num;
  zScoreThreshold : option num;
  fastPeriod : option num;
  slowPeriod : option num;
  signalPeriod : option num
}.

Inductive Action : Type := BUY | SELL.

Record Trade : Type := {
  t_date : string;
  action : Action;
  price : num;
  shares : num;
  t_value : option num;
  t_cash : option num;
  t_zScore : option num
}.

(** A point of the equity curve; the strategies attach different
    indicators to it. *)
Record Point : Type := {
  p_date : string;
  value : num;
  p_price : option num;
  p_ma : option num;
  p_zScore : option num;
  p_macd : option num;
  p_signal : option num
}.

Record StrategyResult : Type := {
  trades : list Trade;
  portfolioValues : list Point;
  finalValue : num
}.

Record Metrics : Type := {
  totalReturn : string;
  annualizedReturn : string;
  sharpeRatio : string;
  maxDrawdown : string;
  volatility : string;
  totalTrades : nat;
  winRate : string;
  m_finalValue : string
}.

Record BacktestResult : Type := {
  strategy : string;
  result : StrategyResult;
  metrics : Metrics
}.

(** The mutable fields of the engine. *)
Record Engine : Type := {
  historicalData : list Bar;
  results : option BacktestResult
}.

(** The state of a strategy's loop. *)
Record State : Type := {
  position : num;
  cash : num;
  s_trades : list Trade;
  s_values : list Point
}.

(** [for (const i of indices) body], stopping at the first exception. *)
Fixpoint for_each {S} (indices : list nat) (body : S -> nat -> res S) (s : S)
  : res S :=
  match indices with
  | [] => Ok s
  | i :: rest => s' <- body s i ;; for_each rest body s'
  end.

(** A loop bound [n] read as an array index: a natural number, or not
    an index at all. *)
Definition as_index (n : num) : option nat :=
  match n with
  | Fin q =>
      if Qeq_bool q (inject_Z (Qfloor q)) && (0 <=? Qfloor q)%Z
      then Some (Z.to_nat (Qfloor q))
      else None
  | _ => None
  end.

(** [for (let i = start; i < data.length; i++) body]: the body reads
    [data[i].close] before it changes anything, so a [start] below the
    length that is not an index is a TypeError at the first round.  The
    body is given [start] as an index. *)
Definition from_period {S} (data : list Bar) (start : num)
  (body : nat -> S -> nat -> res S) (s : S) : res S :=
  if start <? len data then
    match as_index start with
    | Some n => for_each (seq n (List.length data - n)) (body n) s
    | None => Throw undefined_read
    end
  else Ok s.

Definition buy (d : string) (p s : num) (v c z : option num) : Trade :=
  {| t_date := d; action := BUY; price := p; shares := s;
     t_value := v; t_cash := c; t_zScore := z |}.

Definition sell (d : string) (p s : num) (v c z : option num) : Trade :=
  {| t_date := d; action := SELL; price := p; shares := s;
     t_value := v; t_cash := c; t_zScore := z |}.

Definition buyAndHoldStrategy (data : list Bar) (params : Params)
  : res StrategyResult :=
  let initialCapital := or_default (initialCapital params) (Fin 10000) in
  d0 <- at_index data 0 ;;
  let buyPrice := close d0 in
  let shares := Math_floor (initialCapital / buyPrice) in
  let buyValue := shares * buyPrice in
  let trades :=
    [buy (date d0) buyPrice shares (Some buyValue)
       (Some (initialCapital - buyValue)) None] in
  let portfolioValues :=
    map (fun day =>
           {| p_date := date day;
              value := shares * close day + (initialCapital - buyValue);
              p_price := Some (close day);
              p_ma := None; p_zScore := None; p_macd := None;
              p_signal := None |})
        data in
  last <- at_index portfolioValues (List.length portfolioValues - 1) ;;
  Ok {| trades := trades; portfolioValues := portfolioValues;
        finalValue := value last |}.

Definition momentum_body (data : list Bar) (maPeriod : num) (n : nat)
  (s : State) (i : nat) : res State :=
  let ma :=
    fold_left (fun sum d => sum + close d) (slice data (i - n) i) (Fin 0)
    / maPeriod in
  di <- at_index data i ;;
  let currentPrice := close di in
  let s :=
    if (position s === Fin 0) && (currentPrice >? ma * Fin 1.02) then
      let shares := Math_floor (cash s / currentPrice) in
      if shares >? Fin 0 then
        let cash' := cash s - shares * currentPrice in
        {| position := shares;
           cash := cash';
           s_trades :=
             s_trades s
             ++ [buy (date di) currentPrice shares
                   (Some (shares * currentPrice)) (Some cash') None];
           s_values := s_values s |}
      else s
    else if (position s >? Fin 0) && (currentPrice <? ma * Fin 0.98) then
      let cash' := cash s + position s * currentPrice in
      {| position := Fin 0;
         cash := cash';
         s_trades :=
           s_trades s
           ++ [sell (date di) currentPrice (position s)
                 (Some (position s * currentPrice)) (Some cash') None];
         s_values := s_values s |}
    else s in
  Ok {| position := position s;
        cash := cash s;
        s_trades := s_trades s;
        s_values :=
          s_values s
          ++ [{| p_date := date di;
                 value := position s * currentPrice + cash s;
                 p_price := Some currentPrice;
                 p_ma := Some ma;
                 p_zScore := None; p_macd := None; p_signal := None |}] |}.

Definition initial (initialCapital : num) : State :=
  {| position := Fin 0; cash := initialCapital; s_trades := [];
     s_values := [] |}.

Definition momentumStrategy (data : list Bar) (params : Params)
  : res StrategyResult :=
  let initialCapital := or_default (initialCapital params) (Fin 10000) in
  let maPeriod := or_default (maPeriod params) (Fin 20) in
  s <- from_period data maPeriod (momentum_body data maPeriod)
         (initial initialCapital) ;;
  cash' <-
    (if position s >? Fin 0 then
       last <- at_index data (List.length data - 1) ;;
       Ok (cash s + position s * close last)
     else Ok (cash s)) ;;
  Ok {| trades := s_trades s; portfolioValues := s_values s;
        finalValue := cash' |}.

Section WithMath.
Context {M : Math}.

Definition meanReversion_body (data : list Bar) (zScoreThreshold : num)
  (n : nat) (s : State) (i : nat) : res State :=
  let prices := map close (slice data (i - n) i) in
  let mean := sum prices / len prices in
  let std :=
    Math_sqrt
      (fold_left (fun sq x => sq + Math_pow (x - mean) (Fin 2)) prices (Fin 0)
       / len prices) in
  di <- at_index data i ;;
  let zScore := (close di - mean) / std in
  let s :=
    if (position s === Fin 0) && (zScore <? neg zScoreThreshold) then
      let shares := Math_floor (cash s / close di) in
      if shares >? Fin 0 then
        {| position := shares;
           cash := cash s - shares * close di;
           s_trades :=
             s_trades s
             ++ [buy (date di) (close di) shares None None (Some zScore)];
           s_values := s_values s |}
      else s
    else if (position s >? Fin 0)
            && ((zScore >? Fin 0) || (zScore >? zScoreThreshold)) then
      {| position := Fin 0;
         cash := cash s + position s * close di;
         s_trades :=
           s_trades s
           ++ [sell (date di) (close di) (position s) None None (Some zScore)];
         s_values := s_values s |}
    else s in
  Ok {| position := position s;
        cash := cash s;
        s_trades := s_trades s;
        s_values :=
          s_values s
          ++ [{| p_date := date di;
                 value := position s * close di + cash s;
                 p_price := None; p_ma := None;
                 p_zScore := Some zScore;
                 p_macd := None; p_signal := None |}] |}.

Definition meanReversionStrategy (data : list Bar) (params : Params)
  : res StrategyResult :=
  let initialCapital := or_default (initialCapital params) (Fin 10000) in
  let lookback := or_default (lookback params) (Fin 20) in
  let zScoreThreshold := or_default (zScoreThreshold params) (Fin 2) in
  s <- from_period data lookback (meanReversion_body data zScoreThreshold)
         (initial initialCapital) ;;
  last <- at_index data (List.length data - 1) ;;
  Ok {| trades := s_trades s; portfolioValues := s_values s;
        finalValue := position s * close last + cash s |}.

(** One entry of the MACD table. *)
Record Macd : Type := {
  m_date : string;
  m_price : num;
  macd : num;
  signal : option num
}.

Fixpoint ema_from (k prev : num) (rest : list num) : list num :=
  match rest with
  | [] => []
  | x :: rest' =>
      let e := x * k + prev * (Fin 1 - k) in
      e :: ema_from k e rest'
  end.

(** On no data the result is [[undefined]].  (The averages are exact
    convex combinations here; on doubles they are rounded one by one,
    so that on a flat series they can leave the price by a unit in the
    last place.) *)
Definition calculateEMA (data : list num) (period : num) : list (option num) :=
  let k := Fin 2 / (period + Fin 1) in
  match data with
  | [] => [None]
  | x :: rest => map Some (x :: ema_from k x rest)
  end.

Fixpoint map_res {A B} (f : A -> res B) (l : list A) : res (list B) :=
  match l with
  | [] => Ok []
  | a :: l' => b <- f a ;; bs <- map_res f l' ;; Ok (b :: bs)
  end.

Definition indexed {A} (l : list A) : list (nat * A) :=
  combine (seq 0 (List.length l)) l.

Definition elem (l : list (option num)) (i : nat) : option num :=
  match nth_error l i with
  | Some x => x
  | None => None
  end.

Definition calculateMACD (data : list Bar) (fastPeriod slowPeriod signalPeriod : num)
  : res (list Macd) :=
  let prices := map close data in
  let emaFast := calculateEMA prices fastPeriod in
  let emaSlow := calculateEMA prices slowPeriod in
  macdLine <-
    map_res (fun e : nat * option num =>
               let '(i, fast) := e in
               di <- at_index data i ;;
               Ok {| m_date := date di; m_price := close di;
                     macd := to_num fast - to_num (elem emaSlow i);
                     signal := None |})
            (indexed emaFast) ;;
  let signalLine := calculateEMA (map macd macdLine) signalPeriod in
  Ok (map (fun e : nat * Macd =>
             let '(i, m) := e in
             {| m_date := m_date m; m_price := m_price m; macd := macd m;
                signal := elem signalLine i |})
          (indexed macdLine)).

(** [i > 0 && test(macdData[i-1].macd, macdData[i-1].signal)] *)
Definition crossed (macdData : list Macd) (i : nat) (test : num -> num -> bool)
  : res bool :=
  match i with
  | O => Ok false
  | S j =>
      prev <- at_index macdData j ;;
      Ok (test (macd prev) (to_num (signal prev)))
  end.

Definition macd_body (macdData : list Macd) (s : State) (i : nat) : res State :=
  m <- at_index macdData i ;;
  if negb (truthy_opt (signal m)) then Ok s
  else
    let sig := to_num (signal m) in
    buySignal <-
      (if (position s === Fin 0) && (macd m >? sig)
       then crossed macdData i leb else Ok false) ;;
    sellSignal <-
      (if buySignal then Ok false
       else if (position s >? Fin 0) && (macd m <? sig)
       then crossed macdData i geb else Ok false) ;;
    let s :=
      if buySignal then
        let shares := Math_floor (cash s / m_price m) in
        if shares >? Fin 0 then
          {| position := shares;
             cash := cash s - shares * m_price m;
             s_trades :=
               s_trades s ++ [buy (m_date m) (m_price m) shares None None None];
             s_values := s_values s |}
        else s
      else if sellSignal then
        {| position := Fin 0;
           cash := cash s + position s * m_price m;
           s_trades :=
             s_trades s
             ++ [sell (m_date m) (m_price m) (position s) None None None];
           s_values := s_values s |}
      else s in
    Ok {| position := position s;
          cash := cash s;
          s_trades := s_trades s;
          s_values :=
            s_values s
            ++ [{| p_date := m_date m;
                   value := position s * m_price m + cash s;
                   p_price := None; p_ma := None; p_zScore := None;
                   p_macd := Some (macd m);
                   p_signal := signal m |}] |}.

Definition macdStrategy (data : list Bar) (params : Params)
  : res StrategyResult :=
  let initialCapital := or_default (initialCapital params) (Fin 10000) in
  let fastPeriod := or_default (fastPeriod params) (Fin 12) in
  let slowPeriod := or_default (slowPeriod params) (Fin 26) in
  let signalPeriod := or_default (signalPeriod params) (Fin 9) in
  macdData <- calculateMACD data fastPeriod slowPeriod signalPeriod ;;
  s <- for_each (seq 0 (List.length macdData)) (macd_body macdData)
         (initial initialCapital) ;;
  last <- at_index macdData (List.length macdData - 1) ;;
  Ok {| trades := s_trades s; portfolioValues := s_values s;
        finalValue := position s * m_price last + cash s |}.

(** [this.strategies], by name: the four own properties of the object.
    (The code reads [this.strategies[strategyName]], which also finds
    the names inherited from [Object.prototype], such as [toString];
    these are no strategies, pass the guard of [runBacktest] and fail
    later with a TypeError.  They are outside this table.) *)
Definition strategies
  : list (string * (list Bar -> Params -> res StrategyResult)) :=
  [("buyAndHold", buyAndHoldStrategy); ("momentum", momentumStrategy);
   ("meanReversion", meanReversionStrategy);
   ("macdCrossover", macdStrategy)]%string.

Definition lookup_strategy (name : string)
  : option (list Bar -> Params -> res StrategyResult) :=
  match find (fun e => String.eqb (fst e) name) strategies with
  | Some e => Some (snd e)
  | None => None
  end.

Fixpoint returns_from (prev : Point) (rest : list Point) : list num :=
  match rest with
  | [] => []
  | v :: rest' => ((value v - value prev) / value prev) :: returns_from v rest'
  end.

(** The win-rate loop: state [(winningTrades, totalClosedTrades, buyPrice)]. *)
Definition win_step (st : nat * nat * option num) (trade : Trade)
  : nat * nat * option num :=
  let '(winningTrades, totalClosedTrades, buyPrice) := st in
  match action trade, buyPrice with
  | BUY, _ => (winningTrades, totalClosedTrades, Some (price trade))
  | SELL, Some b =>
      ((if price trade >? b then S winningTrades else winningTrades),
       S totalClosedTrades, None)
  | SELL, None => st
  end.

Definition nat_num (n : nat) : num := Fin (inject_Z (Z.of_nat n)).

Definition calculatePerformanceMetrics (r : StrategyResult) (initialCapital : num)
  : res Metrics :=
  let values := portfolioValues r in
  let returns :=
    match values with
    | [] => []
    | v :: rest => returns_from v rest
    end in
  let totalReturn := (finalValue r - initialCapital) / initialCapital in
  let annualizedReturn :=
    Math_pow (Fin 1 + totalReturn) (Fin 252 / len values) - Fin 1 in
  let avgReturn := sum returns / len returns in
  let std :=
    Math_sqrt
      (fold_left (fun sq n => sq + Math_pow (n - avgReturn) (Fin 2)) returns (Fin 0)
       / len returns) in
  let sharpeRatio :=
    (annualizedReturn - Fin 0.02) / (std * Math_sqrt (Fin 252)) in
  v0 <- at_index values 0 ;;
  let maxDrawdown :=
    snd (fold_left Analyzer.drawdown_step (map value values) (value v0, Fin 0)) in
  let '(winningTrades, totalClosedTrades, _) :=
    fold_left win_step (trades r) (O, O, None) in
  let winRate :=
    if (0 <? totalClosedTrades)%nat
    then nat_num winningTrades / nat_num totalClosedTrades else Fin 0 in
  Ok {| totalReturn := toFixed (totalReturn * Fin 100) 2 ++ "%";
        annualizedReturn := toFixed (annualizedReturn * Fin 100) 2 ++ "%";
        sharpeRatio := toFixed sharpeRatio 2;
        maxDrawdown := toFixed (maxDrawdown * Fin 100) 2 ++ "%";
        volatility := toFixed (std * Math_sqrt (Fin 252) * Fin 100) 2 ++ "%";
        totalTrades := List.length (trades r);
        winRate := toFixed (winRate * Fin 100) 2 ++ "%";
        m_finalValue := toFixed (finalValue r) 2 |}.

(** The synthetic series [generateHistoricalData()] draws when no data
    is loaded. *)
Variable generateHistoricalData : list Bar.

(** [runBacktest]: the engine after the call, and the value the
    promise settles to. *)
Definition runBacktest (this : Engine) (strategyName : string) (params : Params)
  : Engine * res BacktestResult :=
  match lookup_strategy strategyName with
  | None =>
      (this, Throw (Error ("Strategy " ++ strategyName ++ " not found")))
  | Some strategy =>
      let data :=
        match historicalData this with
        | [] => generateHistoricalData
        | d => d
        end in
      let this := {| historicalData := data; results := results this |} in
      match
        (r <- strategy data params ;;
         m <- calculatePerformanceMetrics r
                (or_default (initialCapital params) (Fin 10000)) ;;
         Ok {| strategy := strategyName; result := r; metrics := m |})
      with
      | Ok r => ({| historicalData := data; results := Some r |}, Ok r)
      | Throw e => (this, Throw e)
      end
  end.

End WithMath.

End Backtest.

(* ------------------------------------------------------------------ *)
(** ** MonteCarloSimulator                                              *)
(* ------------------------------------------------------------------ *)

Module MonteCarlo.

Open Scope js_scope.

Record Portfolio : Type := {
  currentValue : option num;
  expectedReturn : option num;
  volatility : option num
}.

(** One simulated path. *)
Record Run : Type := {
  finalValue : num;
  r_maxDrawdown : num;
  path : list num
}.

Record SimulationResult : Type := {
  expectedValue : num;
  VaR95 : option num;
  CVaR95 : num;
  maxDrawdown : num;
  probabilityOfLoss : num;
  confidenceInterval : option num * option num;
  paths : list (list num)
}.

(** What the entry point hands to the display.  [Simulated] stands for
    [{...results, expectedReturn, sharpeRatio, VaR95, volatility,
    simulations, timeHorizon}]: [simulated] holds [results], and
    [lossAtVaR95] is the [VaR95] that overrides the one of [results].
    [Failed] stands for the record [{expectedReturn: 0, VaR95: 0,
    sharpeRatio: 0, maxDrawdown: 0, error}]. *)
Record Summary : Type := {
  simulated : SimulationResult;
  s_expectedReturn : num;
  sharpeRatio : num;
  lossAtVaR95 : num;
  s_volatility : num;
  simulations : num;
  timeHorizon : num
}.

Inductive Report : Type :=
| Failed (error : string)
| Simulated (s : Summary).

(** A loop [for (let i = 0; i < n; i++)] either runs a number of rounds
    or, when [n] is +Infinity, never ends. *)
Inductive outcome (A : Type) : Type :=
| Returns (a : A)
| Diverges.
Arguments Returns {A} a.
Arguments Diverges {A}.

Definition rounds (n : num) : option nat :=
  match n with
  | PosInf => None
  | Fin q => Some (Z.to_nat (Qceiling q))
  | _ => Some O
  end.

Section WithMath.
Context {M : Math}.

(** The generators thread the number [c] of draws made so far. *)
Definition generateRandomNormal (c : nat) : num * nat :=
  let u1 := Math_random c in
  let u2 := Math_random (S c) in
  (Math_sqrt (Fin (-2) * Math_log u1) * Math_cos (Fin 2 * Math_PI * u2),
   S (S c)).

Definition generateJumpSize (c : nat) : num * nat :=
  let jumpMean := Fin (-0.02) in
  let jumpStd := Fin 0.05 in
  let '(z, c) := generateRandomNormal c in
  (jumpMean + jumpStd * z, c).

Definition calculateMaxDrawdown (path : list num) : num :=
  let peak := to_num (nth_error path 0) in
  snd (fold_left Analyzer.drawdown_step path (peak, Fin 0)).

(** The days of one path: state [(currentValue, portfolioPath, c)]. *)
Fixpoint simulate_days (portfolio : Portfolio) (days : nat)
  (st : num * list num * nat) : num * list num * nat :=
  match days with
  | O => st
  | S days' =>
      let '(currentValue, portfolioPath, c) := st in
      let drift := to_num (expectedReturn portfolio) / Fin 252 in
      let diffusion := to_num (volatility portfolio) / Math_sqrt (Fin 252) in
      let '(randomShock, c) := generateRandomNormal c in
      let jumpProbability := Fin 0.01 in
      let '(jumpSize, c) := generateJumpSize c in
      let jump := if Math_random c <? jumpProbability then jumpSize else Fin 0 in
      let c := S c in
      let return_ := drift + diffusion * randomShock + jump in
      let currentValue := currentValue * (Fin 1 + return_) in
      simulate_days portfolio days'
        (currentValue, portfolioPath ++ [currentValue], c)
  end.

Fixpoint simulate_runs (portfolio : Portfolio) (days sims : nat)
  (st : list Run * nat) : list Run * nat :=
  match sims with
  | O => st
  | S sims' =>
      let '(results, c) := st in
      let start := to_num (currentValue portfolio) in
      let '(currentValue, portfolioPath, c) :=
        simulate_days portfolio days (start, [start], c) in
      simulate_runs portfolio days sims'
        (results
         ++ [{| finalValue := currentValue;
                r_maxDrawdown := calculateMaxDrawdown portfolioPath;
                path := portfolioPath |}],
         c)
  end.

(** The statistics over the simulated runs.  (Sums and means are exact
    here; on doubles the mean of equal values can differ from them in
    the last place.) *)
Definition statistics (portfolio : Portfolio) (simulations : num)
  (results : list Run) : SimulationResult :=
  let sortedFinalValues := sort_asc (map finalValue results) in
  let VaR95 := index sortedFinalValues (Math_floor (simulations * Fin 0.05)) in
  let CVaR95 :=
    sum (slice0 sortedFinalValues (Math_floor (simulations * Fin 0.05)))
    / Math_floor (simulations * Fin 0.05) in
  {| expectedValue := sum sortedFinalValues / simulations;
     VaR95 := VaR95;
     CVaR95 := CVaR95;
     maxDrawdown := Math_max_of (map r_maxDrawdown results);
     probabilityOfLoss :=
       len (filter (fun r => finalValue r <? to_num (currentValue portfolio))
                   results)
       / simulations;
     confidenceInterval :=
       (index sortedFinalValues (Math_floor (simulations * Fin 0.025)),
        index sortedFinalValues (Math_floor (simulations * Fin 0.975)));
     paths := map path (firstn 100 results) |}.

(** [horizonDays] and [simulations] are [None] when the argument is
    omitted. *)
Definition runMonteCarloSimulation (portfolio : Portfolio)
  (horizonDays simulations : option num) : outcome SimulationResult :=
  let horizonDays := match horizonDays with Some h => h | None => Fin 252 end in
  let simulations :=
    match simulations with Some n => n | None => Fin 10000 end in
  match rounds simulations with
  | None => Diverges
  | Some O => Returns (statistics portfolio simulations [])
  | Some sims =>
      match rounds horizonDays with
      | None => Diverges
      | Some days =>
          Returns (statistics portfolio simulations
                     (fst (simulate_runs portfolio days sims ([], O))))
      end
  end.

Definition invalid_portfolio : Report := Failed "Invalid portfolio data".
Definition engine_not_ready : Report := Failed "Analysis engine not ready".
Definition no_paths : Report := Failed "Simulation failed to generate paths".

(** The Sharpe ratio and the volatility the entry point derives from
    the sampled paths: [(sharpeRatio, volatility)], both 0 unless the
    first path is non-empty and some return is a number. *)
Definition path_statistics (paths : list (list num)) (cv : num) : num * num :=
  let riskFreeRate := Fin 0.03 in
  let returns :=
    match paths with
    | (_ :: _) :: _ =>
        filter (fun r => negb (isNaN r))
          (map (fun path =>
                  to_num (nth_error path (List.length path - 1)) / cv - Fin 1)
             (filter (fun path => (0 <? List.length path)%nat) paths))
    | _ => []
    end in
  match returns with
  | [] => (Fin 0, Fin 0)
  | _ =>
      let meanReturn := sum returns / len returns in
      let variance :=
        fold_left (fun s r => s + Math_pow (r - meanReturn) (Fin 2))
          returns (Fin 0)
        / len returns in
      let volatility := Math_sqrt variance in
      (if volatility >? Fin 0
       then (meanReturn - riskFreeRate) / volatility else Fin 0,
       volatility)
  end.

(** [performMonteCarloSimulation]: the portfolio object after the call
    (the defaults are written into it) and the value the promise
    settles to.  [quantEngine] tells whether the engine is initialised.
    Drawing the chart is left to the display. *)
Definition performMonteCarloSimulation (quantEngine : bool)
  (portfolio : option Portfolio) (horizonDays numSimulations : option num)
  : option Portfolio * outcome Report :=
  match portfolio with
  | None => (portfolio, Returns invalid_portfolio)
  | Some p =>
      if negb (truthy_opt (currentValue p))
         || (to_num (currentValue p) <=? Fin 0)
      then (portfolio, Returns invalid_portfolio)
      else
        let p :=
          if negb (truthy_opt (expectedReturn p))
             || isNaN (to_num (expectedReturn p))
          then {| currentValue := currentValue p;
                  expectedReturn := Some (Fin 0.08);
                  volatility := volatility p |}
          else p in
        let p :=
          if negb (truthy_opt (volatility p))
             || isNaN (to_num (volatility p))
             || (to_num (volatility p) <=? Fin 0)
          then {| currentValue := currentValue p;
                  expectedReturn := expectedReturn p;
                  volatility := Some (Fin 0.15) |}
          else p in
        let horizonDays :=
          if negb (truthy_opt horizonDays) || (to_num horizonDays <=? Fin 0)
          then Fin 252 else to_num horizonDays in
        let numSimulations :=
          if negb (truthy_opt numSimulations)
             || (to_num numSimulations <=? Fin 0)
          then Fin 1000 else to_num numSimulations in
        if negb quantEngine then (Some p, Returns engine_not_ready)
        else
          match
            runMonteCarloSimulation p (Some horizonDays) (Some numSimulations)
          with
          | Diverges => (Some p, Diverges)
          | Returns results =>
              match paths results with
              | [] => (Some p, Returns no_paths)
              | _ :: _ =>
                  let cv := to_num (currentValue p) in
                  let expectedReturn :=
                    if truthy (expectedValue results) && (cv >? Fin 0)
                    then expectedValue results / cv - Fin 1 else Fin 0 in
                  let stats := path_statistics (paths results) cv in
                  (Some p,
                   Returns
                     (Simulated
                        {| simulated := results;
                           s_expectedReturn := expectedReturn;
                           sharpeRatio := fst stats;
                           lossAtVaR95 :=
                             if truthy_opt (VaR95 results)
                             then cv - to_num (VaR95 results) else Fin 0;
                           s_volatility := snd stats;
                           simulations := numSimulations;
                           timeHorizon := horizonDays |}))
              end
          end
  end.

End WithMath.

End MonteCarlo.

(* ------------------------------------------------------------------ *)
(** ** RiskScorer: the display record ([formatRiskDisplay]) *)
(* ------------------------------------------------------------------ *)

Module RiskDisplay.
Import Risk.
Open Scope js_scope.

Record ComponentDisplay : Type := {
  name : string;
  c_value : num;
  status : string
}.

Record Display : Type := {
  d_score : num;
  d_label : string;
  d_color : string;
  icon : string;
  d_components : list ComponentDisplay;
  d_recommendations : list Recommendation
}.

(** [table[k]] on an object literal of strings. *)
Definition lookup (table : list (string * string)) (k : string) : option string :=
  match find (fun e => String.eqb (fst e) k) table with
  | Some e => Some (snd e)
  | None => None
  end.

(** [levelKey] is a key of [riskLevels] or [undefined]. *)
Definition getRiskIcon (levelKey : option string) : string :=
  let icons :=
    [("MINIMAL", "fa-shield-alt"); ("LOW", "fa-check-circle");
     ("MODERATE", "fa-exclamation-circle");
     ("ELEVATED", "fa-exclamation-triangle"); ("HIGH", "fa-times-circle");
     ("EXTREME", "fa-skull-crossbones")]%string in
  match levelKey with
  | Some k =>
      match lookup icons k with
      | Some i => i
      | None => "fa-question-circle"
      end
  | None => "fa-question-circle"
  end.

Definition formatComponentName (key : string) : string :=
  let names :=
    [("market", "Market Risk"); ("credit", "Credit Risk");
     ("liquidity", "Liquidity Risk"); ("sentiment", "Sentiment Risk");
     ("systemic", "Systemic Risk")]%string in
  match lookup names key with
  | Some n => n
  | None => key
  end.

Definition getComponentStatus (value : num) : string :=
  if value <? Fin 30 then "good"
  else if value <? Fin 60 then "warning"
  else "danger".

(** [Object.entries(riskAssessment.components)] *)
Definition entries (c : Components) : list (string * num) :=
  [("market", market c); ("credit", credit c); ("liquidity", liquidity c);
   ("sentiment", sentimentC c); ("systemic", systemic c)]%string.

Definition formatRiskDisplay (riskAssessment : RiskScore) : Display :=
  let level := level riskAssessment in
  {| d_score := totalRisk riskAssessment;
     d_label := label level;
     d_color := color level;
     icon := getRiskIcon (key level);
     d_components :=
       map (fun e : string * num =>
              {| name := formatComponentName (fst e);
                 c_value := Math_round (snd e);
                 status := getComponentStatus (snd e) |})
           (entries (components riskAssessment));
     d_recommendations := recommendations riskAssessment |}.

End RiskDisplay.

(* ------------------------------------------------------------------ *)
(** ** The news analysis, a caller of the risk scorer ([analysis.js]) *)
(* ------------------------------------------------------------------ *)

Module NewsRisk.
Import Risk.
Open Scope js_scope.

Record RiskMetrics : Type := {
  overall : num;
  volatility : string;
  recommendation : string
}.

(** [k.includes(s)] *)
Definition includes (k s : string) : bool :=
  match String.index 0 s k with
  | Some _ => true
  | None => false
  end.

(** [k => k.includes('crisis') || k.includes('crash') ||
    k.includes('collapse')] *)
Definition alarming (k : string) : bool :=
  includes k "crisis" || includes k "crash" || includes k "collapse".

Definition getRiskRecommendation (riskLevel : num) : string :=
  if riskLevel <? Fin 30 then "Low risk - Suitable for aggressive positioning"
  else if riskLevel <? Fin 50
  then "Moderate risk - Balanced allocation recommended"
  else if riskLevel <? Fin 70 then "Elevated risk - Cautious approach advised"
  else "High risk - Defensive positioning recommended".

(** [mockMarketData] has the properties [volatility], [volume] and
    [priceChanges]: none of those the scorer reads, and no [length]. *)
Definition mockMarketData : MarketData :=
  {| series := []; avgVolume := None; bidAskSpread := None;
     avgCorrelation := None; contagionIndicator := None |}.

(** The global [portfolio] is the array of holdings: as the scorer's
    [portfolio] it has none of the properties that are read. *)
Definition holdings : Portfolio :=
  {| beta := None; hasHighYield := false; hasEmergingMarkets := false;
     hasCrypto := false; assets := None; size := None |}.

Section WithMath.
Context {M : Math}.

(** [professional] tells whether [ProfessionalRiskAssessment] is
    defined; [negative] is [keywords.negative]. *)
Definition calculateRiskMetrics (professional : bool) (sentiment : Sentiment)
  (negative : list string) : RiskMetrics :=
  let riskLevel := Fin 50 in
  let volatility := "medium"%string in
  let '(riskLevel, volatility) :=
    if professional then
      let professionalRisk :=
        calculateRiskScore mockMarketData holdings
          (Some {| sentiment := Some sentiment;
                   sentimentVolatility := None |}) in
      if truthy (totalRisk professionalRisk) then
        (totalRisk professionalRisk,
         if market (components professionalRisk) >? Fin 70 then "high"%string
         else if market (components professionalRisk) <? Fin 30 then "low"%string
         else volatility)
      else (riskLevel, volatility)
    else
      if to_num (bearish sentiment) >? Fin 70 then (riskLevel + Fin 30, "high"%string)
      else if to_num (bearish sentiment) >? Fin 50
      then (riskLevel + Fin 15, volatility)
      else if to_num (bullish sentiment) >? Fin 70
      then (riskLevel - Fin 20, "low"%string)
      else (riskLevel, volatility) in
  let '(riskLevel, volatility) :=
    if existsb alarming negative
    then (riskLevel + Fin 20, "very high"%string)
    else (riskLevel, volatility) in
  let riskLevel := Math_max (Fin 0) (Math_min (Fin 100) riskLevel) in
  {| overall := riskLevel;
     volatility := volatility;
     recommendation := getRiskRecommendation riskLevel |}.

End WithMath.

End NewsRisk.

(* ------------------------------------------------------------------ *)
(** ** BacktestEngine: the synthetic series *)
(* ------------------------------------------------------------------ *)

Module Synthetic.
Import Backtest.
Open Scope js_scope.

Section WithMath.
Context {M : Math}.

(** [isoDate days i]: the day [i] days after the day [days] days before
    today, as [date.toISOString().split('T')[0]] prints it; an exception
    when that date is out of range. *)
Variable isoDate : num -> nat -> res string.

(** The rounds of the loop from day [i] on, [c] draws having been made. *)
Fixpoint generate_from (days volatility currentPrice : num) (i c n : nat)
  : res (list Bar) :=
  match n with
  | O => Ok []
  | S n' =>
      let dailyReturn := (Math_random c - Fin 0.5) * Fin 2 * volatility in
      let trendComponent := Fin 0.0002 in
      let currentPrice :=
        currentPrice * (Fin 1 + dailyReturn + trendComponent) in
      let volume :=
        Math_floor (Fin 1000000 + Math_random (c + 1) * Fin 500000) in
      d <- isoDate days i ;;
      let bar :=
        {| date := d;
           open :=
             currentPrice
             * (Fin 1 + (Math_random (c + 2) - Fin 0.5) * Fin 0.01);
           high := currentPrice * (Fin 1 + Math_random (c + 3) * Fin 0.02);
           low := currentPrice * (Fin 1 - Math_random (c + 4) * Fin 0.02);
           close := currentPrice;
           volume := volume;
           returns := dailyReturn + trendComponent |} in
      rest <- generate_from days volatility currentPrice (S i) (c + 5) n' ;;
      Ok (bar :: rest)
  end.

(** An argument is [None] when it is omitted.  With [days] +Infinity
    the start date is invalid and the first bar's date throws. *)
Definition generateHistoricalData (days startPrice volatility : option num)
  : MonteCarlo.outcome (res (list Bar)) :=
  let days := match days with Some d => d | None => Fin 252 end in
  let startPrice := match startPrice with Some p => p | None => Fin 100 end in
  let volatility := match volatility with Some v => v | None => Fin 0.02 end in
  match MonteCarlo.rounds days with
  | Some n =>
      MonteCarlo.Returns (generate_from days volatility startPrice 0 0 n)
  | None =>
      match isoDate days 0 with
      | Throw e => MonteCarlo.Returns (Throw e)
      | Ok _ => MonteCarlo.Diverges
      end
  end.

End WithMath.

End Synthetic.

(* ------------------------------------------------------------------ *)
(** ** The quantitative analysis page ([quant-ui.js]) *)
(* ------------------------------------------------------------------ *)

Module QuantUI.

Open Scope js_scope.

(** [marketData]: an array of prices, or an object whose [returns] and
    [prices] arrays may be missing. *)
Inductive MarketInput : Type :=
| Prices (prices : list num)
| Fields (returns prices : option (list num)).

Record Percentiles : Type := {
  p5 : list (option num);
  median : list (option num);
  p95 : list (option num)
}.

Record RegimeAnalysis : Type := {
  regime : string;
  (** [probabilities], in the order of the object literal *)
  probabilities : list (string * num);
  i_volatility : num;
  i_correlation : num;
  i_skewness : num
}.

(** [xs.slice(-k)] for a positive whole number [k]. *)
Definition slice_last {A} (xs : list A) (k : nat) : list A :=
  skipn (List.length xs - k) xs.

(** [paths.map(path => path[t]).filter(v => typeof v === 'number' &&
    !isNaN(v)).sort((a, b) => a - b)] *)
Definition column (validPaths : list (list num)) (t : nat) : list num :=
  sort_asc
    (filter (fun v => negb (isNaN v))
       (flat_map (fun path =>
                    match nth_error path t with
                    | Some v => [v]
                    | None => []
                    end)
          validPaths)).

Definition percentiles_step (validPaths : list (list num)) (acc : Percentiles)
  (t : nat) : Percentiles :=
  let values := column validPaths t in
  if (0 <? List.length values)%nat then
    {| p5 := p5 acc ++ [index values (Math_floor (len values * Fin 0.05))];
       median :=
         median acc ++ [index values (Math_floor (len values * Fin 0.5))];
       p95 := p95 acc ++ [index values (Math_floor (len values * Fin 0.95))] |}
  else
    let lastValue :=
      match t with
      | O => Some (Fin 1000000)
      | S t' => Backtest.elem (median acc) t'
      end in
    {| p5 := p5 acc ++ [Some (to_num lastValue * Fin 0.95)];
       median := median acc ++ [lastValue];
       p95 := p95 acc ++ [Some (to_num lastValue * Fin 1.05)] |}.

(** [paths] is [None] when it is missing or not an array; its entries
    are arrays of numbers. *)
Definition calculatePercentiles (paths : option (list (list num)))
  : Percentiles :=
  let none := {| p5 := []; median := []; p95 := [] |} in
  match paths with
  | None | Some [] => none
  | Some paths =>
      let validPaths :=
        filter (fun path => (0 <? List.length path)%nat) paths in
      match validPaths with
      | [] => none
      | first :: _ =>
          fold_left (percentiles_step validPaths)
            (seq 0 (List.length first)) none
      end
  end.

Section WithMath.
Context {M : Math}.

(** The returns the two indicators read: [None] stands for the default
    branch. *)
Definition calculateRollingVolatility (marketData : MarketInput) : num :=
  let window := 20%nat in
  let returns :=
    match marketData with
    | Prices prices => Some (Risk.calculateReturns prices)
    | Fields (Some returns) _ => Some returns
    | Fields None (Some prices) => Some (Risk.calculateReturns prices)
    | Fields None None => None
    end in
  match returns with
  | None => Fin 0.15
  | Some returns =>
      let recentReturns := slice_last returns window in
      match recentReturns with
      | [] => Fin 0.15
      | _ =>
          let mean := sum recentReturns / len recentReturns in
          let variance :=
            fold_left (fun s r => s + Math_pow (r - mean) (Fin 2))
              recentReturns (Fin 0)
            / len recentReturns in
          Math_sqrt (variance * Fin 252)
      end
  end.

(** [calculateRollingCorrelation(marketData).average]; the draw is the
    first one of the analysis. *)
Definition calculateRollingCorrelation (c : nat) : num :=
  Fin 0.3 + Math_random c * Fin 0.5.

Definition calculateSkewness (marketData : MarketInput) (c : nat) : num :=
  let returns :=
    match marketData with
    | Fields (Some returns) _ => Some returns
    | Fields None (Some prices) => Some (Risk.calculateReturns prices)
    | Prices prices => Some (Risk.calculateReturns prices)
    | Fields None None => None
    end in
  match returns with
  | None => Fin (-0.5) + Math_random c * Fin 1
  | Some returns =>
      if (List.length returns <? 3)%nat then Fin 0
      else
        let mean := sum returns / len returns in
        let n := len returns in
        let m3 :=
          fold_left (fun s r => s + Math_pow (r - mean) (Fin 3)) returns (Fin 0)
          / n in
        let std :=
          Math_sqrt
            (fold_left (fun s r => s + Math_pow (r - mean) (Fin 2))
               returns (Fin 0) / n) in
        if std >? Fin 0 then m3 / Math_pow std (Fin 3) else Fin 0
  end.

(** Drawing the indicators is left to the display. *)
Definition performRegimeAnalysis (marketData : MarketInput) : RegimeAnalysis :=
  let volatility := calculateRollingVolatility marketData in
  let correlation := calculateRollingCorrelation 0 in
  let skewness := calculateSkewness marketData 1 in
  let avgCorrelation := or_default (Some correlation) (Fin 0.5) in
  let regime :=
    if volatility >? Fin 0.25 then
      if avgCorrelation >? Fin 0.7 then "Crisis"%string else "Volatile"%string
    else if volatility <? Fin 0.12 then "Quiet"%string
    else if avgCorrelation >? Fin 0.8 then "Crisis"%string
    else "Normal"%string in
  let current (name : string) := String.eqb regime name in
  {| regime := regime;
     probabilities :=
       [("Quiet", if current "Quiet" then Fin 0.7 else Fin 0.1);
        ("Normal", if current "Normal" then Fin 0.6 else Fin 0.2);
        ("Volatile", if current "Volatile" then Fin 0.6 else Fin 0.15);
        ("Crisis", if current "Crisis" then Fin 0.8 else Fin 0.05)]%string;
     i_volatility := volatility;
     i_correlation := avgCorrelation;
     i_skewness := skewness |}.

End WithMath.

End QuantUI.

(* ------------------------------------------------------------------ *)
(** ** QuantitativeAnalysisEngine: regression and regime helpers *)
(* ------------------------------------------------------------------ *)

Module QuantEngine.

Open Scope js_scope.

(** [y[i]] read as a number: NaN where [y] has no entry. *)
Definition ordinaryLeastSquares (y x : list num) : num :=
  let n := len y in
  let sumX := sum x in
  let sumY := sum y in
  let sumXY :=
    fold_left
      (fun s (e : nat * num) => s + snd e * to_num (nth_error y (fst e)))
      (Analyzer.indexed x) (Fin 0) in
  let sumX2 := fold_left (fun s xi => s + xi * xi) x (Fin 0) in
  (n * sumXY - sumX * sumY) / (n * sumX2 - sumX * sumX).

Section WithMath.
Context {M : Math}.

(** [FactorAnalysisModel.calculateVolatility] *)
Definition calculateVolatility (data : list num) : num :=
  let returns := Risk.calculateReturns data in
  let mean := sum returns / len returns in
  let variance :=
    fold_left (fun s r => s + Math_pow (r - mean) (Fin 2)) returns (Fin 0)
    / len returns in
  Math_sqrt (variance * Fin 252).

(** [FactorAnalysisModel.detectRegime] *)
Definition detectRegime (marketData : list num) : string :=
  let volatility := calculateVolatility marketData in
  if volatility <? Fin 0.1 then "stable"
  else if volatility <? Fin 0.2 then "normal"
  else if volatility <? Fin 0.3 then "elevated"
  else "crisis".

End WithMath.

End QuantEngine.

(* ------------------------------------------------------------------ *)
(** ** The arithmetic of the code: IEEE 754 binary64                    *)
(* ------------------------------------------------------------------ *)

(** The exact embedding above idealises the rounding of doubles.  The
    routines whose results turn on that rounding (the composite of the
    risk scorer, the shares and the concentration index of the
    analyzer) are embedded here a second time, operation for operation,
    on the kernel's binary64 numbers, so that they can be run on
    concrete inputs as the code runs them. *)
Module Binary64.
Import PrimFloat.
#[local] Set Warnings "-inexact-float".
#[local] Open Scope float_scope.

(** The rational that a finite double is. *)
Definition exact (x : float) : option Q :=
  match FloatOps.Prim2SF x with
  | SpecFloat.S754_zero _ => Some 0%Q
  | SpecFloat.S754_finite s m e =>
      let v := (inject_Z (Zpos m) * Qpower 2 e)%Q in
      Some (if s then Qopp v else v)
  | _ => None
  end.

(** The double [x] is finite and is the rational [q]. *)
Definition exactly (x : float) (q : Q) : Prop :=
  match exact x with
  | Some v => (v == q)%Q
  | None => False
  end.

(** ToBoolean on a number: 0, -0 and NaN are falsy. *)
Definition truthy (x : float) : bool := negb (is_nan x || (x =? 0)).

(** [x || d] where [d] is a number; a missing property is [None]. *)
Definition or_default (x : option float) (d : float) : float :=
  match x with
  | Some v => if truthy v then v else d
  | None => d
  end.

(** ToNumber: [undefined] becomes NaN. *)
Definition to_num (x : option float) : float :=
  match x with Some v => v | None => nan end.

Definition Math_min (x y : float) : float :=
  if is_nan x || is_nan y then nan else if y <? x then y else x.

Definition Math_max (x y : float) : float :=
  if is_nan x || is_nan y then nan else if x <? y then y else x.

(** [Math.max(...xs)]: -Infinity on no argument. *)
Definition Math_max_of (xs : list float) : float :=
  fold_left Math_max xs neg_infinity.

(** [Math.floor].  Below 2^52 in magnitude, adding and subtracting 2^52
    rounds to a nearest integer, which is the floor or one above it;
    from 2^52 on every double is an integer.  (The sign of a zero
    result is not tracked.) *)
Definition two52 : float := 4503599627370496.

Definition Math_floor (x : float) : float :=
  if abs x <? two52 then
    let r := if 0 <=? x then (x + two52) - two52 else (x - two52) + two52 in
    if x <? r then r - 1 else r
  else x.

(** [Math.round]: the nearest integer, ties towards +Infinity.  The
    difference [x - floor x] is exact. *)
Definition Math_round (x : float) : float :=
  let f := Math_floor x in
  if 0.5 <=? x - f then f + 1 else f.

(** [xs.length] as a number (exact below 2^53). *)
Definition len {A} (xs : list A) : float :=
  fold_left (fun n _ => n + 1) xs 0.

(** *** RiskScorer *)
Module Risk.

Record MarketData : Type := {
  series : list float;
  avgVolume : option float;
  bidAskSpread : option float;
  avgCorrelation : option float;
  contagionIndicator : option float
}.

Record Asset : Type := { weight : float }.

Record Portfolio : Type := {
  beta : option float;
  hasHighYield : bool;
  hasEmergingMarkets : bool;
  hasCrypto : bool;
  assets : option (list Asset);
  size : option float
}.

Record Sentiment : Type := {
  bearish : option float;
  bullish : option float
}.

Record NewsAnalysis : Type := {
  sentiment : option Sentiment;
  sentimentVolatility : option float
}.

Record Components : Type := {
  market : float;
  credit : float;
  liquidity : float;
  sentimentC : float;
  systemic : float
}.

(** The numbers of the assessment; [level] and [recommendations] are
    left out. *)
Record RiskScore : Type := {
  totalRisk : float;
  components : Components
}.

Section WithMath.
(** [Math.sqrt] and [Math.pow], which ECMAScript leaves to the
    implementation. *)
Variable Math_sqrt : float -> float.
Variable Math_pow : float -> float -> float.

Fixpoint calculateReturns_from (prev : float) (rest : list float)
  : list float :=
  match rest with
  | [] => []
  | x :: rest' => ((x - prev) / prev) :: calculateReturns_from x rest'
  end.

Definition calculateReturns (data : list float) : list float :=
  match data with
  | [] => []
  | x :: rest => calculateReturns_from x rest
  end.

Definition calculateVolatility (returns : list float) : float :=
  let mean := fold_left add returns 0 / len returns in
  let variance :=
    fold_left (fun s r => s + Math_pow (r - mean) 2) returns 0
    / len returns in
  Math_sqrt variance.

Definition calculatePortfolioBeta (portfolio : Portfolio) : float :=
  or_default (beta portfolio) 1.0.

Definition stressScenarios : list (string * float) :=
  [("Market Crash"%string, -0.20); ("Interest Rate Shock"%string, -0.10);
   ("Currency Crisis"%string, -0.15)].

Definition calculateMarketRisk (marketData : MarketData) (portfolio : Portfolio)
  : float :=
  let returns := calculateReturns (series marketData) in
  let volatility := calculateVolatility returns in
  let beta := calculatePortfolioBeta portfolio in
  let maxStressLoss :=
    Math_max_of (map (fun s => abs (snd s)) stressScenarios) in
  let riskScore := 0 in
  let riskScore :=
    if volatility <? 0.10 then riskScore + 10
    else if volatility <? 0.20 then riskScore + 20
    else if volatility <? 0.30 then riskScore + 30
    else riskScore + 40 in
  let riskScore :=
    if abs (beta - 1) <? 0.3 then riskScore + 10
    else if abs (beta - 1) <? 0.6 then riskScore + 20
    else riskScore + 30 in
  let riskScore := riskScore + maxStressLoss * 150 in
  Math_min 100 riskScore.

Definition calculateDiversification (portfolio : Portfolio) : float :=
  let weights :=
    match assets portfolio with
    | Some l => map weight l
    | None => [1]
    end in
  let herfindahl := fold_left (fun s w => s + w * w) weights 0 in
  1 - herfindahl.

Definition calculateCreditRisk (portfolio : Portfolio) : float :=
  let creditScore := 30 in
  let creditScore :=
    if hasHighYield portfolio then creditScore + 20 else creditScore in
  let creditScore :=
    if hasEmergingMarkets portfolio then creditScore + 15 else creditScore in
  let creditScore :=
    if hasCrypto portfolio then creditScore + 25 else creditScore in
  let diversificationScore := calculateDiversification portfolio in
  let creditScore := creditScore - diversificationScore * 10 in
  Math_max 0 (Math_min 100 creditScore).

Definition calculateAverageVolume (marketData : MarketData) : float :=
  or_default (avgVolume marketData) 1000000.

Definition calculateLiquidityRisk (marketData : MarketData)
  (portfolio : Portfolio) : float :=
  let avgVolume := calculateAverageVolume marketData in
  let volumeRatio := to_num (size portfolio) / avgVolume in
  let liquidityScore := 20 in
  let liquidityScore :=
    if 0.1 <? volumeRatio then liquidityScore + 40
    else if 0.05 <? volumeRatio then liquidityScore + 30
    else if 0.01 <? volumeRatio then liquidityScore + 20
    else liquidityScore + 10 in
  let spread := or_default (bidAskSpread marketData) 0.001 in
  let liquidityScore := liquidityScore + Math_min 40 (spread * 10000) in
  Math_min 100 liquidityScore.

Definition calculateSentimentVolatility (newsAnalysis : NewsAnalysis) : float :=
  or_default (sentimentVolatility newsAnalysis) 0.3.

Definition calculateSentimentRisk (newsAnalysis : option NewsAnalysis)
  : float :=
  match newsAnalysis with
  | None => 50
  | Some na =>
      let s :=
        match sentiment na with
        | Some s => s
        | None => {| bearish := None; bullish := None |}
        end in
      let bearishScore := or_default (bearish s) 0 in
      let volatilityOfSentiment := calculateSentimentVolatility na in
      let sentimentRisk := bearishScore in
      let sentimentRisk := sentimentRisk + volatilityOfSentiment * 20 in
      let sentimentRisk :=
        if (70 <? bearishScore) || (70 <? to_num (bullish s))
        then sentimentRisk + 15 else sentimentRisk in
      Math_min 100 sentimentRisk
  end.

Definition calculateAverageCorrelation (marketData : MarketData) : float :=
  or_default (avgCorrelation marketData) 0.4.

Definition calculateContagionRisk (marketData : MarketData) : float :=
  or_default (contagionIndicator marketData) 0.3.

Definition calculateSystemicRisk (marketData : MarketData) : float :=
  let avgCorrelation := calculateAverageCorrelation marketData in
  let contagionRisk := calculateContagionRisk marketData in
  let systemicScore := 30 in
  let systemicScore :=
    if 0.7 <? avgCorrelation then systemicScore + 40
    else if 0.5 <? avgCorrelation then systemicScore + 25
    else if 0.3 <? avgCorrelation then systemicScore + 15
    else systemicScore in
  let systemicScore := systemicScore + contagionRisk * 30 in
  Math_min 100 systemicScore.

Definition calculateRiskScore (marketData : MarketData) (portfolio : Portfolio)
  (newsAnalysis : option NewsAnalysis) : RiskScore :=
  let marketRisk := calculateMarketRisk marketData portfolio in
  let creditRisk := calculateCreditRisk portfolio in
  let liquidityRisk := calculateLiquidityRisk marketData portfolio in
  let sentimentRisk := calculateSentimentRisk newsAnalysis in
  let systemicRisk := calculateSystemicRisk marketData in
  let totalRisk :=
    marketRisk * 0.35 + creditRisk * 0.20 + liquidityRisk * 0.15
    + sentimentRisk * 0.15 + systemicRisk * 0.15 in
  {| totalRisk := Math_round totalRisk;
     components :=
       {| market := marketRisk; credit := creditRisk;
          liquidity := liquidityRisk; sentimentC := sentimentRisk;
          systemic := systemicRisk |} |}.

End WithMath.

End Risk.

(** *** PortfolioAnalyzer *)
Module Analyzer.

(** A holding, as the shares read it. *)
Record Asset : Type := { totalValue : option float }.

(** The concentration figures of [analyzeDiversification]; the three
    maps of labels are left out. *)
Record Concentration : Type := {
  herfindahlIndex : float;
  effectiveN : float;
  diversificationRatio : float;
  isWellDiversified : bool
}.

Definition calculateTotalValue (portfolio : list Asset) : float :=
  fold_left (fun s asset => s + or_default (totalValue asset) 0) portfolio 0.

Definition calculateWeights (portfolio : list Asset) (totalValue' : float)
  : list float :=
  if totalValue' =? 0 then map (fun _ => 0) portfolio
  else map (fun asset => or_default (totalValue asset) 0 / totalValue')
           portfolio.

Definition calculateHerfindahlIndex (weights : list float) : float :=
  fold_left (fun s w => s + w * w) weights 0.

Definition analyzeDiversification (portfolio : list Asset)
  (weights : list float) : Concentration :=
  let herfindahlIndex := calculateHerfindahlIndex weights in
  let effectiveN := 1 / herfindahlIndex in
  {| herfindahlIndex := herfindahlIndex;
     effectiveN := effectiveN;
     diversificationRatio := effectiveN / len portfolio;
     isWellDiversified :=
       (10 <? effectiveN) && (herfindahlIndex <? 0.15) |}.

End Analyzer.

End Binary64.

(* ------------------------------------------------------------------ *)
(** ** A concrete environment and concrete inputs                       *)
(* ------------------------------------------------------------------ *)

(** The theorems below hold in every environment.  To run the model on
    concrete inputs this stand-in is used: square roots to eight
    decimals, squares for [Math.pow(x, 2)], first-order [log] and
    [cos], and a fixed stream of draws in [0, 1). *)
Module Sample.

Definition Qsqrt (q : Q) : Q :=
  Z.sqrt (Qnum q * Zpos (Qden q) * 10 ^ 16) # (Qden q * 10 ^ 8).

Definition sqrt (x : num) : num :=
  match x with
  | Fin q => if Qle_bool 0 q then Fin (Qred (Qsqrt q)) else NaN
  | PosInf => PosInf
  | _ => NaN
  end.

Definition pow (x y : num) : num :=
  if eqb y (Fin 2) then mul x x
  else if eqb y (Fin 1) then x
  else if eqb y (Fin 0) then Fin 1
  else NaN.

Definition random (n : nat) : num :=
  Fin (inject_Z ((Z.of_nat n * 7919 + 13) mod 1000) / 1000).

#[export] Instance math : Math := {|
  Math_sqrt := sqrt;
  Math_pow := pow;
  Math_log := fun x => sub x (Fin 1);
  Math_cos := fun x => sub (Fin 1) (div (mul x x) (Fin 2));
  Math_PI := Fin 3.14159265;
  toFixed := fun _ _ => "0.00"%string;
  Math_random := random;
  now := "2024-01-01T00:00:00.000Z"%string
|}.

End Sample.

(* ------------------------------------------------------------------ *)
(** ** The vocabulary of the properties, and sample inputs              *)
(* ------------------------------------------------------------------ *)

(** A finite number between two rational bounds. *)
Definition within (lo hi : Q) (x : num) : Prop :=
  exists q, x = Fin q /\ (lo <= q <= hi)%Q.

(** A property that, when present, is a finite number, not negative. *)
Definition nonneg (x : option num) : Prop :=
  match x with
  | None => True
  | Some (Fin q) => (0 <= q)%Q
  | Some _ => False
  end.

Module RiskInputs.
Import Risk.

(** The inputs the scorer is meant for: position weights are finite
    numbers; the bid-ask spread, the contagion indicator, the bearish
    percentage and the sentiment volatility, when given, are finite and
    not negative. *)
Record valid_input (marketData : MarketData) (portfolio : Portfolio)
  (newsAnalysis : option NewsAnalysis) : Prop := {
  spread_nonneg : nonneg (bidAskSpread marketData);
  contagion_nonneg : nonneg (contagionIndicator marketData);
  weights_finite :
    match assets portfolio with
    | None => True
    | Some l => Forall (fun a => exists q, weight a = Fin q) l
    end;
  sentiment_nonneg :
    match newsAnalysis with
    | None => True
    | Some na =>
        nonneg (match sentiment na with
                | Some s => bearish s
                | None => None
                end)
        /\ nonneg (sentimentVolatility na)
    end
}.

(** A flat price series (volatility 0), a 0.2% spread, a two-asset
    portfolio of beta 1 and a 40% bearish reading. *)
Definition marketData0 : MarketData :=
  {| series := [Fin 100; Fin 100; Fin 100]; avgVolume := Some (Fin 2000000);
     bidAskSpread := Some (Fin 0.002); avgCorrelation := Some (Fin 0.6);
     contagionIndicator := Some (Fin 0.5) |}.

Definition portfolio0 : Portfolio :=
  {| beta := Some (Fin 1); hasHighYield := true; hasEmergingMarkets := false;
     hasCrypto := false;
     assets := Some [{| weight := Fin 0.5 |}; {| weight := Fin 0.5 |}];
     size := Some (Fin 50000) |}.

Definition news0 : NewsAnalysis :=
  {| sentiment := Some {| bearish := Some (Fin 40); bullish := Some (Fin 35) |};
     sentimentVolatility := Some (Fin 0.25) |}.

End RiskInputs.

Module Holdings.
Import Analyzer.
Open Scope Q_scope.

(** Left-to-right sums, as [reduce] forms them. *)
Definition sumq (l : list Q) (s : Q) : Q := fold_left Qplus l s.
Definition sumsq (l : list Q) (a : Q) : Q := fold_left (fun a w => a + w * w) l a.

(** A holding with a positive market value. *)
Definition positive_value (a : Asset) : Prop :=
  exists v, totalValue a = Some (Fin v) /\ 0 < v.

Definition value_of (a : Asset) : Q :=
  match totalValue a with
  | Some (Fin v) => v
  | _ => 0
  end.

(** Two holdings worth 500 each. *)
Definition holding (t : string) (v : Q) : Asset :=
  {| type := Some t; sector := None; region := None; style := None;
     totalValue := Some (Fin v); buyPrice := Some (Fin 10);
     currentPrice := Some (Fin 10) |}.

Definition fifty_fifty : list Asset := [holding "stock" 500; holding "bond" 500].

End Holdings.

Module Position.
Import Backtest.

Definition flip (a : Action) : Action :=
  match a with BUY => SELL | SELL => BUY end.

Definition Action_eqb (a b : Action) : bool :=
  match a, b with
  | BUY, BUY | SELL, SELL => true
  | _, _ => false
  end.

(** The trades alternate, the first one being [next]. *)
Fixpoint alternates (next : Action) (ts : list Trade) : bool :=
  match ts with
  | [] => true
  | t :: ts' => Action_eqb (action t) next && alternates (flip next) ts'
  end.

(** The action an alternating list started at [first] admits next. *)
Fixpoint next_after (first : Action) (ts : list Trade) : Action :=
  match ts with
  | [] => first
  | _ :: ts' => next_after (flip first) ts'
  end.

(** Positions opened and not yet closed. *)
Fixpoint open_positions (ts : list Trade) : Z :=
  match ts with
  | [] => 0
  | t :: ts' =>
      (match action t with BUY => 1 | SELL => -1 end + open_positions ts')%Z
  end.

(** The state machine: FLAT with the next trade a BUY, or LONG with the
    next trade a SELL. *)
Definition FLAT (position : num) : Prop := eqb position (Fin 0) = true.
Definition LONG (position : num) : Prop := gtb position (Fin 0) = true.

Definition machine (position : num) (ts : list Trade) : Prop :=
  alternates BUY ts = true /\
  ((FLAT position /\ next_after BUY ts = BUY) \/
   (LONG position /\ next_after BUY ts = SELL)).

Definition invariant (s : State) : Prop := machine (position s) (s_trades s).

(** One round of a strategy's loop, seen on the position and the
    trades: nothing happens, or a BUY takes FLAT to LONG, or a SELL
    takes LONG to FLAT. *)
Inductive step (s s' : State) : Prop :=
| stay :
    position s' = position s -> s_trades s' = s_trades s -> step s s'
| enter (t : Trade) :
    FLAT (position s) -> LONG (position s') -> action t = BUY ->
    s_trades s' = s_trades s ++ [t] -> step s s'
| leave (t : Trade) :
    LONG (position s) -> position s' = Fin 0 -> action t = SELL ->
    s_trades s' = s_trades s ++ [t] -> step s s'.

(** A period usable by the loop: a whole number, or beyond the data. *)
Definition usable_period (data : list Bar) (period : num) : Prop :=
  ltb period (len data) = true -> as_index period <> None.

End Position.

Module BuyAndHoldInputs.
Import Backtest.

(** A single day that opens at 99 and closes at 100. *)
Definition day0 : Bar :=
  {| date := "2024-01-02"; open := Fin 99; high := Fin 101; low := Fin 98;
     close := Fin 100; volume := Fin 1000000; returns := Fin 0 |}.

Definition no_params : Params :=
  {| initialCapital := None; maPeriod := None; lookback := None;
     zScoreThreshold := None; fastPeriod := None; slowPeriod := None;
     signalPeriod := None |}.

End BuyAndHoldInputs.

Module MomentumInputs.
Import Backtest.

Definition bar (d : string) (c : Q) : Bar :=
  {| date := d; open := Fin c; high := Fin c; low := Fin c; close := Fin c;
     volume := Fin 1000000; returns := Fin 0 |}.

(** Closing prices 100, 100, 110, 90, 100, 120 under a two-day moving
    average: bought at 110, sold at 90, bought again at 120. *)
Definition series : list Bar :=
  [bar "2024-01-02" 100; bar "2024-01-03" 100; bar "2024-01-04" 110;
   bar "2024-01-05" 90; bar "2024-01-08" 100; bar "2024-01-09" 120].

Definition two_day_average : Params :=
  {| initialCapital := Some (Fin 10000); maPeriod := Some (Fin 2);
     lookback := None; zScoreThreshold := None; fastPeriod := None;
     slowPeriod := None; signalPeriod := None |}.

End MomentumInputs.

Module Policy.
Import MonteCarlo.

(** A degenerate input, in the specification's words: zero, negative or
    NaN; a missing one counts as well. *)
Definition degenerate (x : option num) : bool :=
  match x with
  | None | Some NaN => true
  | Some v => leb v (Fin 0)
  end.

Definition zero_or_NaN (x : option num) : bool :=
  match x with
  | None | Some NaN => true
  | Some v => eqb v (Fin 0)
  end.

(** The portfolio with the documented defaults in place of a zero or NaN
    expected return and of a degenerate volatility. *)
Definition with_defaults (p : Portfolio) : Portfolio :=
  {| currentValue := currentValue p;
     expectedReturn :=
       if zero_or_NaN (expectedReturn p) then Some (Fin 0.08)
       else expectedReturn p;
     volatility :=
       if degenerate (volatility p) then Some (Fin 0.15) else volatility p |}.

Definition horizon_or_default (horizonDays : option num) : num :=
  if degenerate horizonDays then Fin 252 else to_num horizonDays.

Definition simulations_or_default (numSimulations : option num) : num :=
  if degenerate numSimulations then Fin 1000 else to_num numSimulations.

End Policy.

Module MonteCarloInputs.
Import MonteCarlo.

Definition portfolio (cv er vol : num) : Portfolio :=
  {| currentValue := Some cv; expectedReturn := Some er;
     volatility := Some vol |}.

End MonteCarloInputs.

Module TailInputs.
Import MonteCarlo.

Definition run (q : Q) : Run :=
  {| finalValue := Fin q; r_maxDrawdown := Fin 0; path := [Fin 100; Fin q] |}.

(** Twenty runs from 100 that end between 81 and 119. *)
Definition finals : list Q :=
  [105; 97; 112; 88; 101; 93; 119; 81; 108; 99;
   103; 91; 115; 85; 110; 95; 102; 89; 117; 83].

Definition runs : list Run := map run finals.

End TailInputs.

(** [lo <= x < hi] on a number. *)
Definition band (lo hi : Q) (x : num) : bool :=
  leb (Fin lo) x && ltb x (Fin hi).

Module Rounds.
Import Backtest.
Open Scope js_scope.

(** One round of a strategy's loop at the price [p] of the bar: the bar
    is skipped; or it is recorded without a trade; or the whole cash
    buys [floor(cash / p)] shares, at least one; or the whole position
    is sold.  Every bar that is not skipped adds the point
    [position * p + cash] to the equity curve. *)
Inductive round (p : num) (s s' : State) : Prop :=
| skipped : s' = s -> round p s s'
| held (pt : Point) :
    position s' = position s -> cash s' = cash s ->
    s_trades s' = s_trades s ->
    s_values s' = s_values s ++ [pt] ->
    value pt = position s' * p + cash s' ->
    round p s s'
| bought (t : Trade) (pt : Point) :
    (position s === Fin 0) = true ->
    (Math_floor (cash s / p) >? Fin 0) = true ->
    position s' = Math_floor (cash s / p) ->
    cash s' = cash s - Math_floor (cash s / p) * p ->
    action t = BUY -> price t = p -> shares t = position s' ->
    s_trades s' = s_trades s ++ [t] ->
    s_values s' = s_values s ++ [pt] ->
    value pt = position s' * p + cash s' ->
    round p s s'
| sold (t : Trade) (pt : Point) :
    (position s >? Fin 0) = true ->
    position s' = Fin 0 ->
    cash s' = cash s + position s * p ->
    action t = SELL -> price t = p -> shares t = position s ->
    s_trades s' = s_trades s ++ [t] ->
    s_values s' = s_values s ++ [pt] ->
    value pt = position s' * p + cash s' ->
    round p s s'.

(** Every bar closes at a positive finite price. *)
Definition positive_closes (data : list Bar) : Prop :=
  Forall (fun d => exists c, close d = Fin c /\ (0 < c)%Q) data.

(** Cash and position are finite and not negative, and so is every
    point of the equity curve so far. *)
Definition solvent (s : State) : Prop :=
  (exists c, cash s = Fin c /\ (0 <= c)%Q) /\
  (exists q, position s = Fin q /\ (0 <= q)%Q) /\
  Forall (fun pt => exists v, value pt = Fin v /\ (0 <= v)%Q) (s_values s).

(** A trade of a positive (possibly infinite) number of shares. *)
Definition positive_shares (t : Trade) : Prop := (shares t >? Fin 0) = true.

(** The points on the equity curve so far; at most one trade per point. *)
Definition points (s : State) : nat := List.length (s_values s).

Definition counted (s : State) : Prop :=
  (List.length (s_trades s) <= points s)%nat.

End Rounds.

(** Every draw of [Math.random] is a number in [0,1). *)
Definition uniform_draws {M : Math} : Prop :=
  forall n, exists u, Math_random n = Fin u /\ (0 <= u < 1)%Q.

Module Bars.
Import Backtest.

(** A bar at positive prices whose close lies between its low and its
    high, the open being within half a percent of the close. *)
Definition well_formed (b : Bar) : Prop :=
  exists o h l c,
    open b = Fin o /\ high b = Fin h /\ low b = Fin l /\ close b = Fin c /\
    (0 < l <= c /\ c <= h /\ 0.995 * c <= o <= 1.005 * c)%Q.

End Bars.

Module Decline.
Open Scope Q_scope.

(** The relative decline from a value [a] to a later value [b]. *)
Definition decline (a b : Q) : Q := (a - b) / a.

(** [dd] is the largest decline from an entry of [vs] to a later one
    (or to itself: no decline at all is 0). *)
Definition worst_decline (vs : list Q) (dd : Q) : Prop :=
  (forall i j a b, (i <= j)%nat -> nth_error vs i = Some a ->
                   nth_error vs j = Some b -> decline a b <= dd) /\
  (exists i j a b, (i <= j)%nat /\ nth_error vs i = Some a /\
                   nth_error vs j = Some b /\ dd == decline a b).


(** The state of the drawdown loop after the entries [l]: the running
    peak is the largest of them, the running maximum is their worst
    decline. *)
Definition tracked (l : list Q) (peak dd : Q) : Prop :=
  0 < peak /\ 0 <= dd < 1 /\
  Forall (fun x => 0 < x <= peak) l /\
  (exists i, nth_error l i = Some peak) /\
  worst_decline l dd.

End Decline.

(** A simulated path over [days] days from [start]. *)
Definition path_shape (start : num) (days : nat) (path : list num) : Prop :=
  List.length path = S days /\ nth_error path 0 = Some start.

(** A finite number. *)
Definition finite (v : num) : Prop := exists q, v = Fin q.

(** The three bands, step by step: [(p5, median, p95)] with
    p5 <= median <= p95. *)
Definition ordered_percentiles (r : QuantUI.Percentiles) (l : list (Q * Q * Q))
  : Prop :=
  QuantUI.p5 r = map (fun x => Some (Fin (fst (fst x)))) l /\
  QuantUI.median r = map (fun x => Some (Fin (snd (fst x)))) l /\
  QuantUI.p95 r = map (fun x => Some (Fin (snd x))) l /\
  Forall (fun x => (fst (fst x) <= snd (fst x) <= snd x)%Q) l.

(** Sample inputs of the display, the news caller and the synthetic
    series. *)

Module DisplayInputs.
Import Risk.

(** The assessment of a portfolio whose five components are all 100. *)
Definition all_at_100 : Components :=
  {| market := Fin 100; credit := Fin 100; liquidity := Fin 100;
     sentimentC := Fin 100; systemic := Fin 100 |}.

Definition top_of_scale : RiskScore :=
  {| totalRisk := Fin 100; components := all_at_100;
     level := getRiskLevel (Fin 100);
     recommendations := generateRiskRecommendations (Fin 100) all_at_100 |}.

End DisplayInputs.

Module NewsInputs.

(** A reading of 40% bearish and 35% bullish on a text that mentions a
    crisis. *)
Definition reading : Risk.Sentiment :=
  {| Risk.bearish := Some (Fin 40); Risk.bullish := Some (Fin 35) |}.

Definition negative : list string := ["crisis"; "decline"]%string.

End NewsInputs.

Module SyntheticInputs.

(** A calendar that prints the same day for every bar. *)
Definition isoDate (days : num) (i : nat) : res string :=
  Ok "2024-01-02"%string.

End SyntheticInputs.



(** A trade of a whole number of shares, at least one. *)
Definition whole_lot (t : Backtest.Trade) : Prop :=
  exists n : Z, Backtest.shares t = Fin (inject_Z n) /\ (1 <= n)%Z.

(** The position is a whole number of shares. *)
Definition whole_position (s : Backtest.State) : Prop :=
  exists n : Z, Backtest.position s = Fin (inject_Z n).

(** Inputs on which the rounding of doubles shows. *)
Module RoundingInputs.
Import Risk.

(** No price series, a spread of one basis point, a contagion indicator
    of 0.9, the empty portfolio and a bearish reading of 1%: the
    components are 80, 30, 31, 7 and 72. *)
Definition marketData : MarketData :=
  {| series := []; avgVolume := None; bidAskSpread := Some (Fin 0.0001);
     avgCorrelation := None; contagionIndicator := Some (Fin 0.9) |}.

Definition portfolio : Portfolio :=
  {| beta := None; hasHighYield := false; hasEmergingMarkets := false;
     hasCrypto := false; assets := None; size := None |}.

Definition news : NewsAnalysis :=
  {| sentiment := Some {| bearish := Some (Fin 1); bullish := None |};
     sentimentVolatility := Some (Fin 0.3) |}.

(** A holding worth 10^15 beside one worth 10^-4. *)
Definition whale_and_dust : list Analyzer.Asset :=
  [Holdings.holding "stock" (1000000000000000 # 1);
   Holdings.holding "bond" (1 # 10000)].

End RoundingInputs.

(** The same inputs as doubles. *)
Module Binary64Inputs.
Import PrimFloat.
#[local] Set Warnings "-inexact-float".
#[local] Open Scope float_scope.
Import Binary64.

(** [Math.pow(x, 2)] as a product. *)
Definition pow (x y : float) : float :=
  if y =? 2 then x * x else nan.

Definition marketData : Risk.MarketData :=
  {| Risk.series := []; Risk.avgVolume := None;
     Risk.bidAskSpread := Some 0.0001; Risk.avgCorrelation := None;
     Risk.contagionIndicator := Some 0.9 |}.

Definition portfolio : Risk.Portfolio :=
  {| Risk.beta := None; Risk.hasHighYield := false;
     Risk.hasEmergingMarkets := false; Risk.hasCrypto := false;
     Risk.assets := None; Risk.size := None |}.

Definition news : Risk.NewsAnalysis :=
  {| Risk.sentiment :=
       Some {| Risk.bearish := Some 1; Risk.bullish := None |};
     Risk.sentimentVolatility := Some 0.3 |}.



Definition concentration (portfolio : list Analyzer.Asset)
  : Analyzer.Concentration :=
  Analyzer.analyzeDiversification portfolio
    (Analyzer.calculateWeights portfolio
       (Analyzer.calculateTotalValue portfolio)).

(** A holding worth 10^15 beside one worth 10^-4. *)
Definition whale_and_dust : list Analyzer.Asset :=
  [{| Analyzer.totalValue := Some 1e15 |};
   {| Analyzer.totalValue := Some 1e-4 |}].

(** Ten holdings worth 100.1 each. *)
Definition ten_equal : list Analyzer.Asset :=
  repeat {| Analyzer.totalValue := Some 100.1 |} 10.

(** One holding, and two holdings worth 500 each. *)
Definition one_holding : list Analyzer.Asset :=
  [{| Analyzer.totalValue := Some 1234.56 |}].

Definition fifty_fifty : list Analyzer.Asset :=
  repeat {| Analyzer.totalValue := Some 500 |} 2.


(** [x > 10] on a double. *)
Definition above_ten (x : float) : bool := 10 <? x.

End Binary64Inputs.

(* ================================================================== *)
(** * Part II.  Properties                                              *)
(* ================================================================== *)

(** ** Comparisons of finite numbers *)

Lemma ltb_Fin (a b : Q) : ltb (Fin a) (Fin b) = true <-> (a < b)%Q.
Proof.
  unfold ltb; simpl. rewrite Qlt_alt.
  destruct (a ?= b)%Q; split; congruence.
Qed.

Lemma leb_Fin (a b : Q) : leb (Fin a) (Fin b) = true <-> (a <= b)%Q.
Proof.
  unfold leb; simpl. rewrite Qle_alt.
  destruct (a ?= b)%Q; split; congruence.
Qed.

Lemma eqb_Fin (a b : Q) : eqb (Fin a) (Fin b) = true <-> (a == b)%Q.
Proof.
  unfold eqb; simpl. rewrite Qeq_alt.
  destruct (a ?= b)%Q; split; congruence.
Qed.

Lemma ltb_Fin_true (a b : Q) : (a < b)%Q -> ltb (Fin a) (Fin b) = true.
Proof. apply ltb_Fin. Qed.

Lemma ltb_Fin_false (a b : Q) : (b <= a)%Q -> ltb (Fin a) (Fin b) = false.
Proof.
  intros H. destruct (ltb (Fin a) (Fin b)) eqn:E; [|reflexivity].
  apply ltb_Fin in E. lra.
Qed.

Lemma leb_Fin_true (a b : Q) : (a <= b)%Q -> leb (Fin a) (Fin b) = true.
Proof. apply leb_Fin. Qed.

Lemma leb_Fin_false (a b : Q) : (b < a)%Q -> leb (Fin a) (Fin b) = false.
Proof.
  intros H. destruct (leb (Fin a) (Fin b)) eqn:E; [|reflexivity].
  apply leb_Fin in E. lra.
Qed.

Lemma eqb_Fin_true (a b : Q) : (a == b)%Q -> eqb (Fin a) (Fin b) = true.
Proof. apply eqb_Fin. Qed.

Lemma eqb_Fin_false (a b : Q) : ~ (a == b)%Q -> eqb (Fin a) (Fin b) = false.
Proof.
  intros H. destruct (eqb (Fin a) (Fin b)) eqn:E; [|reflexivity].
  apply eqb_Fin in E. contradiction.
Qed.

(** A strictly positive number is neither zero nor NaN. *)
Lemma gtb_0_not_eqb (x : num) : gtb x (Fin 0) = true -> eqb x (Fin 0) = false.
Proof.
  destruct x as [| | |q]; try reflexivity.
  unfold gtb, ltb, eqb; simpl.
  rewrite <- (Qcompare_antisym q 0).
  destruct (q ?= 0)%Q; simpl; congruence.
Qed.

Lemma eqb_0_not_gtb (x : num) : eqb x (Fin 0) = true -> gtb x (Fin 0) = false.
Proof.
  intros H. destruct (gtb x (Fin 0)) eqn:E; [|reflexivity].
  apply gtb_0_not_eqb in E. congruence.
Qed.

(* ------------------------------------------------------------------ *)
(** ** RiskScorer: the level bands                                      *)
(* ------------------------------------------------------------------ *)

Section RiskLevels.
Import Risk.
Open Scope Q_scope.



End RiskLevels.

(* ------------------------------------------------------------------ *)
(** ** PortfolioRiskAnalyzer: the empty portfolio and the Sharpe ratio  *)
(* ------------------------------------------------------------------ *)

Section AnalyzerBasics.
Import Analyzer.
Context {M : Math}.

(** C7.  On the empty holdings list, and on [null] or [undefined], the
    analyzer returns the zeroed record: every metric 0, empty
    diversification maps, no pros, no cons, no recommendations.  The
    call returns; nothing is thrown. *)
Theorem analyzePortfolio_empty (marketData : option MarketData) :
  analyzePortfolio None marketData = getEmptyAnalysis /\
  analyzePortfolio (Some []) marketData = getEmptyAnalysis /\
  getEmptyAnalysis =
  {| metrics :=
       {| m_totalValue := Fin 0; volatility := Fin 0; maxDrawdown := Fin 0;
          valueAtRisk := Fin 0; sharpeRatio := Fin 0; expectedReturn := Fin 0;
          beta := Fin 0; treynorRatio := Fin 0 |};
     diversification :=
       {| assetTypes := []; sectors := []; regions := [];
          herfindahlIndex := Fin 0; effectiveN := Fin 0;
          diversificationRatio := Fin 0; isWellDiversified := false |};
     prosAndCons := {| pros := []; cons := [] |};
     recommendations := [];
     timestamp := now |}.
Proof. repeat split. Qed.

(** Fewer than two returns: the volatility is the constant 0. *)
Lemma calculateVolatility_short (returns : list num) :
  (List.length returns < 2)%nat -> calculateVolatility returns = Fin 0.
Proof.
  intros H. unfold calculateVolatility.
  apply Nat.ltb_lt in H. rewrite H. reflexivity.
Qed.

(** A volatility of 0 short-cuts the Sharpe ratio to 0. *)
Lemma calculateSharpeRatio_guard (returns : list num) (volatility : option num) :
  eqb (match volatility with
       | Some v => v
       | None => calculateVolatility returns
       end) (Fin 0) = true ->
  calculateSharpeRatio returns volatility = Fin 0.
Proof.
  intros H. unfold calculateSharpeRatio.
  destruct returns as [|r returns]; [reflexivity|].
  destruct volatility as [v|]; rewrite H; reflexivity.
Qed.

(** C8.  When the volatility is 0 the Sharpe ratio is exactly 0,
    whatever the returns: the quotient is not formed.  The volatility
    is the one passed in or, when none is passed, the one computed from
    the returns, which is 0 for fewer than two returns. *)
Theorem calculateSharpeRatio_zero_volatility
  (returns : list num) (volatility : option num) :
  eqb (match volatility with
       | Some v => v
       | None => calculateVolatility returns
       end) (Fin 0) = true ->
  calculateSharpeRatio returns volatility = Fin 0 /\
  ((List.length returns < 2)%nat -> calculateVolatility returns = Fin 0).
Proof.
  intros H. split.
  - apply calculateSharpeRatio_guard, H.
  - apply calculateVolatility_short.
Qed.

(** The analyzer passes the volatility it computed: with volatility 0
    the reported Sharpe ratio is 0. *)
Lemma analyzePortfolio_sharpe_zero
  (portfolio : option (list Asset)) (marketData : option MarketData) :
  eqb (volatility (metrics (analyzePortfolio portfolio marketData))) (Fin 0)
  = true ->
  sharpeRatio (metrics (analyzePortfolio portfolio marketData)) = Fin 0.
Proof.
  destruct portfolio as [[|a portfolio]|]; try reflexivity.
  cbn [analyzePortfolio metrics volatility sharpeRatio]. intros H.
  apply (calculateSharpeRatio_guard _ (Some _)). exact H.
Qed.

End AnalyzerBasics.

(** Two returns of 10% with a volatility of 0: the mean return is not
    0, the Sharpe ratio is. *)
Lemma calculateSharpeRatio_zero_volatility_witness :
  Analyzer.calculateSharpeRatio (M := Sample.math)
    [Fin 0.1; Fin 0.1] (Some (Fin 0)) = Fin 0.
Proof.
  apply (@calculateSharpeRatio_zero_volatility Sample.math
           [Fin 0.1; Fin 0.1] (Some (Fin 0))).
  reflexivity.
Defined.

(* ------------------------------------------------------------------ *)
(** ** BacktestEngine: buy and hold                                     *)
(* ------------------------------------------------------------------ *)

(** [xs[xs.length - 1]] is defined on a non-empty array. *)
Lemma at_index_last {A} (l : list A) (a : A) :
  exists x, at_index (a :: l) (List.length (a :: l) - 1) = Ok x.
Proof.
  unfold at_index.
  destruct (nth_error (a :: l) (List.length (a :: l) - 1)) eqn:E.
  - eexists; reflexivity.
  - apply nth_error_None in E. simpl in E. lia.
Qed.

Section BuyAndHold.
Import Backtest BuyAndHoldInputs.
Open Scope js_scope.

(** C2, as the code has it.  On every non-empty series buy-and-hold
    returns, with exactly one trade: a BUY dated day 0 at that day's
    closing price, for floor(initialCapital / closing price) shares
    (initialCapital being 10000 when the parameter is missing, zero or
    NaN); the list holds no SELL. *)
Theorem buyAndHold_single_buy (d0 : Bar) (rest : list Bar) (params : Params) :
  exists r,
    buyAndHoldStrategy (d0 :: rest) params = Ok r /\
    (exists t, trades r = [t] /\
       t_date t = date d0 /\ action t = BUY /\ price t = close d0 /\
       shares t =
         Math_floor (or_default (initialCapital params) (Fin 10000) / close d0)) /\
    (forall t, In t (trades r) -> action t <> SELL).
Proof.
  unfold buyAndHoldStrategy. cbn [at_index nth_error bind map].
  match goal with
  | |- context [at_index (?p :: ?ps) _] =>
      destruct (at_index_last ps p) as [x Hx]
  end.
  rewrite Hx. cbn [bind].
  eexists. split; [reflexivity|]. cbn [trades]. split.
  - eexists. split; [reflexivity|]. repeat split.
  - intros t [<-|[]]. discriminate.
Qed.

(** C2 as stated fails: on a day that opens at 99 and closes at 100 the
    one trade is priced 100, the close, and not 99, the open, and it is
    for 100 shares where the opening price would give 101. *)
Lemma buyAndHold_not_at_open :
  exists t,
    (r <- buyAndHoldStrategy [day0] no_params ;; Ok (trades r)) = Ok [t] /\
    (price t === open day0) = false /\
    (price t === close day0) = true /\
    (shares t === Fin 100) = true /\
    (Math_floor (Fin 10000 / open day0) === Fin 101) = true.
Proof. eexists. repeat split. Qed.

(** A hundred days closing at 100, with a capital of 10000: one trade
    of 100 shares and a final value of 10000. *)
Example buyAndHold_flat_series :
  exists r t,
    buyAndHoldStrategy (repeat (MomentumInputs.bar "2024-01-02" 100) 100)
      no_params = Ok r /\
    trades r = [t] /\
    (shares t === Fin 100) = true /\
    (finalValue r === Fin 10000) = true.
Proof. do 2 eexists. repeat split; vm_compute; reflexivity. Qed.

End BuyAndHold.

(* ------------------------------------------------------------------ *)
(** ** BacktestEngine: series shorter than the look-back window         *)
(* ------------------------------------------------------------------ *)

Lemma leb_not_ltb (x y : num) : leb x y = true -> ltb y x = false.
Proof.
  unfold leb, ltb.
  destruct x as [| | |a], y as [| | |b]; simpl; try congruence.
  rewrite <- (Qcompare_antisym a b).
  destruct (a ?= b)%Q; simpl; congruence.
Qed.

Section ShortSeries.
Import Backtest.
Context {M : Math}.
Variable generateHistoricalData : list Bar.
Open Scope js_scope.

(** With no point on the equity curve, [values[0].value] throws. *)
Lemma calculatePerformanceMetrics_no_values (r : StrategyResult) (ic : num) :
  portfolioValues r = [] ->
  calculatePerformanceMetrics r ic = Throw undefined_read.
Proof. intros H. unfold calculatePerformanceMetrics. rewrite H. reflexivity. Qed.

Lemma from_period_skipped {S} (data : list Bar) (start : num)
  (body : nat -> S -> nat -> res S) (s : S) :
  leb (len data) start = true -> from_period data start body s = Ok s.
Proof.
  intros H. unfold from_period. rewrite (leb_not_ltb _ _ H). reflexivity.
Qed.

(** C10.  On a loaded, non-empty series of at most [maPeriod] bars
    (20 by default) the momentum loop never runs: no trade, no point on
    the equity curve.  The metrics then read element 0 of the empty
    curve, and the run ends in a TypeError instead of a result; the
    engine is left as it was.  Mean reversion does the same on at most
    [lookback] bars. *)
Theorem short_series_backtest_fails (this : Engine) (params : Params) :
  historicalData this <> [] ->
  (leb (len (historicalData this)) (or_default (maPeriod params) (Fin 20))
   = true ->
   momentumStrategy (historicalData this) params =
     Ok {| trades := []; portfolioValues := [];
           finalValue := or_default (initialCapital params) (Fin 10000) |} /\
   runBacktest generateHistoricalData this "momentum" params =
     (this, Throw undefined_read)) /\
  (leb (len (historicalData this)) (or_default (lookback params) (Fin 20))
   = true ->
   (exists r, meanReversionStrategy (historicalData this) params = Ok r /\
              trades r = [] /\ portfolioValues r = []) /\
   runBacktest generateHistoricalData this "meanReversion" params =
     (this, Throw undefined_read)).
Proof.
  destruct this as [data results0]. cbn [historicalData].
  intros Hne. destruct data as [|d data]; [congruence|].
  assert (Hm : leb (len (d :: data)) (or_default (maPeriod params) (Fin 20))
               = true ->
               momentumStrategy (d :: data) params =
               Ok {| trades := []; portfolioValues := [];
                     finalValue :=
                       or_default (initialCapital params) (Fin 10000) |}).
  { intros H. unfold momentumStrategy.
    rewrite (from_period_skipped _ _ _ _ H). reflexivity. }
  assert (Hr : leb (len (d :: data)) (or_default (lookback params) (Fin 20))
               = true ->
               exists r, meanReversionStrategy (d :: data) params = Ok r /\
                         trades r = [] /\ portfolioValues r = []).
  { intros H. unfold meanReversionStrategy.
    rewrite (from_period_skipped _ _ _ _ H). cbn [bind].
    destruct (at_index_last data d) as [x Hx]. rewrite Hx. cbn [bind].
    eexists. repeat split. }
  split; intros H.
  - split; [exact (Hm H)|].
    unfold runBacktest. cbn [lookup_strategy strategies find fst snd String.eqb
                               Ascii.eqb Bool.eqb historicalData results].
    rewrite (Hm H). reflexivity.
  - split; [exact (Hr H)|].
    destruct (Hr H) as (r & Er & Et & Ev).
    unfold runBacktest. cbn [lookup_strategy strategies find fst snd String.eqb
                               Ascii.eqb Bool.eqb historicalData results].
    rewrite Er. cbn [bind].
    rewrite (calculatePerformanceMetrics_no_values _ _ Ev). reflexivity.
Qed.

End ShortSeries.

(** One loaded bar, default parameters: both strategies end in the
    TypeError. *)
Lemma short_series_backtest_fails_witness :
  Backtest.runBacktest (M := Sample.math) []
    {| Backtest.historicalData := [BuyAndHoldInputs.day0];
       Backtest.results := None |}
    "momentum" BuyAndHoldInputs.no_params
  = ({| Backtest.historicalData := [BuyAndHoldInputs.day0];
        Backtest.results := None |},
     Throw undefined_read).
Proof.
  apply (@short_series_backtest_fails Sample.math []
           {| Backtest.historicalData := [BuyAndHoldInputs.day0];
              Backtest.results := None |}
           BuyAndHoldInputs.no_params).
  - discriminate.
  - reflexivity.
Defined.

(* ------------------------------------------------------------------ *)
(** ** BacktestEngine: one open position at a time                      *)
(* ------------------------------------------------------------------ *)

Section OnePosition.
Import Backtest Position.
Open Scope js_scope.

Lemma alternates_snoc (first : Action) (ts : list Trade) (t : Trade) :
  alternates first (ts ++ [t]) =
  alternates first ts && Action_eqb (action t) (next_after first ts).
Proof.
  revert first. induction ts as [|u ts IH]; intros first; simpl.
  - rewrite andb_true_r. reflexivity.
  - rewrite IH, andb_assoc. reflexivity.
Qed.

Lemma next_after_snoc (first : Action) (ts : list Trade) (t : Trade) :
  next_after first (ts ++ [t]) = flip (next_after first ts).
Proof.
  revert first. induction ts as [|u ts IH]; intros first; simpl; auto.
Qed.

Lemma FLAT_not_LONG (p : num) : FLAT p -> LONG p -> False.
Proof.
  unfold FLAT, LONG. intros H1 H2.
  apply gtb_0_not_eqb in H2. congruence.
Qed.

Lemma machine_initial : machine (Fin 0) [].
Proof. split; [reflexivity|]. left. split; reflexivity. Qed.

Lemma invariant_initial (initialCapital : num) :
  invariant (initial initialCapital).
Proof. exact machine_initial. Qed.

(** A BUY is taken only from FLAT and leads to LONG. *)
Lemma machine_buy (p shares : num) (ts : list Trade) (t : Trade) :
  machine p ts -> FLAT p -> LONG shares -> action t = BUY ->
  machine shares (ts ++ [t]).
Proof.
  intros [Ha [[_ Hn]|[Hl _]]] Hf Hs Ht.
  - split.
    + rewrite alternates_snoc, Ha, Hn, Ht. reflexivity.
    + right. split; [exact Hs|]. rewrite next_after_snoc, Hn. reflexivity.
  - destruct (FLAT_not_LONG Hf Hl).
Qed.

(** A SELL is taken only from LONG and leads to FLAT. *)
Lemma machine_sell (p : num) (ts : list Trade) (t : Trade) :
  machine p ts -> LONG p -> action t = SELL ->
  machine (Fin 0) (ts ++ [t]).
Proof.
  intros [Ha [[Hf _]|[_ Hn]]] Hl Ht.
  - destruct (FLAT_not_LONG Hf Hl).
  - split.
    + rewrite alternates_snoc, Ha, Hn, Ht. reflexivity.
    + left. split; [reflexivity|]. rewrite next_after_snoc, Hn. reflexivity.
Qed.

Lemma for_each_invariant {S} (P : S -> Prop) (body : S -> nat -> res S) :
  (forall s i s', P s -> body s i = Ok s' -> P s') ->
  forall indices s s', P s -> for_each indices body s = Ok s' -> P s'.
Proof.
  intros Hbody. induction indices as [|i indices IH]; intros s s' Hs; simpl.
  - intros E. injection E as <-. exact Hs.
  - destruct (body s i) as [s1|e] eqn:E1; simpl; [|discriminate].
    apply IH. exact (Hbody _ _ _ Hs E1).
Qed.

Lemma from_period_invariant {S} (P : S -> Prop) (data : list Bar) (start : num)
  (body : nat -> S -> nat -> res S) :
  (forall n s i s', P s -> body n s i = Ok s' -> P s') ->
  forall s s', P s -> from_period data start body s = Ok s' -> P s'.
Proof.
  intros Hbody s s' Hs. unfold from_period.
  destruct (start <? len data); [|intros E; injection E as <-; exact Hs].
  destruct (as_index start) as [n|]; [|discriminate].
  apply for_each_invariant; [|exact Hs]. apply Hbody.
Qed.

(** Alternation bounds the open positions of every prefix. *)
Lemma alternates_open_positions (ts : list Trade) (a : Action) :
  alternates a ts = true ->
  forall k,
    open_positions (firstn k ts) =
    match a with
    | BUY => if Nat.even (List.length (firstn k ts)) then 0%Z else 1%Z
    | SELL => if Nat.even (List.length (firstn k ts)) then 0%Z else (-1)%Z
    end.
Proof.
  revert a. induction ts as [|t ts IH]; intros a H k.
  - destruct k, a; reflexivity.
  - destruct k as [|k]; [destruct a; reflexivity|].
    simpl in H. apply andb_true_iff in H as [H1 H2].
    cbn [firstn open_positions List.length].
    rewrite (IH _ H2 k). rewrite Nat.even_succ, <- Nat.negb_even.
    destruct a, (action t); simpl in *; try discriminate;
      destruct (Nat.even (List.length (firstn k ts))); reflexivity.
Qed.

(** A step of the machine keeps the invariant. *)
Lemma step_invariant (s s' : State) : invariant s -> step s s' -> invariant s'.
Proof.
  unfold invariant. intros Hs [Ep Et|t Hf Hl Ha Et|t Hl Ep Ha Et].
  - rewrite Ep, Et. exact Hs.
  - rewrite Et. eapply machine_buy; eassumption.
  - rewrite Ep, Et. eapply machine_sell; eassumption.
Qed.

(** Every round of the momentum loop is a step of the machine. *)
Lemma momentum_body_step (data : list Bar) (maPeriod : num) (n : nat)
  (s : State) (i : nat) (s' : State) :
  momentum_body data maPeriod n s i = Ok s' -> step s s'.
Proof.
  unfold momentum_body.
  destruct (at_index data i) as [di|]; cbn [bind]; [|discriminate].
  intros E. injection E as <-.
  destruct ((position s === Fin 0) && _) eqn:Eb.
  - apply andb_true_iff in Eb as [Ef _].
    destruct (_ >? Fin 0) eqn:Esh; [|apply stay; reflexivity].
    eapply enter; cbn [position s_trades];
      [exact Ef|exact Esh| |reflexivity]; reflexivity.
  - destruct ((position s >? Fin 0) && _) eqn:Es; [|apply stay; reflexivity].
    apply andb_true_iff in Es as [El _].
    eapply leave; cbn [position s_trades];
      [exact El|reflexivity| |reflexivity]; reflexivity.
Qed.

Context {M : Math}.

(** Every round of the mean-reversion loop is a step of the machine. *)
Lemma meanReversion_body_step (data : list Bar) (zScoreThreshold : num)
  (n : nat) (s : State) (i : nat) (s' : State) :
  meanReversion_body data zScoreThreshold n s i = Ok s' -> step s s'.
Proof.
  unfold meanReversion_body.
  destruct (at_index data i) as [di|]; cbn [bind]; [|discriminate].
  intros E. injection E as <-.
  destruct ((position s === Fin 0) && _) eqn:Eb.
  - apply andb_true_iff in Eb as [Ef _].
    destruct (_ >? Fin 0) eqn:Esh; [|apply stay; reflexivity].
    eapply enter; cbn [position s_trades];
      [exact Ef|exact Esh| |reflexivity]; reflexivity.
  - destruct ((position s >? Fin 0) && _) eqn:Es; [|apply stay; reflexivity].
    apply andb_true_iff in Es as [El _].
    eapply leave; cbn [position s_trades];
      [exact El|reflexivity| |reflexivity]; reflexivity.
Qed.

(** Every round of the MACD loop is a step of the machine. *)
Lemma macd_body_step (macdData : list Macd) (s : State) (i : nat)
  (s' : State) :
  macd_body macdData s i = Ok s' -> step s s'.
Proof.
  unfold macd_body.
  destruct (at_index macdData i) as [m|]; cbn [bind]; [|discriminate].
  destruct (negb (truthy_opt (signal m)));
    [intros E; injection E as <-; apply stay; reflexivity|].
  destruct ((position s === Fin 0) && _) eqn:Eb.
  - apply andb_true_iff in Eb as [Ef _].
    destruct (crossed macdData i leb) as [[|]|]; cbn [bind]; try discriminate.
    + intros E. injection E as <-.
      destruct (_ >? Fin 0) eqn:Esh; [|apply stay; reflexivity].
      eapply enter; cbn [position s_trades];
        [exact Ef|exact Esh| |reflexivity]; reflexivity.
    + assert (El : (position s >? Fin 0) = false)
        by (apply eqb_0_not_gtb; exact Ef).
      rewrite El. cbn [andb bind].
      intros E. injection E as <-. apply stay; reflexivity.
  - cbn [bind].
    destruct ((position s >? Fin 0) && _) eqn:Es.
    + apply andb_true_iff in Es as [El _].
      destruct (crossed macdData i geb) as [[|]|]; cbn [bind];
        try discriminate; intros E; injection E as <-;
        [|apply stay; reflexivity].
      eapply leave; cbn [position s_trades];
        [exact El|reflexivity| |reflexivity]; reflexivity.
    + cbn [bind]. intros E. injection E as <-. apply stay; reflexivity.
Qed.

(** Each strategy, when it returns, returns an alternating list. *)
Lemma buyAndHold_alternates (data : list Bar) (params : Params)
  (r : StrategyResult) :
  buyAndHoldStrategy data params = Ok r -> alternates BUY (trades r) = true.
Proof.
  unfold buyAndHoldStrategy.
  destruct (at_index data 0) as [d0|]; cbn [bind]; [|discriminate].
  destruct (at_index _ _) as [x|]; cbn [bind]; [|discriminate].
  intros E. injection E as <-. reflexivity.
Qed.

Lemma momentum_alternates (data : list Bar) (params : Params)
  (r : StrategyResult) :
  momentumStrategy data params = Ok r -> alternates BUY (trades r) = true.
Proof.
  unfold momentumStrategy.
  destruct (from_period _ _ _ _) as [s|] eqn:Es; cbn [bind]; [|discriminate].
  assert (Hs : invariant s).
  { eapply (from_period_invariant invariant);
      [|apply invariant_initial|exact Es].
    intros n s0 i s1 H0 E. exact (step_invariant H0 (momentum_body_step _ _ _ _ _ E)). }
  destruct (if position s >? Fin 0 then _ else _) as [c|]; cbn [bind];
    [|discriminate].
  intros E. injection E as <-. exact (proj1 Hs).
Qed.

Lemma meanReversion_alternates (data : list Bar) (params : Params)
  (r : StrategyResult) :
  meanReversionStrategy data params = Ok r -> alternates BUY (trades r) = true.
Proof.
  unfold meanReversionStrategy.
  destruct (from_period _ _ _ _) as [s|] eqn:Es; cbn [bind]; [|discriminate].
  assert (Hs : invariant s).
  { eapply (from_period_invariant invariant);
      [|apply invariant_initial|exact Es].
    intros n s0 i s1 H0 E.
    exact (step_invariant H0 (meanReversion_body_step _ _ _ _ _ E)). }
  destruct (at_index _ _) as [x|]; cbn [bind]; [|discriminate].
  intros E. injection E as <-. exact (proj1 Hs).
Qed.

Lemma macd_alternates (data : list Bar) (params : Params)
  (r : StrategyResult) :
  macdStrategy data params = Ok r -> alternates BUY (trades r) = true.
Proof.
  unfold macdStrategy.
  destruct (calculateMACD _ _ _ _) as [macdData|]; cbn [bind]; [|discriminate].
  destruct (for_each _ _ _) as [s|] eqn:Es; cbn [bind]; [|discriminate].
  assert (Hs : invariant s).
  { eapply (for_each_invariant invariant);
      [|apply invariant_initial|exact Es].
    intros s0 i s1 H0 E. exact (step_invariant H0 (macd_body_step _ _ _ E)). }
  destruct (at_index _ _) as [x|]; cbn [bind]; [|discriminate].
  intros E. injection E as <-. exact (proj1 Hs).
Qed.

End OnePosition.

Section Strategies.
Import Backtest Position.
Context {M : Math}.

(** C5.  Whatever the series and the parameters, the trade list a
    strategy of the engine returns alternates BUY, SELL, BUY, ...
    starting with a BUY; hence after every prefix of the list at most
    one position is open.  (Inside the loops every round is a step of
    the FLAT/LONG machine, a BUY leaving FLAT for LONG and a SELL
    leaving LONG for FLAT: [strategy_rounds_are_steps].) *)
Theorem strategies_one_position
  (name : string) (strategy : list Bar -> Params -> res StrategyResult)
  (data : list Bar) (params : Params) (r : StrategyResult) :
  In (name, strategy) strategies ->
  strategy data params = Ok r ->
  alternates BUY (trades r) = true /\
  forall k,
    open_positions (firstn k (trades r)) = 0%Z \/
    open_positions (firstn k (trades r)) = 1%Z.
Proof.
  intros Hin Hr.
  assert (Ha : alternates BUY (trades r) = true).
  { simpl in Hin.
    destruct Hin as [E|[E|[E|[E|[]]]]]; injection E as <- <-.
    - exact (buyAndHold_alternates _ _ Hr).
    - exact (momentum_alternates _ _ Hr).
    - exact (meanReversion_alternates _ _ Hr).
    - exact (macd_alternates _ _ Hr). }
  split; [exact Ha|]. intros k.
  rewrite (alternates_open_positions _ _ Ha k).
  destruct (Nat.even _); auto.
Qed.

(** Every round of the three loops is a step of the FLAT/LONG machine:
    no trade, or a BUY from FLAT into LONG, or a SELL from LONG into
    FLAT. *)
Theorem strategy_rounds_are_steps (s : State) (i : nat) (s' : State) :
  (forall data maPeriod n,
     momentum_body data maPeriod n s i = Ok s' -> step s s') /\
  (forall data zScoreThreshold n,
     meanReversion_body data zScoreThreshold n s i = Ok s' -> step s s') /\
  (forall macdData, macd_body macdData s i = Ok s' -> step s s').
Proof.
  split; [|split].
  - intros data maPeriod n. apply momentum_body_step.
  - intros data z n. apply meanReversion_body_step.
  - intros macdData. apply macd_body_step.
Qed.

End Strategies.

(** The third day of the sample series, entered FLAT: the momentum
    round buys. *)
Lemma strategy_rounds_are_steps_witness :
  exists s',
    Backtest.momentum_body MomentumInputs.series (Fin 2) 2
      (Backtest.initial (Fin 10000)) 2 = Ok s' /\
    Position.step (Backtest.initial (Fin 10000)) s' /\
    map Backtest.action (Backtest.s_trades s') = [Backtest.BUY].
Proof.
  eexists. split; [vm_compute; reflexivity|]. split; [|reflexivity].
  apply (proj1 (@strategy_rounds_are_steps Sample.math
                  (Backtest.initial (Fin 10000)) 2 _)
           MomentumInputs.series (Fin 2) 2%nat).
  vm_compute. reflexivity.
Defined.

(** The momentum strategy on the sample series: BUY, SELL, BUY. *)
Lemma strategies_one_position_witness :
  exists r,
    Backtest.momentumStrategy MomentumInputs.series
      MomentumInputs.two_day_average = Ok r /\
    map Backtest.action (Backtest.trades r)
    = [Backtest.BUY; Backtest.SELL; Backtest.BUY] /\
    Position.alternates Backtest.BUY (Backtest.trades r) = true.
Proof.
  eexists. split; [vm_compute; reflexivity|]. split; [reflexivity|].
  apply (@strategies_one_position Sample.math "momentum"
           Backtest.momentumStrategy MomentumInputs.series
           MomentumInputs.two_day_average).
  - right. left. reflexivity.
  - vm_compute. reflexivity.
Defined.

(* ------------------------------------------------------------------ *)
(** ** RiskScorer: component and composite scores                       *)
(* ------------------------------------------------------------------ *)

Section RiskBounds.
Import Risk RiskInputs.
Context {M : Math}.
Open Scope Q_scope.

Lemma Math_min_100 (lo x : Q) :
  lo <= x -> lo <= 100 -> within lo 100 (Math_min (Fin 100) (Fin x)).
Proof.
  intros Hx Hlo. unfold Math_min.
  destruct (Qlt_le_dec x 100) as [H|H].
  - rewrite (ltb_Fin_true H). exists x. split; [reflexivity|lra].
  - rewrite (ltb_Fin_false H). exists 100. split; [reflexivity|lra].
Qed.


Lemma Math_min_cap (cap x : Q) :
  0 <= x -> 0 <= cap -> within 0 cap (Math_min (Fin cap) (Fin x)).
Proof.
  intros Hx Hc. unfold Math_min.
  destruct (Qlt_le_dec x cap) as [H|H].
  - rewrite (ltb_Fin_true H). exists x. split; [reflexivity|lra].
  - rewrite (ltb_Fin_false H). exists cap. split; [reflexivity|lra].
Qed.

(** [x || d] on a property that is not negative: a finite number, not
    negative. *)
Lemma or_default_nonneg (x : option num) (d : Q) :
  nonneg x -> 0 <= d -> exists q, or_default x (Fin d) = Fin q /\ 0 <= q.
Proof.
  intros Hx Hd. destruct x as [[| | |q]|]; simpl in *; try contradiction.
  - destruct (Qeq_bool q 0); simpl; eauto.
  - eauto.
Qed.

(** The market component is [min(100, 10..40 + 10..30 + 30)]. *)
Lemma calculateMarketRisk_bounds (marketData : MarketData)
  (portfolio : Portfolio) :
  within 50 100 (calculateMarketRisk marketData portfolio).
Proof.
  unfold calculateMarketRisk.
  generalize (calculateVolatility (calculateReturns (series marketData))) as v.
  generalize (Math_abs (sub (calculatePortfolioBeta portfolio) (Fin 1))) as b.
  intros b v.
  destruct (ltb v (Fin 0.10)), (ltb v (Fin 0.20)), (ltb v (Fin 0.30)),
    (ltb b (Fin 0.3)), (ltb b (Fin 0.6));
    (eexists; split; [vm_compute; reflexivity|];
     vm_compute; split; discriminate).
Qed.




Lemma calculateLiquidityRisk_bounds (marketData : MarketData)
  (portfolio : Portfolio) :
  nonneg (bidAskSpread marketData) ->
  within 30 100 (calculateLiquidityRisk marketData portfolio).
Proof.
  intros Hs. unfold calculateLiquidityRisk.
  generalize (div (to_num (size portfolio)) (calculateAverageVolume marketData)) as v.
  intros v.
  destruct (@or_default_nonneg (bidAskSpread marketData) 0.001 Hs)
    as (sp & -> & Hsp); [lra|].
  cbn [mul].
  destruct (@Math_min_cap 40 (sp * 10000)) as (c & -> & Hc); [lra|lra|].
  destruct (gtb v (Fin 0.1)), (gtb v (Fin 0.05)), (gtb v (Fin 0.01));
    cbn [add]; apply Math_min_100; lra.
Qed.

Lemma calculateSentimentRisk_bounds (newsAnalysis : option NewsAnalysis) :
  match newsAnalysis with
  | None => True
  | Some na =>
      nonneg (match sentiment na with
              | Some s => bearish s
              | None => None
              end)
      /\ nonneg (sentimentVolatility na)
  end ->
  within 0 100 (calculateSentimentRisk newsAnalysis).
Proof.
  unfold calculateSentimentRisk.
  destruct newsAnalysis as [na|].
  - intros [Hb Hv]. unfold calculateSentimentVolatility.
    destruct (@or_default_nonneg (sentimentVolatility na) 0.3 Hv)
      as (sv & -> & Hsv); [lra|].
    assert (Hb' : nonneg (bearish match sentiment na with
                                  | Some s => s
                                  | None => {| bearish := None; bullish := None |}
                                  end))
      by (destruct (sentiment na); exact Hb).
    destruct (@or_default_nonneg _ 0 Hb') as (be & -> & Hbe); [lra|].
    cbn [mul add].
    destruct (_ || _); cbn [add]; apply Math_min_100; lra.
  - intros _. exists 50. split; [reflexivity|lra].
Qed.

Lemma calculateSystemicRisk_bounds (marketData : MarketData) :
  nonneg (contagionIndicator marketData) ->
  within 30 100 (calculateSystemicRisk marketData).
Proof.
  intros Hc. unfold calculateSystemicRisk, calculateContagionRisk.
  generalize (calculateAverageCorrelation marketData) as v. intros v.
  destruct (@or_default_nonneg (contagionIndicator marketData) 0.3 Hc)
    as (c & -> & Hc'); [lra|].
  cbn [mul].
  destruct (gtb v (Fin 0.7)), (gtb v (Fin 0.5)), (gtb v (Fin 0.3));
    cbn [add]; apply Math_min_100; lra.
Qed.


End RiskBounds.


(** On the sample inputs the market component is 10 + 10 + 30 = 50 and
    the composite score, the rounding of 52.75, is 53. *)
Example calculateRiskScore_sample :
  eqb (Risk.calculateMarketRisk (M := Sample.math) RiskInputs.marketData0
         RiskInputs.portfolio0)
      (Fin 50) = true /\
  eqb (Risk.totalRisk
         (Risk.calculateRiskScore (M := Sample.math) RiskInputs.marketData0
            RiskInputs.portfolio0 (Some RiskInputs.news0)))
      (Fin 53) = true.
Proof. vm_compute. split; reflexivity. Qed.


(* ------------------------------------------------------------------ *)
(** ** PortfolioRiskAnalyzer: concentration                             *)
(* ------------------------------------------------------------------ *)

Section Shares.
Import Analyzer Holdings.
Open Scope Q_scope.




Lemma sumq_acc (l : list Q) (s : Q) : sumq l s == s + sumq l 0.
Proof.
  revert s. induction l as [|v l IH]; intros s; simpl.
  - ring.
  - rewrite (IH (s + v)), (IH (0 + v)). ring.
Qed.


Lemma sumq_pos (vs : list Q) :
  Forall (fun v => 0 < v) vs -> forall s, 0 <= s -> vs <> [] -> 0 < sumq vs s.
Proof.
  induction 1 as [|v vs Hv Hvs IH]; intros s Hs Hne; [congruence|].
  simpl. destruct vs as [|v' vs'].
  - simpl. lra.
  - apply IH; [lra|discriminate].
Qed.

Lemma Qeq_bool_pos (v : Q) : 0 < v -> Qeq_bool v 0 = false.
Proof.
  intros H. destruct (Qeq_bool v 0) eqn:E; [|reflexivity].
  apply Qeq_bool_eq in E. lra.
Qed.

Lemma or_default_positive (a : Asset) :
  positive_value a ->
  or_default (totalValue a) (Fin 0) = Fin (value_of a) /\ 0 < value_of a.
Proof.
  intros (v & E & Hv). unfold value_of. rewrite E. simpl.
  rewrite (Qeq_bool_pos Hv). split; [reflexivity|exact Hv].
Qed.

Section Concentration.
Context {M : Math}.

Lemma total_value_fold (l : list Asset) :
  Forall positive_value l ->
  forall s,
    fold_left (fun s asset => add s (or_default (totalValue asset) (Fin 0)))
      l (Fin s)
    = Fin (sumq (map value_of l) s).
Proof.
  induction 1 as [|a l Ha _ IH]; intros s; simpl; [reflexivity|].
  destruct (or_default_positive Ha) as [-> _]. simpl. apply IH.
Qed.

Lemma values_positive (l : list Asset) :
  Forall positive_value l -> Forall (fun v => 0 < v) (map value_of l).
Proof.
  induction 1 as [|a l Ha _ IH]; simpl; constructor; [|exact IH].
  exact (proj2 (or_default_positive Ha)).
Qed.


Lemma herfindahl_fold (ws : list Q) (a : Q) :
  fold_left (fun s w => add s (mul w w)) (map Fin ws) (Fin a)
  = Fin (sumsq ws a).
Proof.
  revert a. induction ws as [|w ws IH]; intros a; simpl; [reflexivity|].
  apply IH.
Qed.

Lemma div_Fin_pos (a b : Q) : 0 < b -> div (Fin a) (Fin b) = Fin (a / b).
Proof. intros H. simpl. rewrite (Qeq_bool_pos H). reflexivity. Qed.








End Concentration.


(** The same scenario, computed on the diversification routine. *)
Example fifty_fifty_diversification :
  let d :=
    analyzeDiversification fifty_fifty
      (calculateWeights fifty_fifty (calculateTotalValue fifty_fifty)) in
  eqb (herfindahlIndex d) (Fin 0.5) = true /\
  eqb (effectiveN d) (Fin 2) = true /\
  isWellDiversified d = false.
Proof. vm_compute. repeat split. Qed.


(** On doubles, too, one holding gives an index of exactly 1, and two
    holdings of equal value an index of 0.5, an effective number of 2
    and no flag. *)
Example fifty_fifty_on_doubles :
  let d1 := Binary64Inputs.concentration Binary64Inputs.one_holding in
  let d2 := Binary64Inputs.concentration Binary64Inputs.fifty_fifty in
  Binary64.exactly (Binary64.Analyzer.herfindahlIndex d1) 1 /\
  Binary64.exactly (Binary64.Analyzer.herfindahlIndex d2) 0.5 /\
  Binary64.exactly (Binary64.Analyzer.effectiveN d2) 2 /\
  Binary64.Analyzer.isWellDiversified d2 = false.
Proof. vm_compute. repeat split. Qed.

(** Ten holdings worth 100.1 each, on doubles: the shares round to
    0.09999999999999998, the index to 0.09999999999999995 and the
    effective number of holdings to 10.000000000000005, above the
    number of holdings and above the threshold of the flag, which is
    set.  (In exact arithmetic the effective number is 10 and the flag
    is off.) *)
Example ten_equal_holdings_on_doubles :
  let d := Binary64Inputs.concentration Binary64Inputs.ten_equal in
  Binary64Inputs.above_ten (Binary64.Analyzer.effectiveN d) = true /\
  Binary64.Analyzer.isWellDiversified d = true.
Proof. vm_compute. split; reflexivity. Qed.

End Shares.

(* ------------------------------------------------------------------ *)
(** ** MonteCarloSimulator: degenerate inputs                           *)
(* ------------------------------------------------------------------ *)

Section MonteCarloPolicy.
Import MonteCarlo Policy.
Context {M : Math}.

(** The guard [!x || x <= 0] is the policy's [degenerate]. *)
Lemma guard_degenerate (x : option num) :
  negb (truthy_opt x) || leb (to_num x) (Fin 0) = degenerate x.
Proof.
  destruct x as [[| | |q]|]; try reflexivity. simpl.
  destruct (Qeq_bool q 0) eqn:E; [|reflexivity]. simpl.
  symmetry. apply leb_Fin_true. apply Qeq_bool_eq in E. rewrite E. apply Qle_refl.
Qed.

(** The guard [!x || isNaN(x)] lets a negative number through. *)
Lemma guard_zero_or_NaN (x : option num) :
  negb (truthy_opt x) || isNaN (to_num x) = zero_or_NaN x.
Proof.
  destruct x as [[| | |q]|]; try reflexivity. simpl.
  rewrite orb_false_r. unfold eqb. simpl.
  destruct (Qeq_bool q 0) eqn:E.
  - apply Qeq_bool_eq in E. apply Qeq_alt in E. rewrite E. reflexivity.
  - destruct (q ?= 0)%Q eqn:E'; try reflexivity.
    apply Qeq_alt in E'. apply Qeq_eq_bool in E'. congruence.
Qed.

(** The guard [!x || isNaN(x) || x <= 0] is [degenerate] again. *)
Lemma guard_volatility (x : option num) :
  negb (truthy_opt x) || isNaN (to_num x) || leb (to_num x) (Fin 0)
  = degenerate x.
Proof.
  rewrite <- guard_degenerate.
  destruct x as [[| | |q]|]; try reflexivity. simpl.
  rewrite orb_false_r. reflexivity.
Qed.

Lemma simulate_runs_length (p : Portfolio) (days sims : nat)
  (rs : list Run) (c : nat) :
  List.length (fst (simulate_runs p days sims (rs, c)))
  = (List.length rs + sims)%nat.
Proof.
  revert rs c. induction sims as [|sims IH]; intros rs c; simpl.
  - lia.
  - destruct (simulate_days _ _ _) as [[v path] c'].
    rewrite IH, length_app. simpl. lia.
Qed.

(** A positive number of simulations, not +Infinity, is at least one
    round. *)
Lemma rounds_positive (n : num) :
  n <> PosInf -> leb n (Fin 0) = false -> isNaN n = false ->
  exists k, rounds n = Some (S k).
Proof.
  intros Hinf Hle Hnan. destruct n as [| | |q]; try discriminate; try congruence.
  simpl. destruct (Qlt_le_dec 0 q) as [H|H].
  - pose proof (Qle_ceiling q) as Hc.
    assert (0 < Qceiling q)%Z.
    { apply Z.lt_nge. intros Hz.
      assert (inject_Z (Qceiling q) <= 0)%Q
        by (rewrite Zle_Qle in Hz; exact Hz).
      lra. }
    exists (Z.to_nat (Qceiling q) - 1)%nat. f_equal. lia.
  - rewrite (leb_Fin_true H) in Hle. discriminate.
Qed.

(** After the guard the count is a positive number. *)
Lemma default_positive (x : option num) (d : Q) :
  (0 < d)%Q ->
  leb (if degenerate x then Fin d else to_num x) (Fin 0) = false /\
  isNaN (if degenerate x then Fin d else to_num x) = false.
Proof.
  intros Hd. destruct (degenerate x) eqn:E.
  - split; [apply leb_Fin_false; exact Hd|reflexivity].
  - destruct x as [[| | |q]|]; simpl in *; try discriminate; auto.
Qed.

Lemma rounds_finite (n : num) : n <> PosInf -> exists k, rounds n = Some k.
Proof. destruct n; simpl; eauto. congruence. Qed.

Lemma sampled_paths_nonempty (rs : list Run) :
  rs <> [] -> map path (firstn 100 rs) <> [].
Proof. destruct rs; [congruence|discriminate]. Qed.

(** With at least one round of simulations and a finite horizon the
    engine returns, with at least one sampled path. *)
Lemma runMonteCarloSimulation_returns (p : Portfolio) (h n : num) :
  h <> PosInf -> n <> PosInf -> leb n (Fin 0) = false -> isNaN n = false ->
  exists r, runMonteCarloSimulation p (Some h) (Some n) = Returns r /\
            paths r <> [].
Proof.
  intros Hh Hn Hle Hnan. unfold runMonteCarloSimulation.
  destruct (rounds_positive Hn Hle Hnan) as [k ->].
  destruct (rounds_finite Hh) as [days ->].
  eexists. split; [reflexivity|].
  cbn [statistics paths]. apply sampled_paths_nonempty.
  intros E. apply (f_equal (@List.length Run)) in E.
  rewrite simulate_runs_length in E. simpl in E. lia.
Qed.

(** C1, as the code has it.  With the engine initialised: a missing,
    zero, negative or NaN [currentValue] is not replaced; the call
    returns the record that carries the error "Invalid portfolio data"
    and nothing is simulated.  Otherwise a missing, zero or NaN
    [expectedReturn] becomes 0.08 (a negative one is kept), a missing,
    zero, negative or NaN [volatility] becomes 0.15, [horizonDays] 252
    and [numSimulations] 1000, the defaults are written into the
    portfolio, and, neither count being +Infinity, the engine is run on
    them and its result is returned. *)
Theorem performMonteCarloSimulation_policy (p : Portfolio)
  (horizonDays numSimulations : option num) :
  (degenerate (currentValue p) = true ->
   performMonteCarloSimulation true (Some p) horizonDays numSimulations
   = (Some p, Returns invalid_portfolio)) /\
  (degenerate (currentValue p) = false ->
   horizon_or_default horizonDays <> PosInf ->
   simulations_or_default numSimulations <> PosInf ->
   exists s,
     performMonteCarloSimulation true (Some p) horizonDays numSimulations
     = (Some (with_defaults p), Returns (Simulated s)) /\
     runMonteCarloSimulation (with_defaults p)
       (Some (horizon_or_default horizonDays))
       (Some (simulations_or_default numSimulations))
     = Returns (simulated s) /\
     timeHorizon s = horizon_or_default horizonDays /\
     simulations s = simulations_or_default numSimulations).
Proof.
  assert (Ep : forall er vol cv,
             (let p1 :=
                if negb (truthy_opt er) || isNaN (to_num er)
                then {| currentValue := cv; expectedReturn := Some (Fin 0.08);
                        volatility := vol |}
                else {| currentValue := cv; expectedReturn := er;
                        volatility := vol |} in
              if negb (truthy_opt (volatility p1))
                 || isNaN (to_num (volatility p1))
                 || leb (to_num (volatility p1)) (Fin 0)
              then {| currentValue := currentValue p1;
                      expectedReturn := expectedReturn p1;
                      volatility := Some (Fin 0.15) |}
              else p1)
             = with_defaults {| currentValue := cv; expectedReturn := er;
                                volatility := vol |}).
  { intros er vol cv. unfold with_defaults. cbn [currentValue expectedReturn volatility].
    rewrite (guard_zero_or_NaN er).
    destruct (zero_or_NaN er); cbn [currentValue expectedReturn volatility];
      rewrite (guard_volatility vol); destruct (degenerate vol); reflexivity. }
  destruct p as [cv er vol].
  unfold performMonteCarloSimulation.
  cbn [currentValue expectedReturn volatility negb].
  rewrite guard_degenerate. split; intros Hcv; rewrite Hcv; [reflexivity|].
  intros Hh Hn.
  rewrite !guard_degenerate.
  fold (horizon_or_default horizonDays).
  fold (simulations_or_default numSimulations).
  cbv zeta in Ep. rewrite Ep.
  destruct (default_positive numSimulations (d := 1000) ltac:(reflexivity))
    as [Hle Hnan].
  fold (simulations_or_default numSimulations) in Hle, Hnan.
  destruct (@runMonteCarloSimulation_returns
              (with_defaults {| currentValue := cv; expectedReturn := er;
                                volatility := vol |})
              _ _ Hh Hn Hle Hnan) as (r & Er & Hr).
  rewrite Er. destruct (paths r) as [|path0 rest] eqn:Epaths; [congruence|].
  eexists. split; [reflexivity|]. cbn [simulated timeHorizon simulations].
  repeat split. 
Qed.
End MonteCarloPolicy.

(** A portfolio worth 1,000,000 with a NaN expected return and a
    negative volatility, a horizon of 0 days and NaN simulations: all
    four defaults are put in place and the simulation is run. *)
Lemma performMonteCarloSimulation_policy_witness :
  exists s,
    MonteCarlo.performMonteCarloSimulation (M := Sample.math) true
      (Some (MonteCarloInputs.portfolio (Fin 1000000) NaN (Fin (-1))))
      (Some (Fin 0)) (Some NaN)
    = (Some (MonteCarloInputs.portfolio (Fin 1000000) (Fin 0.08) (Fin 0.15)),
       MonteCarlo.Returns (MonteCarlo.Simulated s)) /\
    MonteCarlo.timeHorizon s = Fin 252 /\
    MonteCarlo.simulations s = Fin 1000.
Proof.
  destruct (@performMonteCarloSimulation_policy Sample.math
              (MonteCarloInputs.portfolio (Fin 1000000) NaN (Fin (-1)))
              (Some (Fin 0)) (Some NaN)) as [_ H].
  destruct H as (s & Es & _ & Eh & En).
  - reflexivity.
  - discriminate.
  - discriminate.
  - exists s. split; [exact Es|]. split; [exact Eh|exact En].
Defined.

(** C1 as stated fails.  A [currentValue] of 0 is not replaced by
    1,000,000: the call returns the error record and no simulation
    result.  And a negative [expectedReturn] is not replaced by 0.08:
    -0.05 is what the engine is run with. *)
Lemma currentValue_not_defaulted :
  MonteCarlo.performMonteCarloSimulation (M := Sample.math) true
    (Some (MonteCarloInputs.portfolio (Fin 0) (Fin 0.08) (Fin 0.15)))
    (Some (Fin 252)) (Some (Fin 1000))
  = (Some (MonteCarloInputs.portfolio (Fin 0) (Fin 0.08) (Fin 0.15)),
     MonteCarlo.Returns (MonteCarlo.Failed "Invalid portfolio data")) /\
  fst (MonteCarlo.performMonteCarloSimulation (M := Sample.math) true
         (Some (MonteCarloInputs.portfolio (Fin 1000000) (Fin (-0.05)) (Fin 0.15)))
         (Some (Fin 1)) (Some (Fin 1)))
  = Some (MonteCarloInputs.portfolio (Fin 1000000) (Fin (-0.05)) (Fin 0.15)).
Proof. split; [reflexivity|vm_compute; reflexivity]. Qed.

(* ------------------------------------------------------------------ *)
(** ** MonteCarloSimulator: the tail statistics                         *)
(* ------------------------------------------------------------------ *)

Lemma leb_NaN_r (x : num) : leb x NaN = false.
Proof. destruct x; reflexivity. Qed.

Lemma sub_NaN_r (x : num) : sub x NaN = NaN.
Proof. destruct x; reflexivity. Qed.

Lemma Qfloor_unit (x : Q) : (0 <= x < 1)%Q -> Qfloor x = 0%Z.
Proof.
  intros [H0 H1].
  pose proof (Qfloor_le x) as Hl. pose proof (Qlt_floor x) as Hu.
  rewrite inject_Z_plus in Hu. change (inject_Z 1) with 1%Q in Hu.
  assert (Ha : (inject_Z (Qfloor x) < 1)%Q) by lra.
  assert (Hb : (-1 < inject_Z (Qfloor x))%Q) by lra.
  change 1%Q with (inject_Z 1) in Ha.
  change (-1)%Q with (inject_Z (-1)) in Hb.
  rewrite <- Zlt_Qlt in Ha, Hb. lia.
Qed.

Section TailRisk.
Import MonteCarlo.
Context {M : Math}.

(** Fewer than 20 simulations leave the worst 5% empty: [CVaR95] is the
    quotient 0/0. *)
Lemma CVaR95_empty_tail (p : Portfolio) (q : Q) (rs : list Run) :
  (0 <= q < 20)%Q -> CVaR95 (statistics p (Fin q) rs) = NaN.
Proof.
  intros Hq. unfold statistics. cbn [CVaR95 mul Math_floor].
  rewrite (@Qfloor_unit (q * 0.05)) by lra.
  reflexivity.
Qed.

(** C6 on ten simulations.  The engine returns, and the [CVaR95] it
    reports is NaN; the loss at VaR95 is then not at most the loss at
    CVaR95, whatever the initial value both are taken from. *)
Theorem CVaR95_NaN_on_ten_simulations (p : Portfolio) :
  exists r,
    runMonteCarloSimulation p (Some (Fin 252)) (Some (Fin 10)) = Returns r /\
    CVaR95 r = NaN /\
    forall initial,
      leb (sub initial (to_num (VaR95 r))) (sub initial (CVaR95 r)) = false.
Proof.
  unfold runMonteCarloSimulation.
  replace (rounds (Fin 10)) with (Some 10%nat) by reflexivity.
  replace (rounds (Fin 252)) with (Some 252%nat) by reflexivity.
  eexists. split; [reflexivity|].
  assert (E : CVaR95 (statistics p (Fin 10)
                        (fst (simulate_runs p 252 10 ([], 0%nat)))) = NaN)
    by (apply CVaR95_empty_tail; split; [discriminate|reflexivity]).
  split; [exact E|].
  intros initial. rewrite E, sub_NaN_r. apply leb_NaN_r.
Qed.

End TailRisk.

(** *** From twenty simulations on *)

Section SortedTail.
Import Holdings.
Open Scope Q_scope.

(** The comparator sort on finite numbers: sorted, same length. *)
Lemma insert_sorted_Fin (x : Q) (qs : list Q) :
  StronglySorted Qle qs ->
  exists qs',
    insert_sorted (Fin x) (map Fin qs) = map Fin qs' /\
    StronglySorted Qle qs' /\
    List.length qs' = S (List.length qs) /\
    (forall b, b <= x -> Forall (Qle b) qs -> Forall (Qle b) qs').
Proof.
  induction 1 as [|y qs Hs IH Hy]; simpl.
  - exists [x]. repeat split; auto using SSorted_nil, SSorted_cons.
  - unfold gtb. cbn [sub neg add].
    destruct (Qlt_le_dec 0 (y + - x)) as [H|H].
    + rewrite (ltb_Fin_true H).
      exists (x :: y :: qs). repeat split; auto.
      constructor; [constructor; assumption|].
      constructor; [lra|].
      eapply Forall_impl; [|exact Hy]. intros a Ha. simpl in Ha. lra.
    + rewrite (ltb_Fin_false H).
      destruct IH as (qs' & E & Hs' & Hl & Hf).
      exists (y :: qs'). rewrite E. repeat split; auto.
      * constructor; [exact Hs'|]. apply Hf; [lra|exact Hy].
      * simpl. lia.
      * intros b Hb Hall. inversion Hall; subst. constructor; auto.
Qed.

Lemma sort_asc_Fin (qs : list Q) :
  exists qs',
    sort_asc (map Fin qs) = map Fin qs' /\
    StronglySorted Qle qs' /\ List.length qs' = List.length qs.
Proof.
  unfold sort_asc.
  assert (G : forall acc, StronglySorted Qle acc ->
              exists qs',
                fold_left (fun acc x => insert_sorted x acc) (map Fin qs)
                  (map Fin acc) = map Fin qs' /\
                StronglySorted Qle qs' /\
                List.length qs' = (List.length acc + List.length qs)%nat).
  { induction qs as [|x qs IH]; intros acc Hacc; simpl.
    - exists acc. repeat split; auto.
    - destruct (insert_sorted_Fin x Hacc) as (acc' & E & Hs & Hl & _).
      rewrite E. destruct (IH acc' Hs) as (qs' & E' & Hs' & Hl').
      exists qs'. repeat split; auto. lia. }
  destruct (G [] (SSorted_nil _)) as (qs' & E & Hs & Hl).
  exists qs'. repeat split; auto.
Qed.

(** The sort rearranges its argument. *)
Lemma insert_sorted_permutation (x : num) (l : list num) :
  Permutation (insert_sorted x l) (x :: l).
Proof.
  induction l as [|y l IH]; simpl; [reflexivity|].
  destruct (gtb (sub y x) (Fin 0)); [reflexivity|].
  rewrite IH. apply perm_swap.
Qed.

Lemma sort_asc_permutation (l : list num) : Permutation (sort_asc l) l.
Proof.
  unfold sort_asc.
  assert (G : forall acc,
             Permutation (fold_left (fun acc x => insert_sorted x acc) l acc)
               (acc ++ l)).
  { induction l as [|x l IH]; intros acc; simpl.
    - rewrite app_nil_r. reflexivity.
    - rewrite IH, insert_sorted_permutation. apply Permutation_middle. }
  apply (G []).
Qed.

Lemma map_Fin_inj (a b : list Q) : map Fin a = map Fin b -> a = b.
Proof.
  revert b. induction a as [|x a IH]; intros [|y b]; simpl; try discriminate.
  - reflexivity.
  - intros E. injection E as -> E. f_equal. exact (IH b E).
Qed.

Lemma sort_asc_Fin_permutation (qs qs' : list Q) :
  sort_asc (map Fin qs) = map Fin qs' -> Permutation qs' qs.
Proof.
  intros E. pose proof (sort_asc_permutation (map Fin qs)) as H.
  rewrite E in H.
  destruct (Permutation_map_inv _ _ H) as (l3 & E3 & H3).
  apply map_Fin_inj in E3. subst l3. symmetry. exact H3.
Qed.

Lemma sorted_prefix_below (qs : list Q) (k : nat) (v : Q) :
  StronglySorted Qle qs -> nth_error qs k = Some v ->
  Forall (fun x => x <= v) (firstn k qs).
Proof.
  intros Hs. revert k. induction Hs as [|y qs Hs IH Hy]; intros k Hk.
  - destruct k; discriminate.
  - destruct k as [|k]; simpl in *; [constructor|].
    constructor; [|apply IH; exact Hk].
    apply nth_error_In in Hk. rewrite Forall_forall in Hy. apply Hy, Hk.
Qed.

Lemma sumq_bound (qs : list Q) (v : Q) :
  Forall (fun x => x <= v) qs ->
  forall s, sumq qs s <= s + inject_Z (Z.of_nat (List.length qs)) * v.
Proof.
  induction 1 as [|x qs Hx _ IH]; intros s.
  - cbn [sumq fold_left List.length Z.of_nat]. change (inject_Z 0) with 0. lra.
  - cbn [sumq fold_left List.length]. fold (sumq qs (s + x)).
    rewrite Nat2Z.inj_succ. unfold Z.succ. rewrite inject_Z_plus.
    specialize (IH (s + x)). change (inject_Z 1) with 1. lra.
Qed.

Lemma sum_Fin (qs : list Q) : sum (map Fin qs) = Fin (sumq qs 0).
Proof.
  unfold sum, sumq. generalize 0 as s.
  induction qs as [|x qs IH]; intros s; simpl; [reflexivity|apply IH].
Qed.

Lemma index_nat {A} (xs : list A) (z : Z) :
  (0 <= z)%Z -> index xs (Fin (inject_Z z)) = nth_error xs (Z.to_nat z).
Proof.
  intros Hz. unfold index. rewrite Qfloor_Z.
  rewrite (proj2 (Qeq_bool_iff _ _) (Qeq_refl _)).
  rewrite (proj2 (Z.leb_le 0 z) Hz). reflexivity.
Qed.

Lemma slice0_nat {A} (xs : list A) (z : Z) :
  (0 <= z)%Z -> slice0 xs (Fin (inject_Z z)) = firstn (Z.to_nat z) xs.
Proof.
  intros Hz. unfold slice0, Qtrunc.
  assert (E : Qle_bool 0 (inject_Z z) = true).
  { apply Qle_bool_iff. change 0 with (inject_Z 0). rewrite <- Zle_Qle. exact Hz. }
  rewrite E, Qfloor_Z.
  rewrite (proj2 (Z.ltb_ge z 0) Hz). reflexivity.
Qed.

Section TailOrder.
Import MonteCarlo.
Context {M : Math}.

(** The worst-5% cut of [n >= 20] runs: at least one run, fewer than
    all. *)
Lemma tail_cut (n : nat) :
  (20 <= n)%nat ->
  (1 <= Qfloor (inject_Z (Z.of_nat n) * 0.05) < Z.of_nat n)%Z.
Proof.
  intros Hn.
  assert (H20 : 20 <= inject_Z (Z.of_nat n)).
  { change 20 with (inject_Z 20). rewrite <- Zle_Qle. lia. }
  split.
  - change 1%Z with (Qfloor 1). apply Qfloor_resp_le. lra.
  - pose proof (Qfloor_le (inject_Z (Z.of_nat n) * 0.05)) as H.
    rewrite Zlt_Qlt. lra.
Qed.

(** In exact arithmetic, from 20 simulations on, with finite final
    values: [VaR95] is the entry of the sorted final values at index
    [floor(0.05 n)], [CVaR95] is the mean of the entries before it, so
    the value at the 5th percentile is at least the mean of the worst
    5% and the loss at VaR95 is at most the loss at CVaR95; and the
    probability of loss is the share of the runs that end below the
    current value, a number in [0,1].  (On doubles the mean of equal
    values can exceed them in the last place.) *)
Theorem tail_statistics_ordered (p : Portfolio) (n : nat) (rs : list Run)
  (fs : list Q) (cv : Q) :
  (20 <= n)%nat -> List.length rs = n ->
  map finalValue rs = map Fin fs ->
  currentValue p = Some (Fin cv) ->
  let k := Z.to_nat (Qfloor (inject_Z (Z.of_nat n) * 0.05)) in
  let r := statistics p (Fin (inject_Z (Z.of_nat n))) rs in
  exists sorted v c pl,
    Permutation sorted fs /\ StronglySorted Qle sorted /\
    nth_error sorted k = Some v /\
    VaR95 r = Some (Fin v) /\
    CVaR95 r = Fin c /\
    c == sumq (firstn k sorted) 0 / inject_Z (Z.of_nat k) /\
    c <= v /\
    cv - v <= cv - c /\
    probabilityOfLoss r = Fin pl /\
    pl == inject_Z (Z.of_nat
                      (List.length
                         (filter (fun run => ltb (finalValue run) (Fin cv)) rs)))
          / inject_Z (Z.of_nat n) /\
    0 <= pl <= 1.
Proof.
  intros Hn Hlen Hfs Hcv k r. subst k r.
  destruct (tail_cut Hn) as [Hk1 Hk2].
  set (z := Qfloor (inject_Z (Z.of_nat n) * 0.05)) in *.
  destruct (sort_asc_Fin fs) as (qs & Es & Hs & Hl).
  pose proof (@sort_asc_Fin_permutation fs qs Es) as Hperm.
  assert (Hlq : List.length qs = n).
  { rewrite Hl, <- (length_map Fin fs), <- Hfs, length_map. exact Hlen. }
  assert (Hkn : (Z.to_nat z < List.length qs)%nat) by lia.
  destruct (nth_error qs (Z.to_nat z)) as [v|] eqn:Ev;
    [|apply nth_error_None in Ev; lia].
  unfold statistics. cbn [VaR95 CVaR95 probabilityOfLoss mul Math_floor].
  fold z. rewrite Hfs, Es, Hcv. cbn [to_num].
  rewrite index_nat, slice0_nat by lia.
  rewrite nth_error_map, Ev. cbn [option_map].
  rewrite firstn_map, sum_Fin.
  assert (Hz : 0 < inject_Z z).
  { change 0 with (inject_Z 0). rewrite <- Zlt_Qlt. lia. }
  rewrite (div_Fin_pos _ Hz).
  assert (Hn0 : 0 < inject_Z (Z.of_nat n)).
  { change 0 with (inject_Z 0). rewrite <- Zlt_Qlt. lia. }
  unfold len. rewrite (div_Fin_pos _ Hn0).
  assert (Hcv' : sumq (firstn (Z.to_nat z) qs) 0 / inject_Z z <= v).
  { assert (Hb := @sumq_bound _ v (@sorted_prefix_below qs _ v Hs Ev) 0).
    rewrite length_firstn, Nat.min_l, Z2Nat.id in Hb by lia.
    apply Qle_shift_div_r; [exact Hz|]. lra. }
  exists qs, v. do 2 eexists.
  split; [exact Hperm|]. split; [exact Hs|]. split; [exact Ev|].
  split; [reflexivity|]. split; [reflexivity|].
  split; [rewrite Z2Nat.id by lia; reflexivity|].
  split; [exact Hcv'|]. split; [lra|].
  split; [reflexivity|]. split; [reflexivity|].
  set (m := List.length _).
  assert (Hm : (m <= n)%nat).
  { unfold m. rewrite <- Hlen. apply filter_length_le. }
  assert (Hm0 : 0 <= inject_Z (Z.of_nat m)).
  { change 0 with (inject_Z 0). rewrite <- Zle_Qle. lia. }
  assert (Hmn : inject_Z (Z.of_nat m) <= inject_Z (Z.of_nat n)).
  { rewrite <- Zle_Qle. lia. }
  split.
  - apply Qle_shift_div_l; [exact Hn0|lra].
  - apply Qle_shift_div_r; [exact Hn0|lra].
Qed.

(** The engine on a whole number [n >= 1] of simulations and a finite
    horizon returns the statistics of [n] runs. *)
Lemma runMonteCarloSimulation_runs (p : Portfolio) (h : num) (n : nat) :
  h <> PosInf -> (1 <= n)%nat ->
  exists rs,
    runMonteCarloSimulation p (Some h) (Some (Fin (inject_Z (Z.of_nat n))))
    = Returns (statistics p (Fin (inject_Z (Z.of_nat n))) rs) /\
    List.length rs = n.
Proof.
  intros Hh Hn. unfold runMonteCarloSimulation.
  assert (E : rounds (Fin (inject_Z (Z.of_nat n))) = Some n)
    by (simpl; rewrite Qceiling_Z, Nat2Z.id; reflexivity).
  rewrite E. destruct n as [|n]; [lia|].
  destruct (rounds_finite Hh) as [days ->].
  eexists. split; [reflexivity|].
  rewrite simulate_runs_length. reflexivity.
Qed.

End TailOrder.

End SortedTail.

(** On the twenty sample runs the theorem applies. *)
Lemma tail_statistics_ordered_witness :
  exists v c pl,
    MonteCarlo.VaR95
      (MonteCarlo.statistics
         (MonteCarloInputs.portfolio (Fin 100) (Fin 0.08) (Fin 0.15))
         (Fin (inject_Z (Z.of_nat 20))) TailInputs.runs) = Some (Fin v) /\
    MonteCarlo.CVaR95
      (MonteCarlo.statistics
         (MonteCarloInputs.portfolio (Fin 100) (Fin 0.08) (Fin 0.15))
         (Fin (inject_Z (Z.of_nat 20))) TailInputs.runs) = Fin c /\
    (100 - v <= 100 - c)%Q /\
    MonteCarlo.probabilityOfLoss
      (MonteCarlo.statistics
         (MonteCarloInputs.portfolio (Fin 100) (Fin 0.08) (Fin 0.15))
         (Fin (inject_Z (Z.of_nat 20))) TailInputs.runs) = Fin pl /\
    (0 <= pl <= 1)%Q.
Proof.
  destruct (@tail_statistics_ordered
              (MonteCarloInputs.portfolio (Fin 100) (Fin 0.08) (Fin 0.15))
              20 TailInputs.runs TailInputs.finals 100
              (Nat.le_refl 20) eq_refl eq_refl eq_refl)
    as (sorted & v & c & pl & _ & _ & _ & Ev & Ec & _ & _ & Hl & Ep & _ & Hp).
  exists v, c, pl. repeat split; try assumption; apply Hp.
Defined.

(** The same twenty runs, computed: the value at risk is 83, the mean
    of the worst 5% is 81, ten runs of twenty end below 100. *)
Example tail_statistics_sample :
  let r :=
    MonteCarlo.statistics
      (MonteCarloInputs.portfolio (Fin 100) (Fin 0.08) (Fin 0.15))
      (Fin 20) TailInputs.runs in
  eqb (to_num (MonteCarlo.VaR95 r)) (Fin 83) = true /\
  eqb (MonteCarlo.CVaR95 r) (Fin 81) = true /\
  eqb (MonteCarlo.probabilityOfLoss r) (Fin 0.5) = true.
Proof. vm_compute. repeat split. Qed.

(* ------------------------------------------------------------------ *)
(** ** BacktestEngine: the strategies return                            *)
(* ------------------------------------------------------------------ *)

Section Returns.
Import Backtest Position.
Open Scope js_scope.

Lemma at_index_defined {A} (xs : list A) (i : nat) :
  (i < List.length xs)%nat -> exists a, at_index xs i = Ok a.
Proof.
  intros H. unfold at_index.
  destruct (nth_error xs i) eqn:E; [eauto|].
  apply nth_error_None in E. lia.
Qed.

Lemma for_each_returns {S} (indices : list nat) (body : S -> nat -> res S) :
  (forall s i, In i indices -> exists s', body s i = Ok s') ->
  forall s, exists s', for_each indices body s = Ok s'.
Proof.
  induction indices as [|i indices IH]; intros Hbody s; simpl; [eauto|].
  destruct (Hbody s i (or_introl eq_refl)) as [s1 ->]. simpl.
  apply IH. intros s2 j Hj. apply Hbody. right. exact Hj.
Qed.

Lemma from_period_returns {S} (data : list Bar) (start : num)
  (body : nat -> S -> nat -> res S) :
  (ltb start (len data) = true -> as_index start <> None) ->
  (forall n s i, (i < List.length data)%nat -> exists s', body n s i = Ok s') ->
  forall s, exists s', from_period data start body s = Ok s'.
Proof.
  intros Hstart Hbody s. unfold from_period.
  destruct (start <? len data); [|eauto].
  destruct (as_index start) as [n|]; [|destruct (Hstart eq_refl eq_refl)].
  apply for_each_returns. intros s0 i Hi. apply Hbody.
  apply in_seq in Hi. lia.
Qed.

Lemma momentum_body_returns (data : list Bar) (maPeriod : num) (n : nat)
  (s : State) (i : nat) :
  (i < List.length data)%nat ->
  exists s', momentum_body data maPeriod n s i = Ok s'.
Proof.
  intros Hi. unfold momentum_body.
  destruct (at_index_defined data Hi) as [di ->]. cbn [bind]. eauto.
Qed.

Context {M : Math}.

Lemma meanReversion_body_returns (data : list Bar) (z : num) (n : nat)
  (s : State) (i : nat) :
  (i < List.length data)%nat ->
  exists s', meanReversion_body data z n s i = Ok s'.
Proof.
  intros Hi. unfold meanReversion_body.
  destruct (at_index_defined data Hi) as [di ->]. cbn [bind]. eauto.
Qed.

Lemma map_res_returns {A B} (f : A -> res B) (l : list A) :
  (forall a, In a l -> exists b, f a = Ok b) ->
  exists bs, map_res f l = Ok bs /\ List.length bs = List.length l.
Proof.
  induction l as [|a l IH]; intros Hf; simpl; [eauto|].
  destruct (Hf a (or_introl eq_refl)) as [b ->]. cbn [bind].
  destruct IH as (bs & -> & Hl); [intros; apply Hf; right; assumption|].
  cbn [bind]. exists (b :: bs). split; [reflexivity|simpl; lia].
Qed.

Lemma indexed_bound {A} (l : list A) (i : nat) (a : A) :
  In (i, a) (indexed l) -> (i < List.length l)%nat.
Proof.
  unfold indexed. intros H. apply in_combine_l in H. apply in_seq in H. lia.
Qed.

Lemma indexed_length {A} (l : list A) :
  List.length (indexed l) = List.length l.
Proof. unfold indexed. rewrite length_combine, length_seq. lia. Qed.

Lemma ema_from_length (k prev : num) (rest : list num) :
  List.length (ema_from k prev rest) = List.length rest.
Proof.
  revert prev. induction rest as [|x rest IH]; intros prev; simpl; auto.
Qed.

Lemma calculateEMA_length (x : num) (rest : list num) (period : num) :
  List.length (calculateEMA (x :: rest) period) = S (List.length rest).
Proof.
  unfold calculateEMA. rewrite length_map. simpl.
  rewrite ema_from_length. reflexivity.
Qed.

Lemma calculateMACD_returns (d : Bar) (data : list Bar) (f s g : num) :
  exists macdData,
    calculateMACD (d :: data) f s g = Ok macdData /\
    List.length macdData = S (List.length data).
Proof.
  unfold calculateMACD. cbn [map].
  destruct (map_res_returns
              (fun e : nat * option num =>
                 let '(i, fast) := e in
                 di <- at_index (d :: data) i ;;
                 Ok {| m_date := date di; m_price := close di;
                       macd := to_num fast
                               - to_num (elem (calculateEMA
                                                 (close d :: map close data) s) i);
                       signal := None |})
              (indexed (calculateEMA (close d :: map close data) f)))
    as (line & -> & Hl).
  - intros [i fast] Hin. apply indexed_bound in Hin.
    rewrite calculateEMA_length, length_map in Hin.
    destruct (@at_index_defined _ (d :: data) i) as [di ->]; [simpl; lia|].
    cbn [bind]. eauto.
  - cbn [bind]. eexists. split; [reflexivity|].
    rewrite length_map, indexed_length, Hl, indexed_length,
      calculateEMA_length, length_map. reflexivity.
Qed.

Lemma macd_body_returns (macdData : list Macd) (s : State) (i : nat) :
  (i < List.length macdData)%nat ->
  exists s', macd_body macdData s i = Ok s'.
Proof.
  intros Hi. unfold macd_body.
  destruct (at_index_defined macdData Hi) as [m ->]. cbn [bind].
  destruct (negb (truthy_opt (signal m))); [eauto|].
  assert (Hc : forall test, exists b, crossed macdData i test = Ok b).
  { intros test. unfold crossed. destruct i as [|j]; [eauto|].
    destruct (@at_index_defined _ macdData j) as [prev ->]; [lia|].
    cbn [bind]. eauto. }
  destruct (Hc leb) as [b1 E1]. destruct (Hc geb) as [b2 E2].
  rewrite E1, E2.
  destruct ((position s === Fin 0) && _); cbn [bind].
  - destruct b1; cbn [bind].
    + eauto.
    + destruct ((position s >? Fin 0) && _); cbn [bind]; eauto.
  - destruct ((position s >? Fin 0) && _); cbn [bind]; eauto.
Qed.

(** On every non-empty series, with [maPeriod] and [lookback] usable,
    each strategy of the engine returns a result. *)
Theorem strategies_return
  (name : string) (strategy : list Bar -> Params -> res StrategyResult)
  (data : list Bar) (params : Params) :
  In (name, strategy) strategies ->
  data <> [] ->
  usable_period data (or_default (maPeriod params) (Fin 20)) ->
  usable_period data (or_default (lookback params) (Fin 20)) ->
  exists r, strategy data params = Ok r.
Proof.
  intros Hin Hne Hma Hlb.
  destruct data as [|d data]; [congruence|]. clear Hne.
  simpl in Hin. destruct Hin as [E|[E|[E|[E|[]]]]]; injection E as <- <-.
  - unfold buyAndHoldStrategy. cbn [at_index nth_error bind map].
    match goal with
    | |- context [at_index (?p :: ?ps) _] =>
        destruct (at_index_last ps p) as [x ->]
    end.
    cbn [bind]. eauto.
  - unfold momentumStrategy.
    destruct (@from_period_returns State (d :: data) _
                (momentum_body (d :: data) (or_default (maPeriod params) (Fin 20)))
                Hma (fun n s i => @momentum_body_returns _ _ n s i)
                (initial (or_default (initialCapital params) (Fin 10000))))
      as [s ->].
    cbn [bind]. destruct (at_index_last data d) as [x ->].
    destruct (position s >? Fin 0); cbn [bind]; eauto.
  - unfold meanReversionStrategy.
    destruct (@from_period_returns State (d :: data) _
                (meanReversion_body (d :: data)
                   (or_default (zScoreThreshold params) (Fin 2)))
                Hlb (fun n s i => @meanReversion_body_returns _ _ n s i)
                (initial (or_default (initialCapital params) (Fin 10000))))
      as [s ->].
    cbn [bind]. destruct (at_index_last data d) as [x ->]. cbn [bind]. eauto.
  - unfold macdStrategy.
    destruct (calculateMACD_returns d data
                (or_default (fastPeriod params) (Fin 12))
                (or_default (slowPeriod params) (Fin 26))
                (or_default (signalPeriod params) (Fin 9)))
      as (macdData & -> & Hl).
    cbn [bind].
    destruct (@for_each_returns State (seq 0 (List.length macdData))
                (macd_body macdData)) with
      (s := initial (or_default (initialCapital params) (Fin 10000)))
      as [s ->].
    { intros s i Hi. apply macd_body_returns. apply in_seq in Hi. lia. }
    cbn [bind].
    destruct (@at_index_defined _ macdData (List.length macdData - 1))
      as [x ->]; [lia|].
    cbn [bind]. eauto.
Qed.
End Returns.

(** The MACD strategy returns on the sample series under the default
    periods. *)
Lemma strategies_return_witness :
  exists r,
    Backtest.macdStrategy MomentumInputs.series BuyAndHoldInputs.no_params
    = Ok r.
Proof.
  apply (@strategies_return Sample.math "macdCrossover" Backtest.macdStrategy
           MomentumInputs.series BuyAndHoldInputs.no_params).
  - right. right. right. left. reflexivity.
  - discriminate.
  - intros _. discriminate.
  - intros _. discriminate.
Defined.

(* ------------------------------------------------------------------ *)
(** ** The sample inputs *)
(* ------------------------------------------------------------------ *)

(** The draws of the sample environment are in [0,1). *)
Lemma sample_draws : @uniform_draws Sample.math.
Proof.
  intros n. eexists. split; [reflexivity|].
  set (z := ((Z.of_nat n * 7919 + 13) mod 1000)%Z).
  assert (Hz : (0 <= z < 1000)%Z) by (apply Z.mod_pos_bound; lia).
  assert (H0 : (0 <= inject_Z z)%Q).
  { change 0%Q with (inject_Z 0). rewrite <- Zle_Qle. lia. }
  assert (H1 : (inject_Z z < 1000)%Q).
  { change 1000%Q with (inject_Z 1000). rewrite <- Zlt_Qlt. lia. }
  split.
  - apply Qle_shift_div_l; [reflexivity|lra].
  - apply Qlt_shift_div_r; [reflexivity|lra].
Qed.

(** The closing prices of the sample series are positive. *)
Lemma sample_series_positive : Rounds.positive_closes MomentumInputs.series.
Proof. repeat constructor; eexists; (split; [reflexivity|reflexivity]). Qed.

(** The two sample holdings have positive values. *)
Lemma fifty_fifty_positive :
  Forall Holdings.positive_value Holdings.fifty_fifty.
Proof. repeat constructor; eexists; (split; [reflexivity|reflexivity]). Qed.

(* ------------------------------------------------------------------ *)
(** ** Comparisons, decided *)
(* ------------------------------------------------------------------ *)

Ltac decide_cmp :=
  repeat match goal with
    | |- context [ltb (Fin ?a) (Fin ?b)] =>
        first [ rewrite (@ltb_Fin_true a b) by lra
              | rewrite (@ltb_Fin_false a b) by lra ]
    | |- context [leb (Fin ?a) (Fin ?b)] =>
        first [ rewrite (@leb_Fin_true a b) by lra
              | rewrite (@leb_Fin_false a b) by lra ]
    end.

(* ------------------------------------------------------------------ *)
(** ** RiskScorer: the advisory, the display and the floor of the score *)
(* ------------------------------------------------------------------ *)

Section RiskAdvice.
Import Risk RiskDisplay.
Open Scope Q_scope.

Lemma getRiskLevel_classified (x : num) :
  getRiskLevel x =
    if band 0 20 x then keyed "MINIMAL" MINIMAL x
    else if band 20 40 x then keyed "LOW" LOW x
    else if band 40 60 x then keyed "MODERATE" MODERATE x
    else if band 60 75 x then keyed "ELEVATED" ELEVATED x
    else if band 75 90 x then keyed "HIGH" HIGH x
    else if band 90 100 x then keyed "EXTREME" EXTREME x
    else EXTREME.
Proof. reflexivity. Qed.

(** Adjacent bands join. *)
Lemma band_join (a b c : Q) (x : num) :
  a <= b -> b <= c -> band a c x = band a b x || band b c x.
Proof.
  intros Hab Hbc. unfold band.
  destruct x as [| | |q]; try reflexivity.
  destruct (Qlt_le_dec q a), (Qlt_le_dec q b), (Qlt_le_dec q c);
    decide_cmp; try reflexivity; lra.
Qed.


End RiskAdvice.

Section RiskDisplayed.
Import Risk RiskDisplay RiskInputs.
Context {M : Math}.
Open Scope Q_scope.

(** A score outside [0,100) (100 itself, a negative number, NaN, an
    infinity) matches no band: the level is EXTREME without key, the
    display shows "Extreme Risk" under the question-mark icon, which no
    score inside [0,100) gets, and the overall advisory is the urgent
    one. *)
Theorem scores_out_of_range (r : RiskScore) (x : num) (c : Components) :
  level r = getRiskLevel x ->
  (icon (formatRiskDisplay r) = "fa-question-circle"%string
   <-> band 0 100 x = false) /\
  (band 0 100 x = false ->
   key (level r) = None /\
   d_label (formatRiskDisplay r) = "Extreme Risk"%string /\
   exists rest,
     generateRiskRecommendations x c =
       {| type := "urgent"; priority := "critical";
          action := "Immediate risk reduction required" |} :: rest).
Proof.
  intros Hl. unfold formatRiskDisplay, generateRiskRecommendations.
  cbn [icon d_label]. rewrite Hl.
  rewrite getRiskLevel_classified.
  rewrite (@band_join 0 20 100 x), (@band_join 20 40 100 x),
    (@band_join 40 60 100 x), (@band_join 60 75 100 x),
    (@band_join 75 90 100 x) by lra.
  destruct (band 0 20 x);
    [split; [split; discriminate|discriminate]|].
  destruct (band 20 40 x);
    [split; [split; discriminate|discriminate]|].
  destruct (band 40 60 x);
    [split; [split; discriminate|discriminate]|].
  destruct (band 60 75 x);
    [split; [split; discriminate|discriminate]|].
  destruct (band 75 90 x);
    [split; [split; discriminate|discriminate]|].
  destruct (band 90 100 x);
    [split; [split; discriminate|discriminate]|].
  split; [split; reflexivity|]. intros _.
  split; [reflexivity|]. split; [reflexivity|].
  eexists. reflexivity.
Qed.

(** The market component takes one of six values. *)
Theorem calculateMarketRisk_values (marketData : MarketData)
  (portfolio : Portfolio) :
  exists q, calculateMarketRisk marketData portfolio = Fin q /\
    (q == 50 \/ q == 60 \/ q == 70 \/ q == 80 \/ q == 90 \/ q == 100).
Proof.
  unfold calculateMarketRisk.
  generalize (calculateVolatility (calculateReturns (series marketData))) as v.
  generalize (Math_abs (sub (calculatePortfolioBeta portfolio) (Fin 1))) as b.
  intros b v.
  destruct (ltb v (Fin 0.10)), (ltb v (Fin 0.20)), (ltb v (Fin 0.30)),
    (ltb b (Fin 0.3)), (ltb b (Fin 0.6));
    (eexists; split; [vm_compute; reflexivity|]; vm_compute; intuition congruence).
Qed.

End RiskDisplayed.

(** The top of the scale is displayed under the question mark. *)
Lemma scores_out_of_range_witness :
  RiskDisplay.icon (RiskDisplay.formatRiskDisplay DisplayInputs.top_of_scale)
  = "fa-question-circle"%string.
Proof.
  apply (proj1 (@scores_out_of_range DisplayInputs.top_of_scale (Fin 100)
                  DisplayInputs.all_at_100 eq_refl)).
  reflexivity.
Defined.

Section RiskFloor.
Import Risk RiskDisplay RiskInputs.
Context {M : Math}.
Open Scope Q_scope.

Lemma herfindahl_nonneg (l : list Asset) (s0 : Q) :
  Forall (fun a => exists q, weight a = Fin q) l ->
  exists h, fold_left (fun s w => add s (mul w w)) (map weight l) (Fin s0)
            = Fin h /\ s0 <= h.
Proof.
  intros H. revert s0. induction H as [|a l [q Ha] _ IH]; intros s0; simpl.
  - exists s0. split; [reflexivity|lra].
  - rewrite Ha. simpl. destruct (IH (s0 + q * q)) as (h & -> & Hh).
    exists h. split; [reflexivity|]. nra.
Qed.

Lemma clamp_floor (lo x : Q) :
  0 <= lo -> lo <= 100 -> lo <= x ->
  within lo 100 (Math_max (Fin 0) (Math_min (Fin 100) (Fin x))).
Proof.
  intros H0 H1 Hx. unfold Math_min, Math_max.
  destruct (Qlt_le_dec x 100) as [H|H].
  - rewrite (ltb_Fin_true H).
    destruct (Qlt_le_dec 0 x) as [H'|H'].
    + rewrite (ltb_Fin_true H'). exists x. split; [reflexivity|lra].
    + rewrite (ltb_Fin_false H'). exists 0. split; [reflexivity|lra].
  - rewrite (ltb_Fin_false H).
    rewrite (@ltb_Fin_true 0 100) by lra. exists 100. split; [reflexivity|lra].
Qed.

(** The credit component is at least 30 - 10: the diversification
    score is at most 1. *)
Lemma calculateCreditRisk_floor (portfolio : Portfolio) :
  match assets portfolio with
  | None => True
  | Some l => Forall (fun a => exists q, weight a = Fin q) l
  end ->
  within 20 100 (calculateCreditRisk portfolio).
Proof.
  intros Hw. unfold calculateCreditRisk.
  assert (Hd : exists d, calculateDiversification portfolio = Fin d /\ d <= 1).
  { unfold calculateDiversification.
    destruct (assets portfolio) as [l|].
    - destruct (@herfindahl_nonneg l 0 Hw) as (h & -> & Hh). simpl.
      eexists. split; [reflexivity|]. lra.
    - simpl. eexists. split; [reflexivity|]. lra. }
  destruct Hd as (d & -> & Hd).
  destruct (hasHighYield portfolio), (hasEmergingMarkets portfolio),
    (hasCrypto portfolio); cbn [add sub neg mul]; apply clamp_floor; lra.
Qed.

(** On valid inputs the composite score is a whole number from 31 to
    100: the hard-coded terms of the liquidity, systemic and market
    components keep it above the MINIMAL band, whatever the inputs. *)
Theorem calculateRiskScore_floor (marketData : MarketData)
  (portfolio : Portfolio) (newsAnalysis : option NewsAnalysis) :
  valid_input marketData portfolio newsAnalysis ->
  (exists z : Z,
     totalRisk (calculateRiskScore marketData portfolio newsAnalysis) =
       Fin (inject_Z z) /\ (31 <= z <= 100)%Z) /\
  key (level (calculateRiskScore marketData portfolio newsAnalysis))
    <> Some "MINIMAL"%string.
Proof.
  intros [Hs Hc Hw Hn].
  destruct (calculateMarketRisk_bounds marketData portfolio) as (m & Em & Hm).
  destruct (calculateCreditRisk_floor portfolio Hw) as (c & Ec & Hc').
  destruct (calculateLiquidityRisk_bounds marketData portfolio Hs)
    as (l & El & Hl).
  destruct (calculateSentimentRisk_bounds newsAnalysis Hn) as (s & Es & Hs').
  destruct (calculateSystemicRisk_bounds marketData Hc) as (y & Ey & Hy).
  unfold calculateRiskScore. cbn [totalRisk level].
  rewrite Em, Ec, El, Es, Ey.
  unfold weight_market, weight_credit, weight_liquidity, weight_sentiment,
    weight_systemic.
  cbn [mul add Math_round].
  set (w := m * 0.35 + c * 0.20 + l * 0.15 + s * 0.15 + y * 0.15).
  assert (Hw0 : 30.5 <= w <= 100) by (unfold w; lra).
  split.
  - exists (Qfloor (w + 0.5)). split; [reflexivity|]. split.
    + change 31%Z with (Qfloor 31). apply Qfloor_resp_le. lra.
    + change 100%Z with (Qfloor 100.5). apply Qfloor_resp_le. lra.
  - rewrite getRiskLevel_classified.
    assert (B : band 0 20 (Fin w) = false).
    { unfold band. rewrite (@ltb_Fin_false w 20) by lra. apply andb_false_r. }
    rewrite B.
    destruct (band 20 40 (Fin w)); [discriminate|].
    destruct (band 40 60 (Fin w)); [discriminate|].
    destruct (band 60 75 (Fin w)); [discriminate|].
    destruct (band 75 90 (Fin w)); [discriminate|].
    destruct (band 90 100 (Fin w)); discriminate.
Qed.

(** What the display shows for the five components, in order; the
    market, liquidity and systemic components are never "good". *)
Theorem formatRiskDisplay_never_good (marketData : MarketData)
  (portfolio : Portfolio) (newsAnalysis : option NewsAnalysis) :
  valid_input marketData portfolio newsAnalysis ->
  let d := formatRiskDisplay
             (calculateRiskScore marketData portfolio newsAnalysis) in
  map name (d_components d) =
    ["Market Risk"; "Credit Risk"; "Liquidity Risk"; "Sentiment Risk";
     "Systemic Risk"]%string /\
  forall cd, In cd (d_components d) ->
    status cd = "good"%string ->
    name cd = "Credit Risk"%string \/ name cd = "Sentiment Risk"%string.
Proof.
  intros [Hs Hc Hw Hn] d. subst d.
  destruct (calculateMarketRisk_bounds marketData portfolio) as (m & Em & Hm).
  destruct (calculateLiquidityRisk_bounds marketData portfolio Hs)
    as (l & El & Hl).
  destruct (calculateSystemicRisk_bounds marketData Hc) as (y & Ey & Hy).
  unfold formatRiskDisplay, calculateRiskScore.
  cbn [d_components components entries map fst snd].
  rewrite Em, El, Ey.
  split; [reflexivity|].
  intros cd Hin. simpl in Hin.
  destruct Hin as [<-|[<-|[<-|[<-|[<-|[]]]]]]; cbn [status name];
    unfold getComponentStatus; intros Hgood;
    try (left; reflexivity); try (right; reflexivity); exfalso; revert Hgood.
  - rewrite (@ltb_Fin_false m 30) by lra.
    destruct (ltb (Fin m) (Fin 60)); discriminate.
  - rewrite (@ltb_Fin_false l 30) by lra.
    destruct (ltb (Fin l) (Fin 60)); discriminate.
  - rewrite (@ltb_Fin_false y 30) by lra.
    destruct (ltb (Fin y) (Fin 60)); discriminate.
Qed.

End RiskFloor.

(** On the sample inputs the score is at least 31. *)
Lemma calculateRiskScore_floor_witness :
  exists z : Z,
    Risk.totalRisk
      (Risk.calculateRiskScore (M := Sample.math) RiskInputs.marketData0
         RiskInputs.portfolio0 (Some RiskInputs.news0))
    = Fin (inject_Z z) /\ (31 <= z <= 100)%Z.
Proof.
  apply (@calculateRiskScore_floor Sample.math RiskInputs.marketData0
           RiskInputs.portfolio0 (Some RiskInputs.news0)).
  constructor; simpl.
  - discriminate.
  - discriminate.
  - repeat constructor; eexists; reflexivity.
  - split; discriminate.
Defined.

(** On the sample inputs no component but credit and sentiment can be
    displayed as good. *)
Lemma formatRiskDisplay_never_good_witness :
  map RiskDisplay.name
    (RiskDisplay.d_components
       (RiskDisplay.formatRiskDisplay
          (Risk.calculateRiskScore (M := Sample.math) RiskInputs.marketData0
             RiskInputs.portfolio0 (Some RiskInputs.news0))))
  = ["Market Risk"; "Credit Risk"; "Liquidity Risk"; "Sentiment Risk";
     "Systemic Risk"]%string.
Proof.
  apply (@formatRiskDisplay_never_good Sample.math RiskInputs.marketData0
           RiskInputs.portfolio0 (Some RiskInputs.news0)).
  constructor; simpl.
  - discriminate.
  - discriminate.
  - repeat constructor; eexists; reflexivity.
  - split; discriminate.
Defined.

(* ------------------------------------------------------------------ *)
(** ** The news analysis on the risk scorer *)
(* ------------------------------------------------------------------ *)

Section NewsCaller.
Import Risk NewsRisk.
Context {M : Math}.
Open Scope Q_scope.

Hypothesis sqrt_NaN : Math_sqrt NaN = NaN.

Lemma clamp_id (x : Q) :
  0 < x < 100 -> Math_max (Fin 0) (Math_min (Fin 100) (Fin x)) = Fin x.
Proof.
  intros H. unfold Math_min. rewrite (@ltb_Fin_true x 100) by lra.
  unfold Math_max. rewrite (@ltb_Fin_true 0 x) by lra. reflexivity.
Qed.

(** The score of the mock inputs: the market component is 80 whatever
    the sentiment, and the total is the rounding of 48.1 + 0.15 s for a
    sentiment component s in [6,100]. *)
Lemma mock_score (sentiment : Sentiment) :
  nonneg (bearish sentiment) ->
  let r := calculateRiskScore mockMarketData holdings
             (Some {| Risk.sentiment := Some sentiment;
                      sentimentVolatility := None |}) in
  market (components r) = Fin 80.00 /\
  exists z : Z, totalRisk r = Fin (inject_Z z) /\ (49 <= z <= 63)%Z.
Proof.
  intros Hb r. subst r.
  assert (Em : calculateMarketRisk mockMarketData holdings = Fin 80.00).
  { unfold calculateMarketRisk, calculateVolatility. simpl.
    rewrite sqrt_NaN. vm_compute. reflexivity. }
  assert (Es : within 6 100
                 (calculateSentimentRisk
                    (Some {| Risk.sentiment := Some sentiment;
                             sentimentVolatility := None |}))).
  { unfold calculateSentimentRisk, calculateSentimentVolatility.
    cbn [Risk.sentiment sentimentVolatility or_default].
    destruct (@or_default_nonneg (bearish sentiment) 0 Hb) as (be & -> & Hbe);
      [lra|].
    cbn [mul add].
    destruct (_ || _); cbn [add]; apply Math_min_100; lra. }
  destruct Es as (s & Es & Hs).
  unfold calculateRiskScore. cbn [components market totalRisk].
  split; [exact Em|].
  assert (Ec : exists c, calculateCreditRisk holdings = Fin c /\ c == 30)
    by (eexists; split; [vm_compute; reflexivity|reflexivity]).
  assert (El : exists l, calculateLiquidityRisk mockMarketData holdings = Fin l
                         /\ l == 40)
    by (eexists; split; [vm_compute; reflexivity|reflexivity]).
  assert (Ey : exists y, calculateSystemicRisk mockMarketData = Fin y /\ y == 54)
    by (eexists; split; [vm_compute; reflexivity|reflexivity]).
  destruct Ec as (c & Ec & Hc), El as (l & El & Hl), Ey as (y & Ey & Hy).
  rewrite Em, Es, Ec, El, Ey.
  unfold weight_market, weight_credit, weight_liquidity, weight_sentiment,
    weight_systemic.
  cbn [mul add Math_round].
  eexists. split; [reflexivity|]. split.
  - change 49%Z with (Qfloor 49). apply Qfloor_resp_le. lra.
  - change 63%Z with (Qfloor 63.6). apply Qfloor_resp_le. lra.
Qed.

(** The risk metrics of the news page under the professional scorer,
    which is fed mock market data and the empty portfolio: the overall
    risk is between 49 and 63, plus 20 when a negative keyword mentions
    a crisis, a crash or a collapse; the volatility label
    is never below "high" and the recommendation is never the low-risk
    one. *)
Theorem calculateRiskMetrics_professional (sentiment : Sentiment)
  (negative : list string) :
  nonneg (bearish sentiment) ->
  let r := calculateRiskMetrics true sentiment negative in
  (exists q, overall r = Fin q /\
     if existsb alarming negative then 69 <= q <= 83 else 49 <= q <= 63) /\
  volatility r =
    (if existsb alarming negative then "very high" else "high")%string /\
  recommendation r <> "Low risk - Suitable for aggressive positioning"%string.
Proof.
  intros Hb r. subst r. unfold calculateRiskMetrics.
  destruct (mock_score sentiment Hb) as (Em & z & Ez & Hz).
  cbv zeta in Em, Ez. rewrite Em, Ez.
  assert (Hq : 49 <= inject_Z z <= 63).
  { split; [change 49 with (inject_Z 49)|change 63 with (inject_Z 63)];
      rewrite <- Zle_Qle; lia. }
  assert (Ht : truthy (Fin (inject_Z z)) = true).
  { simpl. rewrite Qeq_bool_pos by lra. reflexivity. }
  rewrite Ht.
  change (gtb (Fin 80.00) (Fin 70)) with true. cbv iota.
  destruct (existsb alarming negative); cbn [overall volatility recommendation add].
  - rewrite clamp_id by lra. repeat split.
    + eexists. split; [reflexivity|]. lra.
    + unfold getRiskRecommendation.
      rewrite (@ltb_Fin_false (inject_Z z + 20) 30) by lra.
      destruct (ltb _ (Fin 50)); [discriminate|].
      destruct (ltb _ (Fin 70)); discriminate.
  - rewrite clamp_id by lra. repeat split.
    + eexists. split; [reflexivity|]. lra.
    + unfold getRiskRecommendation.
      rewrite (@ltb_Fin_false (inject_Z z) 30) by lra.
      destruct (ltb _ (Fin 50)); [discriminate|].
      destruct (ltb _ (Fin 70)); discriminate.
Qed.

End NewsCaller.

(** The sample reading with a crisis keyword: between 69 and 83, very
    high volatility. *)
Lemma calculateRiskMetrics_professional_witness :
  NewsRisk.volatility
    (NewsRisk.calculateRiskMetrics (M := Sample.math) true NewsInputs.reading
       NewsInputs.negative)
  = "very high"%string.
Proof.
  apply (@calculateRiskMetrics_professional Sample.math eq_refl
           NewsInputs.reading NewsInputs.negative).
  discriminate.
Defined.

(* ------------------------------------------------------------------ *)
(** ** BacktestEngine: the rounds of the loops *)
(* ------------------------------------------------------------------ *)

Section RoundsOfTheLoops.
Import Backtest Rounds.
Open Scope js_scope.

Lemma at_index_nth {A} (xs : list A) (i : nat) (a : A) :
  at_index xs i = Ok a -> nth_error xs i = Some a.
Proof.
  unfold at_index. destruct (nth_error xs i); [|discriminate].
  intros E. injection E as <-. reflexivity.
Qed.

Lemma momentum_body_round (data : list Bar) (maPeriod : num) (n : nat)
  (s : State) (i : nat) (s' : State) :
  momentum_body data maPeriod n s i = Ok s' ->
  exists di, nth_error data i = Some di /\ round (close di) s s'.
Proof.
  unfold momentum_body.
  destruct (at_index data i) as [di|] eqn:Ei; cbn [bind]; [|discriminate].
  intros E. injection E as <-.
  exists di. split; [exact (at_index_nth _ _ Ei)|].
  destruct ((position s === Fin 0) && _) eqn:Eb.
  - apply andb_true_iff in Eb as [Ef _].
    destruct (_ >? Fin 0) eqn:Esh.
    + eapply bought; cbn [position cash s_trades s_values];
        try reflexivity; try eassumption; reflexivity.
    + eapply held; cbn [position cash s_trades s_values]; reflexivity.
  - destruct ((position s >? Fin 0) && _) eqn:Es.
    + apply andb_true_iff in Es as [El _].
      eapply sold; cbn [position cash s_trades s_values];
        try reflexivity; try eassumption; reflexivity.
    + eapply held; cbn [position cash s_trades s_values]; reflexivity.
Qed.

Context {M : Math}.

Lemma meanReversion_body_round (data : list Bar) (zScoreThreshold : num)
  (n : nat) (s : State) (i : nat) (s' : State) :
  meanReversion_body data zScoreThreshold n s i = Ok s' ->
  exists di, nth_error data i = Some di /\ round (close di) s s'.
Proof.
  unfold meanReversion_body.
  destruct (at_index data i) as [di|] eqn:Ei; cbn [bind]; [|discriminate].
  intros E. injection E as <-.
  exists di. split; [exact (at_index_nth _ _ Ei)|].
  destruct ((position s === Fin 0) && _) eqn:Eb.
  - apply andb_true_iff in Eb as [Ef _].
    destruct (_ >? Fin 0) eqn:Esh.
    + eapply bought; cbn [position cash s_trades s_values];
        try reflexivity; try eassumption; reflexivity.
    + eapply held; cbn [position cash s_trades s_values]; reflexivity.
  - destruct ((position s >? Fin 0) && _) eqn:Es.
    + apply andb_true_iff in Es as [El _].
      eapply sold; cbn [position cash s_trades s_values];
        try reflexivity; try eassumption; reflexivity.
    + eapply held; cbn [position cash s_trades s_values]; reflexivity.
Qed.

Lemma macd_body_round (macdData : list Macd) (s : State) (i : nat)
  (s' : State) :
  macd_body macdData s i = Ok s' ->
  exists m, nth_error macdData i = Some m /\ round (m_price m) s s' /\
            (truthy_opt (signal m) = false -> s' = s).
Proof.
  unfold macd_body.
  destruct (at_index macdData i) as [m|] eqn:Ei; cbn [bind]; [|discriminate].
  intros E. exists m. split; [exact (at_index_nth _ _ Ei)|].
  destruct (truthy_opt (signal m)) eqn:Et; cbn [negb] in E.
  2:{ injection E as <-. split; [apply skipped; reflexivity|reflexivity]. }
  split; [|discriminate].
  revert E.
  destruct ((position s === Fin 0) && _) eqn:Eb.
  - apply andb_true_iff in Eb as [Ef _].
    destruct (crossed macdData i leb) as [[|]|]; cbn [bind]; try discriminate.
    + intros E. injection E as <-.
      destruct (_ >? Fin 0) eqn:Esh.
      * eapply bought; cbn [position cash s_trades s_values];
          try reflexivity; try eassumption; reflexivity.
      * eapply held; cbn [position cash s_trades s_values]; reflexivity.
    + assert (El : (position s >? Fin 0) = false)
        by (apply eqb_0_not_gtb; exact Ef).
      rewrite El. cbn [andb bind].
      intros E. injection E as <-.
      eapply held; cbn [position cash s_trades s_values]; reflexivity.
  - cbn [bind].
    destruct ((position s >? Fin 0) && _) eqn:Es.
    + apply andb_true_iff in Es as [El _].
      destruct (crossed macdData i geb) as [[|]|]; cbn [bind];
        try discriminate; intros E; injection E as <-.
      * eapply sold; cbn [position cash s_trades s_values];
          try reflexivity; try eassumption; reflexivity.
      * eapply held; cbn [position cash s_trades s_values]; reflexivity.
    + cbn [bind]. intros E. injection E as <-.
      eapply held; cbn [position cash s_trades s_values]; reflexivity.
Qed.

End RoundsOfTheLoops.

Section LoopInvariants.
Import Backtest Rounds.
Open Scope js_scope.

(** A difference [x - x] is 0 or NaN: falsy. *)
Lemma sub_self_falsy (x : num) : truthy (x - x) = false.
Proof.
  destruct x as [| | |q]; try reflexivity.
  simpl. apply negb_false_iff. apply Qeq_bool_iff. ring.
Qed.

Lemma nth_error_indexed_from {A} (l : list A) (k i : nat) :
  nth_error (combine (seq k (List.length l)) l) i =
  match nth_error l i with
  | Some a => Some ((k + i)%nat, a)
  | None => None
  end.
Proof.
  revert k i. induction l as [|a l IH]; intros k i; simpl.
  - destruct i; reflexivity.
  - destruct i as [|i]; simpl.
    + rewrite Nat.add_0_r. reflexivity.
    + rewrite IH. rewrite Nat.add_succ_r. reflexivity.
Qed.

Lemma nth_error_indexed {A} (l : list A) (i : nat) :
  nth_error (indexed l) i =
  match nth_error l i with
  | Some a => Some (i, a)
  | None => None
  end.
Proof. unfold indexed. apply nth_error_indexed_from. Qed.

Lemma map_res_nth {A B} (f : A -> res B) (l : list A) (bs : list B) :
  map_res f l = Ok bs ->
  forall i b, nth_error bs i = Some b ->
              exists a, nth_error l i = Some a /\ f a = Ok b.
Proof.
  revert bs. induction l as [|a l IH]; intros bs; simpl.
  - intros E. injection E as <-. intros [|i] b; discriminate.
  - destruct (f a) as [b0|] eqn:Ea; cbn [bind]; [|discriminate].
    destruct (map_res f l) as [bs0|]; cbn [bind]; [|discriminate].
    intros E. injection E as <-.
    intros [|i] b; simpl.
    + intros Eb. injection Eb as <-. eauto.
    + intros Eb. apply (IH bs0 eq_refl i b Eb).
Qed.

Lemma map_res_length {A B} (f : A -> res B) (l : list A) (bs : list B) :
  map_res f l = Ok bs -> List.length bs = List.length l.
Proof.
  revert bs. induction l as [|a l IH]; intros bs; simpl.
  - intros E. injection E as <-. reflexivity.
  - destruct (f a) as [b0|]; cbn [bind]; [|discriminate].
    destruct (map_res f l) as [bs0|]; cbn [bind]; [|discriminate].
    intros E. injection E as <-. simpl. rewrite (IH bs0 eq_refl). reflexivity.
Qed.

(** The MACD table has one entry per bar, priced at the bar's close;
    the signal of the first entry is the MACD of the first bar, the
    difference of two averages that both start at the first close. *)
Lemma calculateMACD_entries (data : list Bar) (f s g : num)
  (macdData : list Macd) :
  calculateMACD data f s g = Ok macdData ->
  List.length macdData = List.length data /\
  forall i m, nth_error macdData i = Some m ->
    (exists di, nth_error data i = Some di /\ m_price m = close di) /\
    (i = O -> truthy_opt (signal m) = false).
Proof.
  unfold calculateMACD.
  destruct data as [|d data].
  { cbn. discriminate. }
  set (prices := map close (d :: data)).
  destruct (map_res _ _) as [line|] eqn:El; cbn [bind]; [|discriminate].
  intros E. injection E as <-.
  pose proof (map_res_length _ _ El) as Hlen.
  rewrite indexed_length in Hlen. unfold prices in Hlen. cbn [map] in Hlen.
  rewrite calculateEMA_length, length_map in Hlen.
  split.
  { rewrite length_map, indexed_length, Hlen. reflexivity. }
  intros i m Hm.
  rewrite nth_error_map, nth_error_indexed in Hm.
  destruct (nth_error line i) as [m0|] eqn:Em0; [|discriminate].
  cbn [option_map] in Hm. injection Hm as <-. cbn [m_price signal].
  destruct (map_res_nth _ _ El i Em0) as ([j fast] & Ej & Ef).
  rewrite nth_error_indexed in Ej.
  destruct (nth_error (calculateEMA prices f) i) as [fast'|] eqn:Efast;
    [|discriminate].
  injection Ej as <- <-.
  destruct (at_index (d :: data) i) as [di|] eqn:Edi; cbn [bind] in Ef;
    [|discriminate].
  injection Ef as <-. cbn [m_price macd].
  split.
  - exists di. split; [exact (at_index_nth _ _ Edi)|reflexivity].
  - intros ->. destruct line as [|l0 line]; [discriminate|].
    cbn in Em0. injection Em0 as ->.
    cbn [map calculateEMA elem nth_error macd truthy_opt].
    cbn in Efast. injection Efast as <-. cbn [to_num].
    apply sub_self_falsy.
Qed.

End LoopInvariants.

Section StrategyInvariants.
Import Backtest Rounds.
Open Scope js_scope.

Lemma round_positive_shares (p : num) (s s' : State) :
  round p s s' ->
  Forall positive_shares (s_trades s) -> Forall positive_shares (s_trades s').
Proof.
  intros [->|pt _ _ Et _ _|t pt _ Hsh Ep _ _ _ Es Et _ _|t pt Hl _ _ _ _ Es Et _ _] H.
  - exact H.
  - rewrite Et. exact H.
  - rewrite Et. apply Forall_app. split; [exact H|].
    constructor; [|constructor]. unfold positive_shares. rewrite Es, Ep. exact Hsh.
  - rewrite Et. apply Forall_app. split; [exact H|].
    constructor; [|constructor]. unfold positive_shares. rewrite Es. exact Hl.
Qed.

(** Each round adds at most one trade, and then one point. *)
Lemma round_counts (p : num) (s s' : State) :
  round p s s' ->
  (List.length (s_trades s) <= List.length (s_values s))%nat ->
  (List.length (s_trades s') <= List.length (s_values s'))%nat /\
  (List.length (s_values s') <= S (List.length (s_values s)))%nat.
Proof.
  intros [->|pt _ _ Et Ev _|t pt _ _ _ _ _ _ _ Et Ev _|t pt _ _ _ _ _ _ Et Ev _] H;
    try rewrite Et; try rewrite Ev; repeat rewrite length_app; simpl; lia.
Qed.

Lemma round_solvent (p : Q) (s s' : State) :
  (0 < p)%Q -> round (Fin p) s s' -> solvent s -> solvent s'.
Proof.
  intros Hp Hr ((c & Ec & Hc) & (q & Eq & Hq) & Hv). unfold solvent.
  destruct Hr as [->|pt Ep' Ec' _ Ev Ept
                 |t pt _ Hsh Ep' Ec' _ _ _ _ Ev Ept
                 |t pt _ Ep' Ec' _ _ _ _ Ev Ept].
  - repeat split; eauto.
  - rewrite Ep', Ec', Ec, Eq in *. repeat split; eauto.
    rewrite Ev. apply Forall_app. split; [exact Hv|].
    constructor; [|constructor]. rewrite Ept. simpl.
    eexists. split; [reflexivity|]. nra.
  - rewrite Ec in *. rewrite (@div_Fin_pos c p Hp) in *.
    cbn [Math_floor] in *.
    set (f := inject_Z (Qfloor (c / p))) in *.
    assert (Hf : (0 < f)%Q) by (apply ltb_Fin in Hsh; exact Hsh).
    assert (Hfl : (f <= c / p)%Q) by apply Qfloor_le.
    assert (Hcp : (c == c / p * p)%Q) by (field; lra).
    assert (Hfp : (f * p <= c)%Q) by nra.
    rewrite Ep', Ec' in *. cbn [mul sub add neg] in *.
    repeat split.
    + eexists. split; [reflexivity|]. lra.
    + eexists. split; [reflexivity|]. lra.
    + rewrite Ev. apply Forall_app. split; [exact Hv|].
      constructor; [|constructor]. rewrite Ept.
      eexists. split; [reflexivity|]. nra.
  - rewrite Ep', Ec', Ec, Eq in *. cbn [mul add] in *.
    repeat split.
    + eexists. split; [reflexivity|]. nra.
    + eexists. split; [reflexivity|]. lra.
    + rewrite Ev. apply Forall_app. split; [exact Hv|].
      constructor; [|constructor]. rewrite Ept.
      eexists. split; [reflexivity|]. nra.
Qed.

(** On a positive price and a finite cash, a round trades whole lots. *)
Lemma round_whole_lots (p : Q) (s s' : State) :
  (0 < p)%Q -> round (Fin p) s s' -> solvent s ->
  whole_position s /\ Forall whole_lot (s_trades s) ->
  whole_position s' /\ Forall whole_lot (s_trades s').
Proof.
  intros Hp Hr ((c & Ec & Hc) & _) [(n & En) H].
  destruct Hr as [->|pt Ep' _ Et _ _
                 |t pt _ Hsh Ep' _ _ _ Es Et _ _
                 |t pt Hl Ep' _ _ _ Es Et _ _].
  - split; [exists n; exact En|exact H].
  - split; [exists n; rewrite Ep'; exact En|rewrite Et; exact H].
  - rewrite Ec in *. rewrite (@div_Fin_pos c p Hp) in *.
    cbn [Math_floor] in *.
    assert (Hz : (1 <= Qfloor (c / p))%Z).
    { apply ltb_Fin in Hsh. change 0%Q with (inject_Z 0) in Hsh.
      rewrite <- Zlt_Qlt in Hsh. lia. }
    split; [exists (Qfloor (c / p)); exact Ep'|].
    rewrite Et. apply Forall_app. split; [exact H|].
    constructor; [|constructor].
    exists (Qfloor (c / p)). rewrite Es, Ep'. split; [reflexivity|exact Hz].
  - assert (Hn : (1 <= n)%Z).
    { rewrite En in Hl. apply ltb_Fin in Hl. change 0%Q with (inject_Z 0) in Hl.
      rewrite <- Zlt_Qlt in Hl. lia. }
    split; [exists 0%Z; rewrite Ep'; reflexivity|].
    rewrite Et. apply Forall_app. split; [exact H|].
    constructor; [|constructor].
    exists n. rewrite Es, En. split; [reflexivity|exact Hn].
Qed.

End StrategyInvariants.

Section StrategyResults.
Import Backtest Rounds.
Context {M : Math}.
Open Scope js_scope.

Lemma for_each_grows {St} (size : St -> nat) (body : St -> nat -> res St) :
  (forall s i s', body s i = Ok s' -> size s' = S (size s)) ->
  forall indices s s',
    for_each indices body s = Ok s' ->
    size s' = (size s + List.length indices)%nat.
Proof.
  intros Hbody. induction indices as [|i indices IH]; intros s s'; simpl.
  - intros E. injection E as <-. lia.
  - destruct (body s i) as [s1|e] eqn:E1; simpl; [|discriminate].
    intros E. rewrite (IH _ _ E), (Hbody _ _ _ E1). lia.
Qed.

Lemma for_each_grows_at_most {St} (size : St -> nat)
  (body : St -> nat -> res St) :
  (forall s i s', body s i = Ok s' -> (size s' <= S (size s))%nat) ->
  forall indices s s',
    for_each indices body s = Ok s' ->
    (size s' <= size s + List.length indices)%nat.
Proof.
  intros Hbody. induction indices as [|i indices IH]; intros s s'; simpl.
  - intros E. injection E as <-. lia.
  - destruct (body s i) as [s1|e] eqn:E1; simpl; [|discriminate].
    intros E. pose proof (IH _ _ E). pose proof (Hbody _ _ _ E1). lia.
Qed.

Lemma momentum_body_point (data : list Bar) (maPeriod : num) (n : nat)
  (s : State) (i : nat) (s' : State) :
  momentum_body data maPeriod n s i = Ok s' -> points s' = S (points s).
Proof.
  unfold momentum_body, points.
  destruct (at_index data i) as [di|]; cbn [bind]; [|discriminate].
  intros E. injection E as <-. cbn [s_values]. rewrite length_app. simpl.
  destruct (_ && _); [destruct (_ >? _)|destruct (_ && _)];
    cbn [s_values]; lia.
Qed.

Lemma meanReversion_body_point (data : list Bar) (z : num) (n : nat)
  (s : State) (i : nat) (s' : State) :
  meanReversion_body data z n s i = Ok s' -> points s' = S (points s).
Proof.
  unfold meanReversion_body, points.
  destruct (at_index data i) as [di|]; cbn [bind]; [|discriminate].
  intros E. injection E as <-. cbn [s_values]. rewrite length_app. simpl.
  destruct (_ && _); [destruct (_ >? _)|destruct (_ && _)];
    cbn [s_values]; lia.
Qed.

Lemma from_period_points (data : list Bar) (start : num) (n : nat)
  (body : nat -> State -> nat -> res State) (s s' : State) :
  (forall n s i s', body n s i = Ok s' -> points s' = S (points s)) ->
  as_index start = Some n ->
  from_period data start body s = Ok s' ->
  points s' = (points s + (List.length data - n))%nat.
Proof.
  intros Hbody Hn. unfold from_period. rewrite Hn.
  destruct (start <? len data) eqn:El.
  - intros E. rewrite (for_each_grows points (body n) (Hbody n) _ _ E).
    rewrite length_seq. reflexivity.
  - intros E. injection E as <-.
    assert (List.length data - n = 0)%nat; [|lia].
    destruct start as [| | |q]; try discriminate.
    unfold as_index in Hn.
    destruct (Qeq_bool q (inject_Z (Qfloor q)) && (0 <=? Qfloor q)%Z) eqn:Eq;
      [|discriminate].
    injection Hn as <-.
    apply andb_true_iff in Eq as [Eq1 Eq2].
    apply Qeq_bool_eq in Eq1. apply Z.leb_le in Eq2.
    unfold len in El.
    destruct (Qlt_le_dec q (inject_Z (Z.of_nat (List.length data)))) as [H|H].
    + rewrite (ltb_Fin_true H) in El. discriminate.
    + rewrite Eq1 in H. rewrite <- Zle_Qle in H. lia.
Qed.

Lemma round_counted (p : num) (s s' : State) :
  round p s s' -> counted s -> counted s'.
Proof. intros Hr H. exact (proj1 (round_counts Hr H)). Qed.

Lemma round_point (p : num) (s s' : State) :
  round p s s' -> (points s' <= S (points s))%nat.
Proof.
  unfold points.
  intros [->|pt _ _ _ Ev _|t pt _ _ _ _ _ _ _ _ Ev _|t pt _ _ _ _ _ _ _ Ev _];
    try rewrite Ev; try rewrite length_app; simpl; lia.
Qed.

(** What holds of the state of a loop holds of the result; the final
    value is the cash plus the position at a close of the series. *)
Lemma momentum_result (P : State -> Prop) (data : list Bar) (params : Params)
  (r : StrategyResult) :
  P (initial (or_default (initialCapital params) (Fin 10000))) ->
  (forall d s s', In d data -> round (close d) s s' -> P s -> P s') ->
  momentumStrategy data params = Ok r ->
  exists s, P s /\ trades r = s_trades s /\ portfolioValues r = s_values s /\
            (finalValue r = cash s \/
             exists d, In d data /\ finalValue r = cash s + position s * close d).
Proof.
  intros H0 Hstep. unfold momentumStrategy.
  destruct (from_period _ _ _ _) as [s|] eqn:Es; cbn [bind]; [|discriminate].
  assert (Hs : P s).
  { eapply (from_period_invariant P); [|apply H0|exact Es].
    intros n s0 i s1 Hs0 E.
    destruct (momentum_body_round _ _ _ _ _ E) as (di & Hdi & Hr).
    exact (Hstep _ _ _ (nth_error_In _ _ Hdi) Hr Hs0). }
  destruct (position s >? Fin 0).
  - destruct (at_index _ _) as [x|] eqn:Ex; cbn [bind]; [|discriminate].
    intros E. injection E as <-. exists s. repeat split; [exact Hs|].
    right. exists x. split; [|reflexivity].
    exact (nth_error_In _ _ (at_index_nth _ _ Ex)).
  - cbn [bind]. intros E. injection E as <-. exists s.
    repeat split; [exact Hs|]. left. reflexivity.
Qed.

Lemma meanReversion_result (P : State -> Prop) (data : list Bar)
  (params : Params) (r : StrategyResult) :
  P (initial (or_default (initialCapital params) (Fin 10000))) ->
  (forall d s s', In d data -> round (close d) s s' -> P s -> P s') ->
  meanReversionStrategy data params = Ok r ->
  exists s, P s /\ trades r = s_trades s /\ portfolioValues r = s_values s /\
            exists d, In d data /\ finalValue r = position s * close d + cash s.
Proof.
  intros H0 Hstep. unfold meanReversionStrategy.
  destruct (from_period _ _ _ _) as [s|] eqn:Es; cbn [bind]; [|discriminate].
  assert (Hs : P s).
  { eapply (from_period_invariant P); [|apply H0|exact Es].
    intros n s0 i s1 Hs0 E.
    destruct (meanReversion_body_round _ _ _ _ _ E) as (di & Hdi & Hr).
    exact (Hstep _ _ _ (nth_error_In _ _ Hdi) Hr Hs0). }
  destruct (at_index _ _) as [x|] eqn:Ex; cbn [bind]; [|discriminate].
  intros E. injection E as <-. exists s. repeat split; [exact Hs|].
  exists x. split; [|reflexivity].
  exact (nth_error_In _ _ (at_index_nth _ _ Ex)).
Qed.

Lemma macd_result (P : State -> Prop) (data : list Bar) (params : Params)
  (r : StrategyResult) :
  P (initial (or_default (initialCapital params) (Fin 10000))) ->
  (forall d s s', In d data -> round (close d) s s' -> P s -> P s') ->
  macdStrategy data params = Ok r ->
  exists s, P s /\ trades r = s_trades s /\ portfolioValues r = s_values s /\
            exists d, In d data /\ finalValue r = position s * close d + cash s.
Proof.
  intros H0 Hstep. unfold macdStrategy.
  destruct (calculateMACD _ _ _ _) as [macdData|] eqn:Em; cbn [bind];
    [|discriminate].
  destruct (calculateMACD_entries _ _ _ _ Em) as [_ Hent].
  destruct (for_each _ _ _) as [s|] eqn:Es; cbn [bind]; [|discriminate].
  assert (Hs : P s).
  { eapply (for_each_invariant P); [|apply H0|exact Es].
    intros s0 i s1 Hs0 E.
    destruct (macd_body_round _ _ _ E) as (m & Hm & Hr & _).
    destruct (proj1 (Hent _ _ Hm)) as (di & Hdi & Ep). rewrite Ep in Hr.
    exact (Hstep _ _ _ (nth_error_In _ _ Hdi) Hr Hs0). }
  destruct (at_index _ _) as [x|] eqn:Ex; cbn [bind]; [|discriminate].
  intros E. injection E as <-. exists s. repeat split; [exact Hs|].
  destruct (proj1 (Hent _ _ (at_index_nth _ _ Ex))) as (di & Hdi & Ep).
  exists di. split; [exact (nth_error_In _ _ Hdi)|]. rewrite Ep. reflexivity.
Qed.

(** Every trade of the momentum, mean-reversion and MACD strategies
    carries a number of shares greater than 0: never 0, a negative
    number or NaN (at a price of 0 it is +Infinity).  On positive
    closing prices, with an initial capital that is missing or a number
    that is not negative, every trade is for a whole number of shares,
    at least one. *)
Theorem trades_have_positive_shares (data : list Bar) (params : Params)
  (r : StrategyResult) :
  momentumStrategy data params = Ok r \/
  meanReversionStrategy data params = Ok r \/
  macdStrategy data params = Ok r ->
  Forall positive_shares (trades r) /\
  (positive_closes data -> nonneg (initialCapital params) ->
   Forall whole_lot (trades r)).
Proof.
  intros H. split.
  - assert (Hs : exists s, Forall positive_shares (s_trades s) /\
                           trades r = s_trades s).
    { destruct H as [H|[H|H]];
        [destruct (@momentum_result
                     (fun s => Forall positive_shares (s_trades s)) data params r)
           as (s & Hs & Et & _)
        |destruct (@meanReversion_result
                     (fun s => Forall positive_shares (s_trades s)) data params r)
           as (s & Hs & Et & _)
        |destruct (@macd_result
                     (fun s => Forall positive_shares (s_trades s)) data params r)
           as (s & Hs & Et & _)];
        try exact H; try (constructor; fail);
        try (intros d s s' _; apply round_positive_shares);
        exists s; split; assumption. }
    destruct Hs as (s & Hs & ->). exact Hs.
  - intros Hpos Hcap.
    destruct (@or_default_nonneg (initialCapital params) 10000 Hcap)
      as (ic & Eic & Hic); [lra|].
    set (P := fun s => solvent s /\ whole_position s /\
                       Forall whole_lot (s_trades s)).
    assert (H0 : P (initial (or_default (initialCapital params) (Fin 10000)))).
    { rewrite Eic. split; [|split].
      - repeat split; simpl; eauto. exists 0%Q. split; [reflexivity|lra].
      - exists 0%Z. reflexivity.
      - constructor. }
    assert (Hstep : forall d s s', In d data -> round (close d) s s' ->
                                   P s -> P s').
    { intros d s s' Hd Hr (Hsol & Hw).
      destruct (proj1 (Forall_forall _ _) Hpos d Hd) as (c & Ec & Hc).
      rewrite Ec in Hr. split.
      - exact (round_solvent Hc Hr Hsol).
      - exact (round_whole_lots Hc Hr Hsol Hw). }
    assert (Hs : exists s, P s /\ trades r = s_trades s).
    { destruct H as [H|[H|H]];
        [destruct (@momentum_result P data params r H0 Hstep H)
           as (s & Hs & Et & _)
        |destruct (@meanReversion_result P data params r H0 Hstep H)
           as (s & Hs & Et & _)
        |destruct (@macd_result P data params r H0 Hstep H)
           as (s & Hs & Et & _)];
        exists s; split; assumption. }
    destruct Hs as (s & (_ & _ & Hs) & ->). exact Hs.
Qed.

(** In exact arithmetic, on positive closing prices the strategies
    never spend more than their cash and never sell short: every point
    of the equity curve and the final value are numbers that are not
    negative. *)
Theorem strategies_stay_solvent
  (name : string) (strategy : list Bar -> Params -> res StrategyResult)
  (data : list Bar) (params : Params) (r : StrategyResult) :
  In (name, strategy) strategies ->
  positive_closes data ->
  nonneg (initialCapital params) ->
  strategy data params = Ok r ->
  Forall (fun pt => exists v, value pt = Fin v /\ (0 <= v)%Q)
    (portfolioValues r) /\
  exists f, finalValue r = Fin f /\ (0 <= f)%Q.
Proof.
  intros Hin Hpos Hcap Hr.
  destruct (@or_default_nonneg (initialCapital params) 10000 Hcap)
    as (ic & Eic & Hic); [lra|].
  assert (Hclose : forall d, In d data -> exists c, close d = Fin c /\ (0 < c)%Q).
  { intros d Hd. exact (proj1 (Forall_forall _ _) Hpos d Hd). }
  assert (H0 : solvent (initial (or_default (initialCapital params) (Fin 10000)))).
  { rewrite Eic. repeat split; simpl; eauto.
    exists 0%Q. split; [reflexivity|lra]. }
  assert (Hstep : forall d s s', In d data -> round (close d) s s' ->
                                 solvent s -> solvent s').
  { intros d s s' Hd. destruct (Hclose d Hd) as (c & -> & Hc).
    apply round_solvent. exact Hc. }
  simpl in Hin.
  destruct Hin as [E|[E|[E|[E|[]]]]];
    apply (f_equal snd) in E; cbn [snd] in E; subst strategy.
  - (* buy and hold *)
    revert Hr. unfold buyAndHoldStrategy. rewrite Eic.
    destruct (at_index data 0) as [d0|] eqn:E0; cbn [bind]; [|discriminate].
    destruct (Hclose d0 (nth_error_In _ _ (at_index_nth _ _ E0)))
      as (p0 & Ep0 & Hp0).
    rewrite Ep0. rewrite (@div_Fin_pos ic p0 Hp0). cbn [Math_floor].
    set (f := inject_Z (Qfloor (ic / p0))).
    assert (Hfl : (f <= ic / p0)%Q) by apply Qfloor_le.
    assert (Hf0 : (0 <= f)%Q).
    { unfold f. change 0%Q with (inject_Z 0). rewrite <- Zle_Qle.
      change 0%Z with (Qfloor 0). apply Qfloor_resp_le.
      apply Qle_shift_div_l; lra. }
    assert (Hcp : (ic == ic / p0 * p0)%Q) by (field; lra).
    assert (Hfp : (f * p0 <= ic)%Q) by nra.
    match goal with
    | |- context [at_index (map ?g data) ?k] =>
        assert (Hall : Forall (fun pt => exists v, value pt = Fin v /\ (0 <= v)%Q)
                         (map g data));
        [|destruct (at_index (map g data) k) as [x|] eqn:Ex; cbn [bind];
          [|discriminate]]
    end.
    { apply Forall_forall. intros pt Hpt. apply in_map_iff in Hpt.
      destruct Hpt as (d & <- & Hd). destruct (Hclose d Hd) as (c & -> & Hc).
      cbn [value mul add sub neg]. eexists. split; [reflexivity|]. nra. }
    intros E. injection E as <-. cbn [portfolioValues finalValue].
    split; [exact Hall|].
    exact (proj1 (Forall_forall _ _) Hall x
             (nth_error_In _ _ (at_index_nth _ _ Ex))).
  - destruct (momentum_result solvent data params H0 Hstep Hr)
      as (s & ((c & Ec & Hc) & (q & Eq & Hq) & Hv) & _ & -> & Hf).
    split; [exact Hv|].
    destruct Hf as [->|(d & Hd & ->)].
    + eauto.
    + destruct (Hclose d Hd) as (p & -> & Hp). rewrite Ec, Eq. cbn [mul add].
      eexists. split; [reflexivity|]. nra.
  - destruct (meanReversion_result solvent data params H0 Hstep Hr)
      as (s & ((c & Ec & Hc) & (q & Eq & Hq) & Hv) & _ & -> & d & Hd & ->).
    split; [exact Hv|].
    destruct (Hclose d Hd) as (p & -> & Hp). rewrite Ec, Eq. cbn [mul add].
    eexists. split; [reflexivity|]. nra.
  - destruct (macd_result solvent data params H0 Hstep Hr)
      as (s & ((c & Ec & Hc) & (q & Eq & Hq) & Hv) & _ & -> & d & Hd & ->).
    split; [exact Hv|].
    destruct (Hclose d Hd) as (p & -> & Hp). rewrite Ec, Eq. cbn [mul add].
    eexists. split; [reflexivity|]. nra.
Qed.

End StrategyResults.

(** The momentum strategy on the sample series trades whole lots. *)
Lemma trades_have_positive_shares_witness :
  exists r,
    Backtest.momentumStrategy MomentumInputs.series
      MomentumInputs.two_day_average = Ok r /\
    Forall whole_lot (Backtest.trades r).
Proof.
  eexists. split; [vm_compute; reflexivity|].
  refine (proj2 (@trades_have_positive_shares Sample.math MomentumInputs.series
                   MomentumInputs.two_day_average _ _)
            sample_series_positive _).
  - left. vm_compute. reflexivity.
  - first [exact I|discriminate].
Defined.

(** The momentum strategy on the sample series ends with a value that
    is not negative. *)
Lemma strategies_stay_solvent_witness :
  exists r,
    Backtest.momentumStrategy MomentumInputs.series
      MomentumInputs.two_day_average = Ok r /\
    exists f, Backtest.finalValue r = Fin f /\ (0 <= f)%Q.
Proof.
  eexists. split; [vm_compute; reflexivity|].
  refine (proj2 (@strategies_stay_solvent Sample.math "momentum"%string
                   Backtest.momentumStrategy MomentumInputs.series
                   MomentumInputs.two_day_average _ _ _ _ _)).
  - right. left. reflexivity.
  - exact sample_series_positive.
  - discriminate.
  - vm_compute. reflexivity.
Defined.

Section EquityCurve.
Import Backtest Rounds.
Context {M : Math}.
Variable generateHistoricalData : list Bar.
Open Scope js_scope.

Lemma counted_initial (ic : num) : counted (initial ic).
Proof. unfold counted, points. simpl. lia. Qed.

Lemma macd_points (macdData : list Macd) (s s' : State) :
  (forall m, nth_error macdData 0 = Some m -> truthy_opt (signal m) = false) ->
  for_each (seq 0 (List.length macdData)) (macd_body macdData) s = Ok s' ->
  (points s' <= points s + (List.length macdData - 1))%nat.
Proof.
  intros H0. destruct macdData as [|m0 rest].
  { simpl. intros E. injection E as <-. lia. }
  cbn [List.length seq for_each].
  destruct (macd_body (m0 :: rest) s 0) as [s1|] eqn:E1; cbn [bind];
    [|discriminate].
  destruct (macd_body_round _ _ _ E1) as (m & Hm & _ & Hskip).
  rewrite (Hskip (H0 m Hm)).
  intros E.
  pose proof (for_each_grows_at_most points (macd_body (m0 :: rest))) as Hg.
  specialize (Hg (fun s i s' Es =>
                    match macd_body_round _ _ _ Es with
                    | ex_intro _ m (conj _ (conj Hr _)) => round_point Hr
                    end)).
  specialize (Hg _ _ _ E). rewrite length_seq in Hg. simpl. lia.
Qed.

(** The equity curve against the series: one point per bar for buy and
    hold; one per bar from the look-back period on for momentum and mean
    reversion; for MACD the first bar never gets a point.  The looped
    strategies trade at most once per point. *)
Theorem equity_curve_lengths (data : list Bar) (params : Params)
  (r : StrategyResult) :
  (buyAndHoldStrategy data params = Ok r ->
   List.length (portfolioValues r) = List.length data) /\
  (forall n, as_index (or_default (maPeriod params) (Fin 20)) = Some n ->
   momentumStrategy data params = Ok r ->
   List.length (portfolioValues r) = (List.length data - n)%nat /\
   (List.length (trades r) <= List.length (portfolioValues r))%nat) /\
  (forall n, as_index (or_default (lookback params) (Fin 20)) = Some n ->
   meanReversionStrategy data params = Ok r ->
   List.length (portfolioValues r) = (List.length data - n)%nat /\
   (List.length (trades r) <= List.length (portfolioValues r))%nat) /\
  (macdStrategy data params = Ok r ->
   (List.length (portfolioValues r) < List.length data)%nat /\
   (List.length (trades r) <= List.length (portfolioValues r))%nat).
Proof.
  split; [|split; [|split]].
  - unfold buyAndHoldStrategy.
    destruct (at_index data 0) as [d0|]; cbn [bind]; [|discriminate].
    match goal with
    | |- context [at_index (map ?g data) ?k] =>
        destruct (at_index (map g data) k) as [x|]; cbn [bind]; [|discriminate]
    end.
    intros E. injection E as <-. cbn [portfolioValues]. apply length_map.
  - intros n Hn Hr. split.
    + revert Hr. unfold momentumStrategy.
      destruct (from_period _ _ _ _) as [s|] eqn:Es; cbn [bind]; [|discriminate].
      pose proof (@from_period_points data _ n _ _ _
                    (fun n s i s' => @momentum_body_point data _ n s i s')
                    Hn Es) as Hp.
      destruct (if position s >? Fin 0 then _ else _) as [c|]; cbn [bind];
        [|discriminate].
      intros E. injection E as <-. exact Hp.
    + destruct (@momentum_result counted data params r (counted_initial _)
                  (fun d s s' _ => @round_counted (close d) s s') Hr)
        as (s & Hs & -> & -> & _). exact Hs.
  - intros n Hn Hr. split.
    + revert Hr. unfold meanReversionStrategy.
      destruct (from_period _ _ _ _) as [s|] eqn:Es; cbn [bind]; [|discriminate].
      pose proof (@from_period_points data _ n _ _ _
                    (fun n s i s' => @meanReversion_body_point M data _ n s i s')
                    Hn Es) as Hp.
      destruct (at_index _ _) as [x|]; cbn [bind]; [|discriminate].
      intros E. injection E as <-. exact Hp.
    + destruct (@meanReversion_result M counted data params r (counted_initial _)
                  (fun d s s' _ => @round_counted (close d) s s') Hr)
        as (s & Hs & -> & -> & _). exact Hs.
  - intros Hr. split.
    + revert Hr. unfold macdStrategy.
      destruct (calculateMACD _ _ _ _) as [macdData|] eqn:Em; cbn [bind];
        [|discriminate].
      destruct (calculateMACD_entries _ _ _ _ Em) as [Hlen Hent].
      destruct (for_each _ _ _) as [s|] eqn:Es; cbn [bind]; [|discriminate].
      pose proof (@macd_points macdData _ _
                    (fun m Hm => proj2 (Hent 0%nat m Hm) eq_refl) Es) as Hp.
      destruct (at_index _ _) as [x|] eqn:Ex; cbn [bind]; [|discriminate].
      intros E. injection E as <-. cbn [portfolioValues].
      apply at_index_nth in Ex.
      assert (List.length macdData <> 0)%nat
        by (destruct macdData; [destruct (List.length [] - 1)%nat|]; discriminate).
      unfold points in Hp. simpl in Hp. lia.
    + destruct (@macd_result counted data params r (counted_initial _)
                  (fun d s s' _ => @round_counted (close d) s s') Hr)
        as (s & Hs & -> & -> & _). exact Hs.
Qed.

(** A single loaded bar: the MACD loop skips it, the equity curve is
    empty and the run ends in the TypeError of the metrics. *)
Theorem macd_single_bar_backtest_fails (this : Engine) (d : Bar)
  (params : Params) :
  historicalData this = [d] ->
  (exists f, macdStrategy [d] params =
               Ok {| trades := []; portfolioValues := []; finalValue := f |}) /\
  runBacktest generateHistoricalData this "macdCrossover" params =
    (this, Throw undefined_read).
Proof.
  destruct this as [data results0]. cbn [historicalData]. intros ->.
  assert (Hm : exists f, macdStrategy [d] params =
               Ok {| trades := []; portfolioValues := []; finalValue := f |}).
  { unfold macdStrategy, calculateMACD.
    cbn [map calculateEMA ema_from indexed List.length seq combine map_res
         at_index nth_error bind macd elem to_num m_date m_price for_each].
    unfold macd_body.
    cbn [at_index nth_error bind signal truthy_opt].
    rewrite sub_self_falsy. cbn [negb bind Nat.sub at_index nth_error].
    eexists. reflexivity. }
  split; [exact Hm|]. destruct Hm as [f Hm].
  unfold runBacktest. cbn [lookup_strategy strategies find fst snd String.eqb
                             Ascii.eqb Bool.eqb historicalData results].
  rewrite Hm. cbn [bind].
  rewrite calculatePerformanceMetrics_no_values by reflexivity. reflexivity.
Qed.

End EquityCurve.

(** Six bars under a two-day average: four points on the curve. *)
Lemma equity_curve_lengths_witness :
  exists r,
    Backtest.momentumStrategy MomentumInputs.series
      MomentumInputs.two_day_average = Ok r /\
    List.length (Backtest.portfolioValues r) = 4%nat.
Proof.
  eexists. split; [vm_compute; reflexivity|].
  apply (proj1 (proj2 (@equity_curve_lengths Sample.math MomentumInputs.series
                         MomentumInputs.two_day_average _)) 2%nat).
  - reflexivity.
  - vm_compute. reflexivity.
Defined.

(** One loaded bar under the MACD strategy: the TypeError. *)
Lemma macd_single_bar_backtest_fails_witness :
  Backtest.runBacktest (M := Sample.math) []
    {| Backtest.historicalData := [BuyAndHoldInputs.day0];
       Backtest.results := None |}
    "macdCrossover" BuyAndHoldInputs.no_params
  = ({| Backtest.historicalData := [BuyAndHoldInputs.day0];
        Backtest.results := None |},
     Throw undefined_read).
Proof.
  apply (@macd_single_bar_backtest_fails Sample.math []
           {| Backtest.historicalData := [BuyAndHoldInputs.day0];
              Backtest.results := None |}
           BuyAndHoldInputs.day0 BuyAndHoldInputs.no_params).
  reflexivity.
Defined.

Section FinalValue.
Import Backtest Rounds.
Context {M : Math}.
Open Scope js_scope.






Lemma eqb_refl_Fin (q : Q) : (Fin q === Fin q) = true.
Proof. apply eqb_Fin_true. reflexivity. Qed.





End FinalValue.


(* ------------------------------------------------------------------ *)
(** ** BacktestEngine: moving averages and the synthetic series *)
(* ------------------------------------------------------------------ *)

Section Averages.
Import Backtest.
Open Scope Q_scope.

(** A convex combination stays between its arguments. *)
Lemma ema_from_within (k lo hi prev : Q) (rest : list Q) :
  0 <= k <= 1 -> lo <= prev <= hi ->
  Forall (fun q => lo <= q <= hi) rest ->
  exists es,
    ema_from (Fin k) (Fin prev) (map Fin rest) = map Fin es /\
    List.length es = List.length rest /\
    Forall (fun e => lo <= e <= hi) es.
Proof.
  intros Hk Hprev Hrest. revert prev Hprev.
  induction Hrest as [|x rest Hx _ IH]; intros prev Hprev.
  - exists []. repeat split. constructor.
  - cbn [map ema_from mul add sub neg].
    assert (He : lo <= x * k + prev * (1 + - k) <= hi) by nra.
    destruct (IH _ He) as (es & -> & Hl & Hes).
    exists ((x * k + prev * (1 + - k)) :: es).
    split; [reflexivity|]. split; [simpl; lia|]. constructor; assumption.
Qed.

(** In exact arithmetic, for a period of at least 1 the exponential
    moving average starts at the first price and stays within the range
    of the prices. *)
Theorem calculateEMA_within (period lo hi x : Q) (rest : list Q) :
  1 <= period ->
  Forall (fun q => lo <= q <= hi) (x :: rest) ->
  exists es,
    calculateEMA (map Fin (x :: rest)) (Fin period)
    = map (fun e => Some (Fin e)) (x :: es) /\
    List.length es = List.length rest /\
    Forall (fun e => lo <= e <= hi) (x :: es).
Proof.
  intros Hp Hall. unfold calculateEMA. cbn [map add].
  assert (Hp1 : 0 < period + 1) by lra.
  rewrite (div_Fin_pos 2 Hp1).
  assert (Hk : 0 <= 2 / (period + 1) <= 1).
  { split.
    - apply Qle_shift_div_l; lra.
    - apply Qle_shift_div_r; lra. }
  destruct (@ema_from_within (2 / (period + 1)) lo hi x rest Hk
              (Forall_inv Hall) (Forall_inv_tail Hall)) as (es & -> & Hl & Hes).
  exists es. split; [|split; [exact Hl|]].
  - rewrite map_map. reflexivity.
  - constructor; [exact (Forall_inv Hall)|exact Hes].
Qed.

End Averages.

(** Three prices from 10 to 30 under a period of 3. *)
Lemma calculateEMA_within_witness :
  exists es,
    Backtest.calculateEMA [Fin 10; Fin 20; Fin 30] (Fin 3)
    = map (fun e => Some (Fin e)) (10 :: es) /\
    List.length es = 2%nat /\
    Forall (fun e => 10 <= e <= 30)%Q (10 :: es).
Proof.
  apply (@calculateEMA_within 3 10 30 10 [20; 30]).
  - discriminate.
  - repeat constructor; discriminate.
Defined.

Section SyntheticSeries.
Import Backtest Synthetic Bars.
Context {M : Math}.
Variable isoDate : num -> nat -> res string.
Hypothesis draws : uniform_draws.
Open Scope Q_scope.

Lemma generate_from_bars (days : num) (v : Q) (n : nat) :
  0 <= v <= 1 ->
  forall (p : Q) (i c : nat) (data : list Bar),
    0 < p ->
    generate_from isoDate days (Fin v) (Fin p) i c n = Ok data ->
    List.length data = n /\ Forall well_formed data.
Proof.
  intros Hv. induction n as [|n IH]; intros p i c data Hp.
  - simpl. intros E. injection E as <-. split; [reflexivity|constructor].
  - cbn [generate_from].
    destruct (draws c) as (u0 & -> & Hu0).
    destruct (draws (c + 2)%nat) as (u2 & -> & Hu2).
    destruct (draws (c + 3)%nat) as (u3 & -> & Hu3).
    destruct (draws (c + 4)%nat) as (u4 & -> & Hu4).
    cbn [mul add sub neg].
    destruct (isoDate days i) as [d|]; cbn [bind]; [|discriminate].
    match goal with
    | |- context [generate_from _ _ _ (Fin ?e)] => set (p' := e) in *
    end.
    assert (Hp' : 0 < p').
    { unfold p'. apply Qmult_lt_0_compat; [exact Hp|]. nra. }
    clearbody p'.
    destruct (generate_from _ _ _ _ _ _ _) as [rest|] eqn:Er; cbn [bind];
      [|discriminate].
    destruct (IH _ _ _ _ Hp' Er) as [Hl Hw].
    intros E. injection E as <-. split; [simpl; lia|].
    constructor; [|exact Hw].
    do 4 eexists. cbn [open high low close].
    repeat (split; [reflexivity|]). clear IH Er.
    repeat split; nra.
Qed.

(** The synthetic series, in exact arithmetic: as many bars as rounds
    of the loop, each well formed; in particular every close is
    positive. *)
Theorem generateHistoricalData_bars (days startPrice volatility : option num)
  (data : list Bar) :
  match startPrice with
  | None => True
  | Some (Fin p) => 0 < p
  | Some _ => False
  end ->
  match volatility with
  | None => True
  | Some (Fin v) => 0 <= v <= 1
  | Some _ => False
  end ->
  generateHistoricalData isoDate days startPrice volatility
  = MonteCarlo.Returns (Ok data) ->
  MonteCarlo.rounds (match days with Some d => d | None => Fin 252 end)
  = Some (List.length data) /\
  Forall well_formed data.
Proof.
  intros Hp Hv. unfold generateHistoricalData.
  set (d := match days with Some d => d | None => Fin 252 end).
  assert (Ep : exists p, match startPrice with Some p => p | None => Fin 100 end
                         = Fin p /\ 0 < p).
  { destruct startPrice as [[| | |p]|]; try contradiction; eauto.
    exists 100. split; reflexivity. }
  assert (Ev : exists v, match volatility with Some v => v | None => Fin 0.02 end
                         = Fin v /\ 0 <= v <= 1).
  { destruct volatility as [[| | |v]|]; try contradiction; eauto.
    exists 0.02. split; [reflexivity|lra]. }
  destruct Ep as (p & -> & Hp'), Ev as (v & -> & Hv').
  destruct (MonteCarlo.rounds d) as [n|].
  - intros E. injection E as E.
    destruct (generate_from_bars d n Hv' _ _ Hp' E) as [Hl Hw].
    rewrite Hl. split; [reflexivity|exact Hw].
  - destruct (isoDate d 0); discriminate.
Qed.

End SyntheticSeries.

(** Two synthetic days from the defaults. *)
Lemma generateHistoricalData_bars_witness :
  exists data,
    Synthetic.generateHistoricalData (M := Sample.math)
      SyntheticInputs.isoDate (Some (Fin 2)) None None
    = MonteCarlo.Returns (Ok data) /\
    Forall Bars.well_formed data.
Proof.
  eexists. split; [vm_compute; reflexivity|].
  apply (@generateHistoricalData_bars Sample.math SyntheticInputs.isoDate
           sample_draws (Some (Fin 2)) None None).
  - exact I.
  - exact I.
  - vm_compute. reflexivity.
Defined.

(* ------------------------------------------------------------------ *)
(** ** The drawdown loop *)
(* ------------------------------------------------------------------ *)

Section Drawdown.
Import Analyzer Decline.
Open Scope Q_scope.

Lemma decline_range (a b : Q) : 0 < b -> b <= a -> 0 <= decline a b < 1.
Proof.
  intros Hb Hab. unfold decline. split.
  - apply Qle_shift_div_l; lra.
  - apply Qlt_shift_div_r; lra.
Qed.

(** From a higher start the decline to the same value is larger. *)
Lemma decline_mono (a p b : Q) :
  0 < a -> a <= p -> 0 < b -> decline a b <= decline p b.
Proof.
  intros Ha Hap Hb. unfold decline.
  apply Qle_shift_div_l; [lra|].
  assert (E : (a - b) / a * p == (a - b) * p / a) by (field; lra).
  rewrite E. apply Qle_shift_div_r; [lra|]. nra.
Qed.

Lemma tracked_step (l : list Q) (peak dd x : Q) :
  tracked l peak dd -> 0 < x ->
  exists peak' dd',
    drawdown_step (Fin peak, Fin dd) (Fin x) = (Fin peak', Fin dd') /\
    tracked (l ++ [x]) peak' dd'.
Proof.
  intros (Hp & Hdd & Hall & (ip & Hip) & Hup & (i0 & j0 & a0 & b0 & Hij0 & Ha0 & Hb0 & E0)) Hx.
  unfold drawdown_step.
  set (peak' := if Qlt_le_dec peak x then x else peak).
  assert (Epeak : (if gtb (Fin x) (Fin peak) then Fin x else Fin peak) = Fin peak').
  { unfold gtb, peak'. destruct (Qlt_le_dec peak x) as [H|H].
    - rewrite (ltb_Fin_true H). reflexivity.
    - rewrite (ltb_Fin_false H). reflexivity. }
  rewrite Epeak.
  assert (Hp' : peak <= peak' /\ x <= peak' /\ 0 < peak').
  { unfold peak'. destruct (Qlt_le_dec peak x); repeat split; lra. }
  destruct Hp' as (Hpp & Hxp & Hp0).
  cbn [sub add neg]. rewrite (div_Fin_pos _ Hp0).
  change ((peak' + - x) / peak') with (decline peak' x).
  pose proof (decline_range Hx Hxp) as Hd.
  set (dd' := if Qlt_le_dec dd (decline peak' x) then decline peak' x else dd).
  assert (Edd : (if gtb (Fin (decline peak' x)) (Fin dd)
                 then Fin (decline peak' x) else Fin dd) = Fin dd').
  { unfold gtb, dd'. destruct (Qlt_le_dec dd (decline peak' x)) as [H|H].
    - rewrite (ltb_Fin_true H). reflexivity.
    - rewrite (ltb_Fin_false H). reflexivity. }
  rewrite Edd. exists peak', dd'. split; [reflexivity|].
  assert (Hdd' : dd <= dd' /\ decline peak' x <= dd' /\ 0 <= dd' < 1).
  { unfold dd'. destruct (Qlt_le_dec dd (decline peak' x)); repeat split; lra. }
  destruct Hdd' as (Hd1 & Hd2 & Hd3).
  assert (Hall' : Forall (fun y => 0 < y <= peak') (l ++ [x])).
  { apply Forall_app. split.
    - eapply Forall_impl; [|exact Hall]. simpl. intros y Hy. lra.
    - constructor; [lra|constructor]. }
  assert (Hpeak' : exists i, nth_error (l ++ [x]) i = Some peak').
  { unfold peak'. destruct (Qlt_le_dec peak x).
    - exists (List.length l). rewrite nth_error_app2 by lia.
      rewrite Nat.sub_diag. reflexivity.
    - exists ip. rewrite nth_error_app1; [exact Hip|].
      apply nth_error_Some. congruence. }
  repeat split; try assumption; try lra.
  - (* every decline is at most dd' *)
    intros i j a b Hij Ha Hb.
    destruct (Nat.lt_ge_cases j (List.length l)) as [Hj|Hj].
    + rewrite nth_error_app1 in Ha, Hb by lia.
      pose proof (Hup i j a b Hij Ha Hb). lra.
    + assert (Ej : j = List.length l).
      { assert (j < List.length (l ++ [x]))%nat
          by (apply nth_error_Some; congruence).
        rewrite length_app in H. simpl in H. lia. }
      subst j. rewrite nth_error_app2, Nat.sub_diag in Hb by lia.
      injection Hb as <-.
      pose proof (proj1 (Forall_forall _ _) Hall' a (nth_error_In _ _ Ha)) as Ha'.
      simpl in Ha'.
      pose proof (@decline_mono a peak' x). lra.
  - (* and it is attained *)
    unfold dd'. destruct (Qlt_le_dec dd (decline peak' x)).
    + destruct Hpeak' as [i Hi].
      exists i, (List.length l), peak', x.
      split; [|split; [exact Hi|split; [|reflexivity]]].
      * assert (i < List.length (l ++ [x]))%nat
          by (apply nth_error_Some; congruence).
        rewrite length_app in H. simpl in H. lia.
      * rewrite nth_error_app2, Nat.sub_diag by lia. reflexivity.
    + exists i0, j0, a0, b0.
      assert (j0 < List.length l)%nat by (apply nth_error_Some; congruence).
      rewrite !nth_error_app1 by lia. repeat split; assumption.
Qed.

Lemma tracked_fold (rest l : list Q) (peak dd : Q) :
  tracked l peak dd -> Forall (fun x => 0 < x) rest ->
  exists peak' dd',
    fold_left drawdown_step (map Fin rest) (Fin peak, Fin dd)
    = (Fin peak', Fin dd') /\
    tracked (l ++ rest) peak' dd'.
Proof.
  intros Ht Hrest. revert l peak dd Ht.
  induction Hrest as [|x rest Hx _ IH]; intros l peak dd Ht.
  - exists peak, dd. rewrite app_nil_r. split; [reflexivity|exact Ht].
  - cbn [map fold_left].
    destruct (tracked_step Ht Hx) as (p1 & d1 & -> & Ht1).
    destruct (IH _ _ _ Ht1) as (p2 & d2 & E & Ht2).
    exists p2, d2. rewrite <- app_assoc in Ht2. split; assumption.
Qed.

(** The loop started as the callers start it: the peak is the first
    entry, the maximum is 0, and every entry is visited. *)
Lemma drawdown_loop (v : Q) (vs : list Q) :
  Forall (fun x => 0 < x) (v :: vs) ->
  exists dd,
    snd (fold_left drawdown_step (map Fin (v :: vs)) (Fin v, Fin 0)) = Fin dd /\
    0 <= dd < 1 /\ worst_decline (v :: vs) dd.
Proof.
  intros Hall.
  pose proof (Forall_inv Hall) as Hv. simpl in Hv.
  assert (H1 : drawdown_step (Fin v, Fin 0) (Fin v) = (Fin v, Fin 0)).
  { unfold drawdown_step, gtb.
    rewrite (@ltb_Fin_false v v) by lra.
    cbn [sub add neg]. rewrite (div_Fin_pos _ Hv).
    rewrite ltb_Fin_false; [reflexivity|].
    assert ((v + - v) / v == 0) by (field; lra). lra. }
  cbn [map fold_left]. rewrite H1.
  assert (Ht1 : tracked [v] v 0).
  { repeat split; try lra.
    - constructor; [simpl; lra|constructor].
    - exists 0%nat. reflexivity.
    - intros i j a b Hij Ha Hb.
      destruct j as [|[|j]]; try discriminate.
      assert (i = 0)%nat by lia. subst i.
      injection Ha as <-. injection Hb as <-.
      unfold decline. assert ((v - v) / v == 0) by (field; lra). lra.
    - exists 0%nat, 0%nat, v, v. repeat split; try reflexivity.
      unfold decline. field. lra. }
  destruct (tracked_fold Ht1 (Forall_inv_tail Hall)) as (p & dd & E & Hp).
  exists dd. rewrite E. split; [reflexivity|].
  destruct Hp as (_ & Hdd & _ & _ & Hw). split; assumption.
Qed.

(** In exact arithmetic the maximum drawdown of a path of positive
    values is its largest relative decline from a value to a later one,
    a number in [0,1). *)
Theorem calculateMaxDrawdown_worst_decline (v : Q) (vs : list Q) :
  Forall (fun x => 0 < x) (v :: vs) ->
  exists dd,
    MonteCarlo.calculateMaxDrawdown (map Fin (v :: vs)) = Fin dd /\
    0 <= dd < 1 /\ worst_decline (v :: vs) dd.
Proof. intros Hall. exact (drawdown_loop Hall). Qed.

End Drawdown.

(** A path that rises to 120 and falls to 90: the drawdown is between
    0 and 1. *)
Lemma calculateMaxDrawdown_worst_decline_witness :
  exists dd,
    MonteCarlo.calculateMaxDrawdown [Fin 100; Fin 120; Fin 90; Fin 110] = Fin dd /\
    (0 <= dd < 1)%Q /\ Decline.worst_decline [100; 120; 90; 110] dd.
Proof.
  apply (@calculateMaxDrawdown_worst_decline 100 [120; 90; 110]).
  repeat constructor.
Defined.

Section PortfolioDrawdown.
Import Analyzer Decline Holdings.
Context {M : Math}.
Hypothesis draws : uniform_draws.
Open Scope Q_scope.

(** Each simulated day moves the value by less than one percent. *)
Lemma simulate_from_positive (days : nat) :
  forall (last : Q) (i : nat),
    0 < last ->
    exists qs,
      simulate_from (Fin last) i days = map Fin qs /\
      Forall (fun x => 0 < x) qs.
Proof.
  induction days as [|days IH]; intros last i Hl.
  - exists []. split; [reflexivity|constructor].
  - cbn [simulate_from].
    destruct (draws (i - 1)%nat) as (u & -> & Hu).
    cbn [sub add neg mul].
    match goal with
    | |- context [simulate_from (Fin ?e)] => set (v := e)
    end.
    assert (Hv : 0 < v) by (unfold v; nra).
    destruct (IH v (S i) Hv) as (qs & -> & Hqs).
    exists (v :: qs). split; [reflexivity|]. constructor; assumption.
Qed.

(** With draws in [0,1) the simulated history of a portfolio of
    positive value stays positive, and the reported maximum drawdown is
    its worst decline, a number in [0,1). *)
Theorem portfolio_maxDrawdown_range (portfolio : list Asset)
  (marketData : option MarketData) :
  portfolio <> [] -> Forall positive_value portfolio ->
  exists dd,
    maxDrawdown (metrics (analyzePortfolio (Some portfolio) marketData))
    = Fin dd /\ 0 <= dd < 1.
Proof.
  intros Hne Hp.
  destruct portfolio as [|a rest]; [congruence|].
  cbn [analyzePortfolio metrics maxDrawdown].
  unfold calculateMaxDrawdown, simulateHistoricalValues.
  rewrite (total_value_fold Hp 0 : calculateTotalValue _ = _).
  set (T := sumq (map value_of (a :: rest)) 0).
  assert (HT : 0 < T).
  { apply sumq_pos; [apply values_positive, Hp|lra|discriminate]. }
  destruct (@simulate_from_positive (252 - 1) T 1 HT) as (qs & -> & Hqs).
  cbn [nth_error to_num].
  destruct (@drawdown_loop T qs) as (dd & E & Hdd & _).
  { constructor; assumption. }
  exists dd. split; [exact E|exact Hdd].
Qed.

End PortfolioDrawdown.

(** The two sample holdings under the sample draws. *)
Lemma portfolio_maxDrawdown_range_witness :
  exists dd,
    Analyzer.maxDrawdown
      (Analyzer.metrics
         (Analyzer.analyzePortfolio (M := Sample.math)
            (Some Holdings.fifty_fifty) None))
    = Fin dd /\ (0 <= dd < 1)%Q.
Proof.
  apply (@portfolio_maxDrawdown_range Sample.math sample_draws
           Holdings.fifty_fifty None).
  - discriminate.
  - exact fifty_fifty_positive.
Defined.

(* ------------------------------------------------------------------ *)
(** ** MonteCarloSimulator: the sampled paths and the confidence interval *)
(* ------------------------------------------------------------------ *)

Section SampledPaths.
Import MonteCarlo.
Context {M : Math}.

Lemma simulate_days_path (p : Portfolio) (days : nat) :
  forall (v : num) (path : list num) (c : nat),
    let '(_, path', _) := simulate_days p days (v, path, c) in
    List.length path' = (List.length path + days)%nat /\
    (path <> [] -> nth_error path' 0 = nth_error path 0).
Proof.
  induction days as [|days IH]; intros v path c.
  - simpl. split; [lia|reflexivity].
  - cbn [simulate_days].
    destruct (generateRandomNormal c) as [shock c1].
    destruct (generateJumpSize c1) as [jump c2].
    match goal with
    | |- context [simulate_days p days (?v', ?path', ?c')] =>
        specialize (IH v' path' c');
        destruct (simulate_days p days (v', path', c')) as [[v2 path2] c3]
    end.
    destruct IH as [Hl Hh]. rewrite length_app in Hl. simpl in Hl.
    split; [lia|].
    intros Hne. rewrite Hh by (destruct path; discriminate).
    destruct path; [congruence|reflexivity].
Qed.

Lemma simulate_runs_paths (p : Portfolio) (days sims : nat) :
  forall (rs : list Run) (c : nat),
    Forall (fun r => path_shape (to_num (currentValue p)) days (path r)) rs ->
    Forall (fun r => path_shape (to_num (currentValue p)) days (path r))
      (fst (simulate_runs p days sims (rs, c))).
Proof.
  induction sims as [|sims IH]; intros rs c Hrs; [exact Hrs|].
  cbn [simulate_runs].
  pose proof (simulate_days_path p days (to_num (currentValue p))
                [to_num (currentValue p)] c) as Hd.
  destruct (simulate_days p days _) as [[v pth] c'].
  apply IH. apply Forall_app. split; [exact Hrs|].
  constructor; [|constructor]. cbn [path].
  destruct Hd as [Hl Hh]. split; [simpl in Hl; lia|].
  rewrite Hh by discriminate. reflexivity.
Qed.

Lemma Forall_firstn_of {A} (P : A -> Prop) (k : nat) (l : list A) :
  Forall P l -> Forall P (firstn k l).
Proof.
  intros H. revert k. induction H as [|a l Ha _ IH]; intros k.
  - rewrite firstn_nil. constructor.
  - destruct k; simpl; constructor; auto.
Qed.

(** The paths handed to the chart: those of the first hundred runs,
    each starting at the current value and one entry longer than the
    horizon. *)
Theorem sampled_paths_shape (p : Portfolio) (h n : num) (days sims : nat)
  (r : SimulationResult) :
  rounds h = Some days -> rounds n = Some sims ->
  runMonteCarloSimulation p (Some h) (Some n) = Returns r ->
  List.length (paths r) = Nat.min 100 sims /\
  Forall (path_shape (to_num (currentValue p)) days) (paths r) /\
  exists runs,
    List.length runs = sims /\ r = statistics p n runs /\
    paths r = map path (firstn 100 runs).
Proof.
  intros Hh Hn. unfold runMonteCarloSimulation. rewrite Hn.
  destruct sims as [|sims].
  - intros E. injection E as <-. cbn [statistics paths].
    split; [reflexivity|]. split; [constructor|].
    exists []. repeat split.
  - rewrite Hh. intros E.
    assert (E' : r = statistics p n
                       (fst (simulate_runs p days (S sims) ([], 0%nat))))
      by congruence.
    rewrite E'. clear E E'. cbn [statistics paths].
    split; [|split].
    + rewrite length_map, length_firstn, simulate_runs_length. reflexivity.
    + apply Forall_map.
      apply Forall_firstn_of. apply simulate_runs_paths. constructor.
    + eexists. split; [|split; reflexivity].
      rewrite simulate_runs_length. reflexivity.
Qed.

End SampledPaths.

(** Three runs over two days: three paths of three entries. *)
Lemma sampled_paths_shape_witness :
  exists r,
    MonteCarlo.runMonteCarloSimulation (M := Sample.math)
      (MonteCarloInputs.portfolio (Fin 100) (Fin 0.08) (Fin 0.15))
      (Some (Fin 2)) (Some (Fin 3)) = MonteCarlo.Returns r /\
    List.length (MonteCarlo.paths r) = 3%nat.
Proof.
  eexists. split; [reflexivity|].
  apply (proj1 (@sampled_paths_shape Sample.math
                  (MonteCarloInputs.portfolio (Fin 100) (Fin 0.08) (Fin 0.15))
                  (Fin 2) (Fin 3) 2 3 _ eq_refl eq_refl eq_refl)).
Defined.

Section Interval.
Import MonteCarlo Holdings.
Context {M : Math}.
Open Scope Q_scope.

Lemma sorted_nth_le (qs : list Q) (i j : nat) (a b : Q) :
  StronglySorted Qle qs -> (i <= j)%nat ->
  nth_error qs i = Some a -> nth_error qs j = Some b -> a <= b.
Proof.
  intros Hs Hij Ha Hb.
  destruct (Nat.eq_dec i j) as [->|Hne].
  - rewrite Ha in Hb. injection Hb as <-. lra.
  - pose proof (@sorted_prefix_below qs j b Hs Hb) as Hf.
    rewrite Forall_forall in Hf. apply Hf.
    apply (nth_error_In _ i). rewrite nth_error_firstn.
    destruct (Nat.ltb_spec i j); [exact Ha|lia].
Qed.

(** The cut [floor(n * f)] of [n >= 1] runs at a fraction [0 <= f < 1]
    is an index below [n], and grows with the fraction. *)
Lemma cut_index (n : nat) (f : Q) :
  (1 <= n)%nat -> 0 <= f < 1 ->
  (0 <= Qfloor (inject_Z (Z.of_nat n) * f) < Z.of_nat n)%Z.
Proof.
  intros Hn Hf.
  assert (H1 : 1 <= inject_Z (Z.of_nat n)).
  { change 1 with (inject_Z 1). rewrite <- Zle_Qle. lia. }
  split.
  - change 0%Z with (Qfloor 0). apply Qfloor_resp_le. nra.
  - pose proof (Qfloor_le (inject_Z (Z.of_nat n) * f)) as H.
    rewrite Zlt_Qlt. nra.
Qed.

(** With at least one run and finite final values the confidence
    interval is defined and brackets the value at the 5th percentile. *)
Theorem confidenceInterval_brackets (p : Portfolio) (n : nat) (rs : list Run)
  (fs : list Q) :
  (1 <= n)%nat -> List.length rs = n ->
  map finalValue rs = map Fin fs ->
  exists lo v hi,
    confidenceInterval (statistics p (Fin (inject_Z (Z.of_nat n))) rs)
    = (Some (Fin lo), Some (Fin hi)) /\
    VaR95 (statistics p (Fin (inject_Z (Z.of_nat n))) rs) = Some (Fin v) /\
    lo <= v <= hi.
Proof.
  intros Hn Hlen Hfs.
  destruct (sort_asc_Fin fs) as (qs & Es & Hs & Hl).
  assert (Hlq : List.length qs = n).
  { rewrite Hl, <- (length_map Fin fs), <- Hfs, length_map. exact Hlen. }
  pose proof (@cut_index n 0.025 Hn ltac:(lra)) as H1.
  pose proof (@cut_index n 0.05 Hn ltac:(lra)) as H2.
  pose proof (@cut_index n 0.975 Hn ltac:(lra)) as H3.
  assert (Hn0 : 0 <= inject_Z (Z.of_nat n)).
  { change 0 with (inject_Z 0). rewrite <- Zle_Qle. lia. }
  assert (H12 : (Qfloor (inject_Z (Z.of_nat n) * 0.025)
                 <= Qfloor (inject_Z (Z.of_nat n) * 0.05))%Z)
    by (apply Qfloor_resp_le; nra).
  assert (H23 : (Qfloor (inject_Z (Z.of_nat n) * 0.05)
                 <= Qfloor (inject_Z (Z.of_nat n) * 0.975))%Z)
    by (apply Qfloor_resp_le; nra).
  set (k1 := Qfloor (inject_Z (Z.of_nat n) * 0.025)) in *.
  set (k2 := Qfloor (inject_Z (Z.of_nat n) * 0.05)) in *.
  set (k3 := Qfloor (inject_Z (Z.of_nat n) * 0.975)) in *.
  assert (Hdef : forall k, (0 <= k < Z.of_nat n)%Z ->
                           exists x, nth_error qs (Z.to_nat k) = Some x).
  { intros k Hk. destruct (nth_error qs (Z.to_nat k)) eqn:E; [eauto|].
    apply nth_error_None in E. lia. }
  destruct (Hdef k1 H1) as [lo Elo], (Hdef k2 H2) as [v Ev],
    (Hdef k3 H3) as [hi Ehi].
  unfold statistics. cbn [VaR95 confidenceInterval mul Math_floor].
  fold k1 k2 k3. rewrite Hfs, Es.
  rewrite !index_nat by lia.
  rewrite !nth_error_map, Elo, Ev, Ehi. cbn [option_map].
  exists lo, v, hi. split; [reflexivity|]. split; [reflexivity|]. split.
  - apply (@sorted_nth_le qs (Z.to_nat k1) (Z.to_nat k2) lo v Hs);
      [lia|assumption|assumption].
  - apply (@sorted_nth_le qs (Z.to_nat k2) (Z.to_nat k3) v hi Hs);
      [lia|assumption|assumption].
Qed.

End Interval.

(** On the twenty sample runs the interval brackets the value at risk. *)
Lemma confidenceInterval_brackets_witness :
  exists lo v hi,
    MonteCarlo.confidenceInterval
      (MonteCarlo.statistics
         (MonteCarloInputs.portfolio (Fin 100) (Fin 0.08) (Fin 0.15))
         (Fin (inject_Z (Z.of_nat 20))) TailInputs.runs)
    = (Some (Fin lo), Some (Fin hi)) /\
    MonteCarlo.VaR95
      (MonteCarlo.statistics
         (MonteCarloInputs.portfolio (Fin 100) (Fin 0.08) (Fin 0.15))
         (Fin (inject_Z (Z.of_nat 20))) TailInputs.runs) = Some (Fin v) /\
    (lo <= v <= hi)%Q.
Proof.
  apply (@confidenceInterval_brackets
           (MonteCarloInputs.portfolio (Fin 100) (Fin 0.08) (Fin 0.15))
           20 TailInputs.runs TailInputs.finals).
  - lia.
  - reflexivity.
  - reflexivity.
Defined.

(* ------------------------------------------------------------------ *)
(** ** PortfolioRiskAnalyzer: beta, effective number of holdings, one holding *)
(* ------------------------------------------------------------------ *)

Section Beta.
Import Analyzer.
Context {M : Math}.
Open Scope Q_scope.

Lemma clamp_half_two (x : num) :
  Math_min (Fin 2) (Math_max (Fin 0.5) x) = NaN \/
  within 0.5 2 (Math_min (Fin 2) (Math_max (Fin 0.5) x)).
Proof.
  destruct x as [| | |q].
  - left. reflexivity.
  - right. exists 2. split; [reflexivity|lra].
  - right. exists 0.5. split; [reflexivity|lra].
  - right. unfold Math_max.
    destruct (Qlt_le_dec 0.5 q) as [H|H].
    + rewrite (ltb_Fin_true H). unfold Math_min.
      destruct (Qlt_le_dec q 2) as [H'|H'].
      * rewrite (ltb_Fin_true H'). exists q. split; [reflexivity|lra].
      * rewrite (ltb_Fin_false H'). exists 2. split; [reflexivity|lra].
    + rewrite (ltb_Fin_false H). exists 0.5. split; [reflexivity|lra].
Qed.

Lemma calculateBeta_range (returns : list num) (marketData : option MarketData) :
  calculateBeta returns marketData = NaN \/
  within 0.5 2 (calculateBeta returns marketData).
Proof.
  unfold calculateBeta.
  destruct marketData as [md|]; [destruct returns as [|r returns]|].
  - right. exists 1. split; [reflexivity|lra].
  - apply clamp_half_two.
  - right. exists 1. split; [reflexivity|lra].
Qed.

(** The beta of a non-empty portfolio is NaN or a number in [0.5, 2]:
    never 0, so the Treynor ratio is always the quotient of the excess
    of the expected return over the risk-free rate by the beta. *)
Theorem analyzePortfolio_beta (a : Asset) (rest : list Asset)
  (marketData : option MarketData) :
  let m := metrics (analyzePortfolio (Some (a :: rest)) marketData) in
  (beta m = NaN \/ within 0.5 2 (beta m)) /\
  (marketData = None -> beta m = Fin 1) /\
  treynorRatio m = div (sub (expectedReturn m) riskFreeRate) (beta m).
Proof.
  cbn [analyzePortfolio metrics beta treynorRatio expectedReturn].
  set (returns := calculateReturns (a :: rest)).
  assert (Hr : returns <> []) by discriminate.
  split; [apply calculateBeta_range|]. split.
  - intros ->. reflexivity.
  - unfold calculateTreynorRatio, calculateExpectedReturn.
    destruct returns as [|r returns]; [congruence|].
    destruct (calculateBeta_range (r :: returns) marketData) as [E|(b & E & Hb)];
      rewrite E.
    + reflexivity.
    + rewrite (@eqb_Fin_false b 0) by lra. reflexivity.
Qed.

End Beta.

Section EffectiveNumber.
Import Analyzer Holdings.
Open Scope Q_scope.

Lemma sumsq_acc (l : list Q) (a : Q) : sumsq l a == a + sumsq l 0.
Proof.
  revert a. induction l as [|w l IH]; intros a; simpl.
  - ring.
  - rewrite (IH (a + w * w)), (IH (0 + w * w)). ring.
Qed.



Context {M : Math}.




End EffectiveNumber.



Section SingleHolding.
Import Analyzer.
Context {M : Math}.

(** One holding gives one return, hence volatility 0: the analysis of a
    one-asset portfolio always reports a Sharpe ratio of 0, lists "Low
    Volatility" among the strengths and "Poor Risk-Adjusted Returns"
    among the weaknesses, and gives a beta of 0.5 under a market
    context (1 without). *)
Theorem single_holding_analysis (a : Asset) (marketData : option MarketData) :
  let r := analyzePortfolio (Some [a]) marketData in
  volatility (metrics r) = Fin 0 /\
  sharpeRatio (metrics r) = Fin 0 /\
  beta (metrics r) =
    match marketData with Some _ => Fin 0.5 | None => Fin 1 end /\
  In "Low Volatility"%string (map category (pros (prosAndCons r))) /\
  In "Poor Risk-Adjusted Returns"%string (map category (cons (prosAndCons r))).
Proof.
  cbn zeta.
  cbn [analyzePortfolio metrics volatility sharpeRatio beta prosAndCons].
  assert (Ev : calculateVolatility (calculateReturns [a]) = Fin 0)
    by (apply calculateVolatility_short; simpl; lia).
  rewrite Ev.
  assert (Es : calculateSharpeRatio (calculateReturns [a]) (Some (Fin 0)) = Fin 0)
    by (apply calculateSharpeRatio_guard; reflexivity).
  rewrite Es.
  split; [reflexivity|]. split; [reflexivity|]. split.
  - unfold calculateBeta. rewrite Ev.
    destruct marketData; reflexivity.
  - unfold evaluatePortfolio. cbn [pros cons].
    change (gtb (Fin 0) (Fin 1)) with false.
    change (ltb (Fin 0) (Fin 0.15)) with true.
    change (ltb (Fin 0) (Fin 0.5)) with true.
    cbv iota. split.
    + rewrite !map_app. apply in_or_app. right.
      apply in_or_app. right. apply in_or_app. left. left. reflexivity.
    + rewrite !map_app. apply in_or_app. right.
      apply in_or_app. left. left. reflexivity.
Qed.

End SingleHolding.

(* ------------------------------------------------------------------ *)
(** ** The quantitative analysis page: regimes and percentile bands *)
(* ------------------------------------------------------------------ *)

Section Regimes.
Import QuantUI.
Context {M : Math}.
Open Scope Q_scope.

(** The four reported probabilities: the current regime has the largest
    one, and they add up to 1.1, 0.9, 0.95 or 1.25, never to 1. *)
Theorem regime_probabilities (marketData : MarketInput) :
  let r := performRegimeAnalysis marketData in
  exists q n v c,
    probabilities r =
      [("Quiet", Fin q); ("Normal", Fin n); ("Volatile", Fin v);
       ("Crisis", Fin c)]%string /\
    ((regime r = "Quiet"%string /\ q + n + v + c == 1.1 /\ q == 0.7) \/
     (regime r = "Normal"%string /\ q + n + v + c == 0.9 /\ n == 0.6) \/
     (regime r = "Volatile"%string /\ q + n + v + c == 0.95 /\ v == 0.6) \/
     (regime r = "Crisis"%string /\ q + n + v + c == 1.25 /\ c == 0.8)) /\
    ~ q + n + v + c == 1.
Proof.
  unfold performRegimeAnalysis. cbn zeta.
  generalize (calculateRollingVolatility marketData) as vol.
  generalize (or_default (Some (calculateRollingCorrelation 0%nat)) (Fin 0.5)) as cor.
  intros cor vol. cbn [regime probabilities].
  destruct (gtb vol (Fin 0.25)); [destruct (gtb cor (Fin 0.7))|
    destruct (ltb vol (Fin 0.12)); [|destruct (gtb cor (Fin 0.8))]];
    do 4 eexists; (split; [reflexivity|]); split;
    try (intros H; vm_compute in H; discriminate).
  - right. right. right. repeat split.
  - right. right. left. repeat split.
  - left. repeat split.
  - right. right. right. repeat split.
  - right. left. repeat split.
Qed.

Hypothesis draws : uniform_draws.

(** With draws in [0,1) the correlation indicator stays below 0.8, so a
    crisis is only reported at a volatility above 0.25, and every
    volatility from 0.12 to 0.25 is the normal regime. *)
Theorem crisis_needs_volatility (marketData : MarketInput) :
  let r := performRegimeAnalysis marketData in
  (exists k, i_correlation r = Fin k /\ 0.3 <= k < 0.8) /\
  (regime r = "Crisis"%string -> gtb (i_volatility r) (Fin 0.25) = true) /\
  (gtb (i_volatility r) (Fin 0.25) = false ->
   ltb (i_volatility r) (Fin 0.12) = false -> regime r = "Normal"%string).
Proof.
  unfold performRegimeAnalysis. cbn zeta.
  cbn [regime i_correlation i_volatility].
  generalize (calculateRollingVolatility marketData) as vol. intros vol.
  unfold calculateRollingCorrelation.
  destruct (draws 0%nat) as (u & -> & Hu). cbn [mul add or_default truthy].
  assert (Hk : 0.3 <= 0.3 + u * 0.5 < 0.8) by lra.
  rewrite Qeq_bool_pos by lra. cbn [negb].
  assert (E8 : gtb (Fin (0.3 + u * 0.5)) (Fin 0.8) = false)
    by (apply ltb_Fin_false; lra).
  rewrite E8.
  split; [eexists; split; [reflexivity|exact Hk]|].
  destruct (gtb vol (Fin 0.25)).
  - split; [reflexivity|discriminate].
  - destruct (ltb vol (Fin 0.12)).
    + split; [discriminate|]. intros _ H. discriminate.
    + split; [discriminate|]. reflexivity.
Qed.

End Regimes.

(** Two prices under the sample draws: the correlation indicator is
    below 0.8. *)
Lemma crisis_needs_volatility_witness :
  exists k,
    QuantUI.i_correlation
      (QuantUI.performRegimeAnalysis (M := Sample.math)
         (QuantUI.Prices [Fin 100; Fin 101])) = Fin k /\
    (0.3 <= k < 0.8)%Q.
Proof.
  apply (@crisis_needs_volatility Sample.math sample_draws
           (QuantUI.Prices [Fin 100; Fin 101])).
Defined.

Section PercentileBands.
Import QuantUI Holdings.
Open Scope Q_scope.

Lemma finite_list (vs : list num) :
  Forall finite vs -> exists qs, vs = map Fin qs.
Proof.
  induction 1 as [|v vs [q ->] _ [qs ->]].
  - exists []. reflexivity.
  - exists (q :: qs). reflexivity.
Qed.

Lemma filter_numbers (qs : list Q) :
  filter (fun v => negb (isNaN v)) (map Fin qs) = map Fin qs.
Proof. induction qs as [|q qs IH]; simpl; [|rewrite IH]; reflexivity. Qed.

(** The entries at step [t], sorted: finite, and at least one when the
    first path reaches [t]. *)
Lemma column_sorted (first : list num) (rest : list (list num)) (t : nat) :
  Forall (Forall finite) (first :: rest) ->
  (t < List.length first)%nat ->
  exists qs,
    column (first :: rest) t = map Fin qs /\
    StronglySorted Qle qs /\ (1 <= List.length qs)%nat.
Proof.
  intros Hall Ht. unfold column.
  assert (Hraw : Forall finite
                   (flat_map (fun path => match nth_error path t with
                                          | Some v => [v]
                                          | None => []
                                          end) (first :: rest))).
  { apply Forall_flat_map. eapply Forall_impl; [|exact Hall].
    intros path Hp. destruct (nth_error path t) as [v|] eqn:E; [|constructor].
    constructor; [|constructor].
    exact (proj1 (Forall_forall _ _) Hp v (nth_error_In _ _ E)). }
  destruct (finite_list Hraw) as [raw Eraw].
  assert (Hlen : (1 <= List.length raw)%nat).
  { apply (f_equal (@List.length num)) in Eraw. rewrite length_map in Eraw.
    rewrite <- Eraw. cbn [flat_map]. rewrite length_app.
    destruct (nth_error first t) eqn:E; [simpl; lia|].
    apply nth_error_None in E. lia. }
  rewrite Eraw, filter_numbers.
  destruct (sort_asc_Fin raw) as (qs & -> & Hs & Hl).
  exists qs. repeat split; [exact Hs|lia].
Qed.

Lemma percentiles_step_ordered (first : list num) (rest : list (list num))
  (acc : Percentiles) (l : list (Q * Q * Q)) (t : nat) :
  Forall (Forall finite) (first :: rest) ->
  (t < List.length first)%nat ->
  ordered_percentiles acc l ->
  exists x, ordered_percentiles (percentiles_step (first :: rest) acc t)
              (l ++ [x]).
Proof.
  intros Hall Ht (E5 & Em & E95 & Hl).
  destruct (column_sorted Hall Ht) as (qs & Ecol & Hs & Hlen).
  unfold percentiles_step. rewrite Ecol, length_map.
  destruct (Nat.ltb_spec 0 (List.length qs)) as [_|H]; [|lia].
  unfold len. rewrite length_map. cbn [mul Math_floor].
  set (n := List.length qs) in *.
  pose proof (@cut_index n 0.05 Hlen ltac:(lra)) as H1.
  pose proof (@cut_index n 0.5 Hlen ltac:(lra)) as H2.
  pose proof (@cut_index n 0.95 Hlen ltac:(lra)) as H3.
  assert (Hn0 : 0 <= inject_Z (Z.of_nat n)).
  { change 0 with (inject_Z 0). rewrite <- Zle_Qle. lia. }
  assert (H12 : (Qfloor (inject_Z (Z.of_nat n) * 0.05)
                 <= Qfloor (inject_Z (Z.of_nat n) * 0.5))%Z)
    by (apply Qfloor_resp_le; nra).
  assert (H23 : (Qfloor (inject_Z (Z.of_nat n) * 0.5)
                 <= Qfloor (inject_Z (Z.of_nat n) * 0.95))%Z)
    by (apply Qfloor_resp_le; nra).
  set (k1 := Qfloor (inject_Z (Z.of_nat n) * 0.05)) in *.
  set (k2 := Qfloor (inject_Z (Z.of_nat n) * 0.5)) in *.
  set (k3 := Qfloor (inject_Z (Z.of_nat n) * 0.95)) in *.
  assert (Hdef : forall k, (0 <= k < Z.of_nat n)%Z ->
                           exists x, nth_error qs (Z.to_nat k) = Some x).
  { intros k Hk. destruct (nth_error qs (Z.to_nat k)) eqn:E; [eauto|].
    apply nth_error_None in E. fold n in E. lia. }
  destruct (Hdef k1 H1) as [a Ea], (Hdef k2 H2) as [b Eb],
    (Hdef k3 H3) as [c Ec].
  rewrite !index_nat by lia.
  rewrite !nth_error_map, Ea, Eb, Ec. cbn [option_map p5 median p95].
  exists (a, b, c). unfold ordered_percentiles. cbn [p5 median p95].
  rewrite !map_app, E5, Em, E95. cbn [map fst snd].
  repeat split; try reflexivity.
  apply Forall_app. split; [exact Hl|].
  constructor; [|constructor]. cbn [fst snd]. split.
  - apply (@sorted_nth_le qs (Z.to_nat k1) (Z.to_nat k2) a b Hs);
      [lia|assumption|assumption].
  - apply (@sorted_nth_le qs (Z.to_nat k2) (Z.to_nat k3) b c Hs);
      [lia|assumption|assumption].
Qed.

Lemma percentiles_fold_ordered (first : list num) (rest : list (list num))
  (steps : list nat) :
  Forall (Forall finite) (first :: rest) ->
  Forall (fun t => (t < List.length first)%nat) steps ->
  forall acc l,
    ordered_percentiles acc l ->
    exists l',
      ordered_percentiles
        (fold_left (percentiles_step (first :: rest)) steps acc) l' /\
      List.length l' = (List.length l + List.length steps)%nat.
Proof.
  intros Hall Hsteps.
  induction Hsteps as [|t steps Ht _ IH]; intros acc l Hacc.
  - exists l. split; [exact Hacc|simpl; lia].
  - cbn [fold_left].
    destruct (@percentiles_step_ordered first rest acc l t Hall Ht Hacc)
      as [x Hx].
    destruct (IH _ _ Hx) as (l' & Hl' & Hlen).
    exists l'. split; [exact Hl'|].
    rewrite Hlen, length_app. simpl. lia.
Qed.

(** On paths of finite numbers the three bands have one entry per step
    of the first non-empty path, ordered p5 <= median <= p95; the
    fallback on the previous median is never taken. *)
Theorem calculatePercentiles_ordered (paths : list (list num)) :
  Forall (Forall finite) paths ->
  exists l,
    ordered_percentiles (calculatePercentiles (Some paths)) l /\
    List.length l =
      match filter (fun path => (0 <? List.length path)%nat) paths with
      | [] => O
      | first :: _ => List.length first
      end.
Proof.
  intros Hall. unfold calculatePercentiles.
  assert (Hv : Forall (Forall finite)
                 (filter (fun path => (0 <? List.length path)%nat) paths)).
  { apply Forall_forall. intros p Hp. apply filter_In in Hp.
    exact (proj1 (Forall_forall _ _) Hall p (proj1 Hp)). }
  assert (H0 : ordered_percentiles {| p5 := []; median := []; p95 := [] |} []).
  { repeat split. constructor. }
  destruct paths as [|p0 ps].
  { exists []. split; [exact H0|reflexivity]. }
  destruct (filter _ (p0 :: ps)) as [|first rest].
  { exists []. split; [exact H0|reflexivity]. }
  assert (Hs : Forall (fun t => (t < List.length first)%nat)
                 (seq 0 (List.length first))).
  { apply Forall_forall. intros t Ht. apply in_seq in Ht. lia. }
  destruct (@percentiles_fold_ordered first rest (seq 0 (List.length first))
              Hv Hs {| p5 := []; median := []; p95 := [] |} [] H0)
    as (l & Hl & Hlen).
  exists l. split; [exact Hl|]. rewrite Hlen, length_seq. reflexivity.
Qed.

End PercentileBands.

(** Two paths of two steps. *)
Lemma calculatePercentiles_ordered_witness :
  exists l,
    ordered_percentiles
      (QuantUI.calculatePercentiles
         (Some [[Fin 100; Fin 104]; [Fin 100; Fin 97]])) l /\
    List.length l = 2%nat.
Proof.
  apply (@calculatePercentiles_ordered [[Fin 100; Fin 104]; [Fin 100; Fin 97]]).
  repeat constructor; eexists; reflexivity.
Defined.

(* ------------------------------------------------------------------ *)
(** ** QuantitativeAnalysisEngine: least squares, regime of a short series *)
(* ------------------------------------------------------------------ *)

Section LeastSquares.
Import QuantEngine Holdings.
Open Scope Q_scope.


Lemma div_NaN_r (x : num) : div x NaN = NaN.
Proof. destruct x; reflexivity. Qed.

Lemma div_zero_zero (a b : Q) : a == 0 -> b == 0 -> div (Fin a) (Fin b) = NaN.
Proof.
  intros Ha Hb. simpl.
  rewrite (proj2 (Qeq_bool_iff b 0) Hb).
  unfold Qsgn. rewrite (proj1 (Qeq_alt a 0) Ha). reflexivity.
Qed.

Lemma Qsgn_0_plus (q : Q) : Qsgn (0 + q) = Qsgn q.
Proof. unfold Qsgn. rewrite Qplus_0_l. reflexivity. Qed.

Lemma sub_self_not_finite (x : num) :
  (forall q, x <> Fin q) -> sub x x = NaN.
Proof. destruct x as [| | |q]; try reflexivity. intros H. destruct (H q eq_refl). Qed.

(** One observation, or none: the quotient is 0/0. *)
Theorem ordinaryLeastSquares_degenerate (y x : list num) :
  List.length y = List.length x -> (List.length y <= 1)%nat ->
  ordinaryLeastSquares y x = NaN.
Proof.
  intros Hlen Hle.
  destruct y as [|b [|b' y]], x as [|a [|a' x]]; simpl in *; try lia.
  - reflexivity.
  - unfold ordinaryLeastSquares.
    cbn [len List.length Analyzer.indexed seq combine fold_left fst snd
         nth_error to_num sum Z.of_nat].
    destruct a as [| | |a].
    + apply div_NaN_r.
    + apply div_NaN_r.
    + apply div_NaN_r.
    + destruct b as [| | |b].
      * reflexivity.
      * cbn [add mul sgn signed_inf]. rewrite Qsgn_0_plus.
        destruct (Qsgn a); reflexivity.
      * cbn [add mul sgn signed_inf]. rewrite Qsgn_0_plus.
        destruct (Qsgn a); reflexivity.
      * cbn [add mul sub neg]. apply div_zero_zero.
        -- change (inject_Z (Z.of_nat (List.length [Fin b]))) with 1. ring.
        -- change (inject_Z (Z.of_nat (List.length [Fin b]))) with 1. ring.
Qed.

(** The sum of the products, on observations that lie on the line
    [y = a + b x]. *)
Lemma products_on_line (a b : Q) (ys : list num) (xs : list Q) :
  forall (k : nat) (acc : Q),
    (forall i x, nth_error xs i = Some x ->
                 nth_error ys (k + i) = Some (Fin (a + b * x))) ->
    fold_left
      (fun s (e : nat * num) => add s (mul (snd e) (to_num (nth_error ys (fst e)))))
      (combine (seq k (List.length (map Fin xs))) (map Fin xs)) (Fin acc)
    = Fin (fold_left (fun s x => s + x * (a + b * x)) xs acc).
Proof.
  induction xs as [|x xs IH]; intros k acc Hy; [reflexivity|].
  cbn [map List.length seq combine fold_left fst snd].
  pose proof (Hy 0%nat x eq_refl) as H0. rewrite Nat.add_0_r in H0.
  rewrite H0. cbn [to_num mul add].
  apply IH. intros i x' Hi.
  replace (S k + i)%nat with (k + S i)%nat by lia. apply (Hy (S i)). exact Hi.
Qed.

Lemma line_sums (a b : Q) (xs : list Q) :
  forall s1 s2,
    fold_left (fun s x => s + x * (a + b * x)) xs s1
    == s1 + a * sumq xs 0 + b * sumsq xs 0 /\
    sumq (map (fun x => a + b * x) xs) s2
    == s2 + inject_Z (Z.of_nat (List.length xs)) * a + b * sumq xs 0.
Proof.
  induction xs as [|x xs IH]; intros s1 s2.
  - simpl. change (inject_Z 0) with 0. split; ring.
  - cbn [fold_left map sumq sumsq List.length].
    fold (sumq (map (fun x => a + b * x) xs) (s2 + (a + b * x))).
    fold (sumq xs (0 + x)). fold (sumsq xs (0 + x * x)).
    destruct (IH (s1 + x * (a + b * x)) (s2 + (a + b * x))) as [-> ->].
    rewrite (sumq_acc xs (0 + x)), (sumsq_acc xs (0 + x * x)).
    rewrite Nat2Z.inj_succ. unfold Z.succ. rewrite inject_Z_plus.
    change (inject_Z 1) with 1. split; ring.
Qed.

(** In exact arithmetic, observations on a line [y = a + b x] whose
    regressor is not constant give back the slope [b]. *)
Theorem ordinaryLeastSquares_recovers_slope (a b : Q) (xs : list Q) :
  ~ inject_Z (Z.of_nat (List.length xs)) * sumsq xs 0
    == sumq xs 0 * sumq xs 0 ->
  exists beta,
    ordinaryLeastSquares (map (fun x => Fin (a + b * x)) xs) (map Fin xs)
    = Fin beta /\ beta == b.
Proof.
  intros Hden. unfold ordinaryLeastSquares, Analyzer.indexed.
  rewrite (@products_on_line a b (map (fun x => Fin (a + b * x)) xs) xs 0 0).
  2:{ intros i x Hi. rewrite Nat.add_0_l, nth_error_map, Hi. reflexivity. }
  assert (E : map (fun x => Fin (a + b * x)) xs
              = map Fin (map (fun x => a + b * x) xs))
    by (rewrite map_map; reflexivity).
  rewrite E.
  rewrite !sum_Fin. rewrite (herfindahl_fold xs 0 : fold_left _ _ _ = _).
  unfold len. rewrite !length_map.
  destruct (line_sums a b xs 0 0) as [Exy Ey].
  set (n := inject_Z (Z.of_nat (List.length xs))) in *.
  set (Sxy := fold_left (fun s x => s + x * (a + b * x)) xs 0) in *.
  set (Sy := sumq (map (fun x => a + b * x) xs) 0) in *.
  set (S1 := sumq xs 0) in *. set (S2 := sumsq xs 0) in *.
  cbn [mul sub add neg].
  assert (Hd : ~ n * S2 + - (S1 * S1) == 0) by (intros H; apply Hden; lra).
  assert (Eb : Qeq_bool (n * S2 + - (S1 * S1)) 0 = false).
  { destruct (Qeq_bool _ 0) eqn:E0; [|reflexivity].
    apply Qeq_bool_eq in E0. contradiction. }
  simpl. rewrite Eb. eexists. split; [reflexivity|].
  rewrite Exy, Ey. field. exact Hd.
Qed.

End LeastSquares.

(** One observation. *)
Lemma ordinaryLeastSquares_degenerate_witness :
  QuantEngine.ordinaryLeastSquares [Fin 1] [Fin 2] = NaN.
Proof.
  apply (@ordinaryLeastSquares_degenerate [Fin 1] [Fin 2]).
  - reflexivity.
  - simpl. lia.
Defined.

(** Three observations on the line y = 1 + 2 x. *)
Lemma ordinaryLeastSquares_recovers_slope_witness :
  exists beta,
    QuantEngine.ordinaryLeastSquares [Fin 1; Fin 3; Fin 5] [Fin 0; Fin 1; Fin 2]
    = Fin beta /\ (beta == 2)%Q.
Proof.
  destruct (@ordinaryLeastSquares_recovers_slope 1 2 [0; 1; 2]%Q)
    as (beta & E & Hb).
  - intros H. vm_compute in H. discriminate.
  - exists beta. split; [|exact Hb].
    rewrite <- E. apply f_equal2; [|reflexivity].
    vm_compute. reflexivity.
Defined.

Section RegimeOfShortSeries.
Import QuantEngine.
Context {M : Math}.

(** With fewer than two prices there is no return: the volatility is
    the square root of NaN, every threshold test fails and the regime
    is reported as a crisis. *)
Theorem detectRegime_short_series (marketData : list num) :
  Math_sqrt NaN = NaN ->
  (List.length marketData < 2)%nat ->
  detectRegime marketData = "crisis"%string.
Proof.
  intros Hsqrt Hlen.
  destruct marketData as [|p [|p' rest]]; simpl in Hlen; try lia;
    unfold detectRegime, calculateVolatility; simpl; rewrite Hsqrt; reflexivity.
Qed.

End RegimeOfShortSeries.

(** One price. *)
Lemma detectRegime_short_series_witness :
  QuantEngine.detectRegime (M := Sample.math) [Fin 100] = "crisis"%string.
Proof.
  apply (@detectRegime_short_series Sample.math [Fin 100]).
  - reflexivity.
  - simpl. lia.
Defined.
